(** * Attendance System: the server's storage layer and HTTP handlers

    A shallow embedding of [server/storage.ts] (class [DatabaseStorage]),
    [server/routes.ts] ([authMiddleware] and the handlers registered by
    [registerRoutes]) and of the table declarations of the shared schema.

    - A table is the list of its rows in insertion order; [select ... where]
      is [filter], the destructuring [const [x] = await ...] takes the head.
    - The constraints the schema declares (primary keys, [unique()],
      the 32-bit [integer] column) are checked where rows are written; a
      violated constraint is an exception, which every handler's [catch]
      turns into status 500.  Writes made before an exception stay.
    - What a handler reads from its environment is an explicit input: the
      clock ([new Date()], [Date.now()], [defaultNow()]), the identifiers
      produced by [gen_random_uuid()] and [uuidv4()], the bcrypt salt.
    - The libraries (bcryptjs, jsonwebtoken, JSON, zod's e-mail pattern,
      qrcode) are the fields of the class [Services]; the properties hold
      for every instance.
    - A request body carries, under each key, a value of the type the
      handler expects, or nothing. *)

From Stdlib Require Import List String Ascii ZArith Bool Lia.
Import ListNotations.

Local Open Scope string_scope.
Local Open Scope list_scope.

(** ** Exceptions *)

(** A storage call either returns or throws an [Error] with a message. *)
Inductive Result (A : Type) : Type :=
| Ok (a : A)
| Thrown (message : string).

Arguments Ok {A} a.
Arguments Thrown {A} message.

Definition bind {A B : Type} (r : Result A) (k : A -> Result B) : Result B :=
  match r with
  | Ok a => k a
  | Thrown m => Thrown m
  end.

Notation "x <- e ;; k" := (bind e (fun x => k))
  (at level 61, e at next level, right associativity).
Notation "' p <- e ;; k" := (bind e (fun p => k))
  (at level 61, p pattern, e at next level, right associativity).

(** ** Rows of the schema *)

(** [role: text("role").notNull().$type<'admin' | 'student'>()] *)
Inductive Role : Type := role_admin | role_student.

Definition Role_eqb (a b : Role) : bool :=
  match a, b with
  | role_admin, role_admin | role_student, role_student => true
  | _, _ => false
  end.

Record User : Type := mkUser {
  u_id : string;
  u_email : string;
  u_password : string;
  u_role : Role;
  u_studentId : option string;
  u_createdAt : Z
}.

Record Student : Type := mkStudent {
  s_id : string;
  s_studentId : string;
  s_name : string;
  s_courseId : string;
  s_sectionId : string;
  s_age : option Z;
  s_email : option string;
  s_birthday : option string;
  s_profilePicture : option string;
  s_createdAt : Z
}.

Record Course : Type := mkCourse {
  c_id : string;
  c_name : string;
  c_description : option string;
  c_createdAt : Z
}.

Record Section : Type := mkSection {
  sec_id : string;
  sec_courseId : string;
  sec_name : string;
  sec_createdAt : Z
}.

Record Event : Type := mkEvent {
  e_id : string;
  e_name : string;
  e_description : option string;
  e_eventDate : string;
  e_eventTime : string;
  e_qrCode : option string;
  e_qrCodeData : string;
  e_isActive : bool;
  e_createdAt : Z
}.

Record EventCourseSection : Type := mkEcs {
  ecs_id : string;
  ecs_eventId : string;
  ecs_courseId : string;
  ecs_sectionId : string
}.

Record Attendance : Type := mkAttendance {
  a_id : string;
  a_eventId : string;
  a_studentId : string;
  a_timeIn : option Z;
  a_timeOut : option Z;
  a_createdAt : Z
}.

Record SystemSettings : Type := mkSettings {
  ss_id : string;
  ss_systemName : string;
  ss_qrCodeEnabled : bool;
  ss_updatedAt : Z
}.

(** The database: one list of rows per [pgTable]. *)
Record DB : Type := mkDB {
  users : list User;
  students : list Student;
  courses : list Course;
  sections : list Section;
  events : list Event;
  eventCourseSections : list EventCourseSection;
  attendance : list Attendance;
  systemSettings : list SystemSettings
}.

Definition empty_db : DB := mkDB [] [] [] [] [] [] [] [].

Definition set_users (db : DB) (t : list User) : DB :=
  mkDB t (students db) (courses db) (sections db) (events db)
       (eventCourseSections db) (attendance db) (systemSettings db).
Definition set_students (db : DB) (t : list Student) : DB :=
  mkDB (users db) t (courses db) (sections db) (events db)
       (eventCourseSections db) (attendance db) (systemSettings db).
Definition set_courses (db : DB) (t : list Course) : DB :=
  mkDB (users db) (students db) t (sections db) (events db)
       (eventCourseSections db) (attendance db) (systemSettings db).
Definition set_sections (db : DB) (t : list Section) : DB :=
  mkDB (users db) (students db) (courses db) t (events db)
       (eventCourseSections db) (attendance db) (systemSettings db).
Definition set_events (db : DB) (t : list Event) : DB :=
  mkDB (users db) (students db) (courses db) (sections db) t
       (eventCourseSections db) (attendance db) (systemSettings db).
Definition set_eventCourseSections (db : DB) (t : list EventCourseSection) : DB :=
  mkDB (users db) (students db) (courses db) (sections db) (events db)
       t (attendance db) (systemSettings db).
Definition set_attendance (db : DB) (t : list Attendance) : DB :=
  mkDB (users db) (students db) (courses db) (sections db) (events db)
       (eventCourseSections db) t (systemSettings db).
Definition set_systemSettings (db : DB) (t : list SystemSettings) : DB :=
  mkDB (users db) (students db) (courses db) (sections db) (events db)
       (eventCourseSections db) (attendance db) t.

(** ** The environment of one request *)

Record Env : Type := mkEnv {
  now : Z;                 (* [new Date()], [Date.now()], [defaultNow()] *)
  uuid : nat -> string;    (* the n-th identifier generated while serving *)
  salt : string            (* the salt [bcrypt.hash(password, 10)] draws *)
}.

(** ** The libraries *)

Class Services : Type := {
  (* bcryptjs *)
  bcrypt_hash : string -> string -> string;       (* salt, password *)
  bcrypt_compare : string -> string -> bool;      (* password, hash *)
  (* jsonwebtoken, with JWT_SECRET; the first argument is the clock *)
  jwt_sign : Z -> string -> string;               (* {userId}, expiresIn 7d *)
  jwt_verify : Z -> string -> option string;      (* decoded.userId, None: throws *)
  (* z.string().email() *)
  is_email : string -> bool;
  (* JSON.stringify({ eventId, timestamp }) *)
  JSON_stringify : string -> Z -> string;
  (* JSON.parse(qrCodeData).eventId; Thrown when JSON.parse throws *)
  JSON_parse : string -> Result string;
  (* QRCode.toDataURL *)
  QRCode_toDataURL : string -> string
}.

(** ** SQL on lists *)

Definition first {R : Type} (rows : list R) : option R := hd_error rows.

Definition update_where {R : Type} (p : R -> bool) (f : R -> R) (t : list R) : list R :=
  map (fun r => if p r then f r else r) t.

(** [.returning()] of an update: the rows after the update. *)
Definition updated_rows {R : Type} (p : R -> bool) (f : R -> R) (t : list R) : list R :=
  map f (filter p t).

Definition delete_where {R : Type} (p : R -> bool) (t : list R) : list R :=
  filter (fun r => negb (p r)) t.

(** [a LEFT JOIN b ON on]: every left row, once per matching right row, or
    once with a null right side. *)
Definition left_join {A B : Type} (on : A -> B -> bool) (l : list A) (r : list B)
  : list (A * option B) :=
  flat_map (fun a =>
    match filter (on a) r with
    | [] => [(a, None)]
    | ms => map (fun b => (a, Some b)) ms
    end) l.

Definition quoted (s : string) : string :=
  String (ascii_of_nat 34) (String.append s (String (ascii_of_nat 34) EmptyString)).

Definition duplicate_key (constraint : string) : string :=
  String.append "duplicate key value violates unique constraint " (quoted constraint).

(** A value for a PostgreSQL [integer] column. *)
Definition pg_integer (n : Z) : Result Z :=
  if ((-2147483648 <=? n) && (n <=? 2147483647))%Z then Ok n
  else Thrown "value is out of range for type integer".

(** ** storage.ts: users *)

Record InsertUser : Type := mkInsertUser {
  iu_email : string;
  iu_password : string;
  iu_role : Role;
  iu_studentId : option string
}.

Definition getUser (db : DB) (id : string) : option User :=
  first (filter (fun u => u_id u =? id) (users db)).

Definition getUserByEmail (db : DB) (email : string) : option User :=
  first (filter (fun u => u_email u =? email) (users db)).

Definition createUser (gen : string) (clock : Z) (db : DB) (insertUser : InsertUser)
  : Result (User * DB) :=
  let user := mkUser gen (iu_email insertUser) (iu_password insertUser)
                     (iu_role insertUser) (iu_studentId insertUser) clock in
  if existsb (fun u => u_id u =? gen) (users db) then
    Thrown (duplicate_key "users_pkey")
  else if existsb (fun u => u_email u =? iu_email insertUser) (users db) then
    Thrown (duplicate_key "users_email_unique")
  else Ok (user, set_users db (users db ++ [user])).

(** ** storage.ts: students *)

Record InsertStudent : Type := mkInsertStudent {
  ist_studentId : string;
  ist_name : string;
  ist_courseId : string;
  ist_sectionId : string;
  ist_age : option Z;
  ist_email : option string;
  ist_birthday : option string;
  ist_profilePicture : option string
}.

(** [Partial<InsertStudent>]: an absent key is [None]; a nullable column
    may be set to null, [Some None]. *)
Record StudentPatch : Type := mkStudentPatch {
  sp_studentId : option string;
  sp_name : option string;
  sp_courseId : option string;
  sp_sectionId : option string;
  sp_age : option (option Z);
  sp_email : option (option string);
  sp_birthday : option (option string);
  sp_profilePicture : option (option string)
}.

(** [{ ...student.students, course: student.courses, section: student.sections }] *)
Record StudentJoined : Type := mkStudentJoined {
  sj_row : Student;
  sj_course : option Course;
  sj_section : option Section
}.

Definition students_joined (db : DB) : list StudentJoined :=
  map (fun r => mkStudentJoined (fst (fst r)) (snd (fst r)) (snd r))
    (left_join (fun sc sec => s_sectionId (fst sc) =? sec_id sec)
       (left_join (fun s c => s_courseId s =? c_id c) (students db) (courses db))
       (sections db)).

Definition getStudent (db : DB) (id : string) : option StudentJoined :=
  first (filter (fun j => s_id (sj_row j) =? id) (students_joined db)).

Definition getStudentByStudentId (db : DB) (studentId : string) : option StudentJoined :=
  first (filter (fun j => s_studentId (sj_row j) =? studentId) (students_joined db)).

Definition getAllStudents (db : DB) : list StudentJoined := students_joined db.

Definition pg_integer_opt (o : option Z) : Result (option Z) :=
  match o with
  | None => Ok None
  | Some n => n' <- pg_integer n ;; Ok (Some n')
  end.

Definition createStudent (gen : string) (clock : Z) (db : DB) (i : InsertStudent)
  : Result (Student * DB) :=
  age <- pg_integer_opt (ist_age i) ;;
  let row := mkStudent gen (ist_studentId i) (ist_name i) (ist_courseId i) (ist_sectionId i)
                       age (ist_email i) (ist_birthday i) (ist_profilePicture i) clock in
  if existsb (fun s => s_id s =? gen) (students db) then
    Thrown (duplicate_key "students_pkey")
  else if existsb (fun s => s_studentId s =? ist_studentId i) (students db) then
    Thrown (duplicate_key "students_student_id_unique")
  else Ok (row, set_students db (students db ++ [row])).

Definition or_keep {A : Type} (o : option A) (old : A) : A :=
  match o with Some v => v | None => old end.

Definition is_some {A : Type} (o : option A) : bool :=
  match o with Some _ => true | None => false end.

Definition apply_student_patch (p : StudentPatch) (s : Student) : Student :=
  mkStudent (s_id s)
    (or_keep (sp_studentId p) (s_studentId s))
    (or_keep (sp_name p) (s_name s))
    (or_keep (sp_courseId p) (s_courseId s))
    (or_keep (sp_sectionId p) (s_sectionId s))
    (or_keep (sp_age p) (s_age s))
    (or_keep (sp_email p) (s_email s))
    (or_keep (sp_birthday p) (s_birthday s))
    (or_keep (sp_profilePicture p) (s_profilePicture s))
    (s_createdAt s).

Definition student_patch_empty (p : StudentPatch) : bool :=
  negb (is_some (sp_studentId p) || is_some (sp_name p) || is_some (sp_courseId p)
        || is_some (sp_sectionId p) || is_some (sp_age p) || is_some (sp_email p)
        || is_some (sp_birthday p) || is_some (sp_profilePicture p)).

(** drizzle refuses an update that sets nothing. *)
Definition no_values_to_set : string := "No values to set".

Definition updateStudent (db : DB) (id : string) (p : StudentPatch)
  : Result (option Student * DB) :=
  if student_patch_empty p then Thrown no_values_to_set else
  _ <- match sp_age p with
       | Some a => pg_integer_opt a
       | None => Ok None
       end ;;
  let hit := fun s => s_id s =? id in
  let clash :=
    match sp_studentId p with
    | Some v => existsb hit (students db)
                && existsb (fun s => negb (hit s) && (s_studentId s =? v)) (students db)
    | None => false
    end in
  if clash then Thrown (duplicate_key "students_student_id_unique")
  else Ok (first (updated_rows hit (apply_student_patch p) (students db)),
           set_students db (update_where hit (apply_student_patch p) (students db))).

Definition deleteStudent (db : DB) (id : string) : DB :=
  set_students db (delete_where (fun s => s_id s =? id) (students db)).

(** ** storage.ts: courses *)

Record InsertCourse : Type := mkInsertCourse {
  ic_name : string;
  ic_description : option string
}.

Record CoursePatch : Type := mkCoursePatch {
  cp_name : option string;
  cp_description : option (option string)
}.

Definition getCourse (db : DB) (id : string) : option Course :=
  first (filter (fun c => c_id c =? id) (courses db)).

Definition getAllCourses (db : DB) : list Course := courses db.

Definition createCourse (gen : string) (clock : Z) (db : DB) (i : InsertCourse)
  : Result (Course * DB) :=
  let row := mkCourse gen (ic_name i) (ic_description i) clock in
  if existsb (fun c => c_id c =? gen) (courses db) then
    Thrown (duplicate_key "courses_pkey")
  else Ok (row, set_courses db (courses db ++ [row])).

Definition apply_course_patch (p : CoursePatch) (c : Course) : Course :=
  mkCourse (c_id c) (or_keep (cp_name p) (c_name c))
           (or_keep (cp_description p) (c_description c)) (c_createdAt c).

Definition updateCourse (db : DB) (id : string) (p : CoursePatch)
  : Result (option Course * DB) :=
  if negb (is_some (cp_name p) || is_some (cp_description p)) then
    Thrown no_values_to_set
  else
    let hit := fun c => c_id c =? id in
    Ok (first (updated_rows hit (apply_course_patch p) (courses db)),
        set_courses db (update_where hit (apply_course_patch p) (courses db))).

Definition deleteCourse (db : DB) (id : string) : DB :=
  set_courses db (delete_where (fun c => c_id c =? id) (courses db)).

(** ** storage.ts: sections *)

Record InsertSection : Type := mkInsertSection {
  isec_courseId : string;
  isec_name : string
}.

Record SectionPatch : Type := mkSectionPatch {
  secp_courseId : option string;
  secp_name : option string
}.

(** [{ ...section.sections, course: section.courses }] *)
Record SectionJoined : Type := mkSectionJoined {
  secj_row : Section;
  secj_course : option Course
}.

Definition sections_joined (db : DB) : list SectionJoined :=
  map (fun r => mkSectionJoined (fst r) (snd r))
    (left_join (fun sec c => sec_courseId sec =? c_id c) (sections db) (courses db)).

Definition getSection (db : DB) (id : string) : option SectionJoined :=
  first (filter (fun j => sec_id (secj_row j) =? id) (sections_joined db)).

Definition getAllSections (db : DB) : list SectionJoined := sections_joined db.

Definition createSection (gen : string) (clock : Z) (db : DB) (i : InsertSection)
  : Result (Section * DB) :=
  let row := mkSection gen (isec_courseId i) (isec_name i) clock in
  if existsb (fun s => sec_id s =? gen) (sections db) then
    Thrown (duplicate_key "sections_pkey")
  else Ok (row, set_sections db (sections db ++ [row])).

Definition apply_section_patch (p : SectionPatch) (s : Section) : Section :=
  mkSection (sec_id s) (or_keep (secp_courseId p) (sec_courseId s))
            (or_keep (secp_name p) (sec_name s)) (sec_createdAt s).

Definition updateSection (db : DB) (id : string) (p : SectionPatch)
  : Result (option Section * DB) :=
  if negb (is_some (secp_courseId p) || is_some (secp_name p)) then
    Thrown no_values_to_set
  else
    let hit := fun s => sec_id s =? id in
    Ok (first (updated_rows hit (apply_section_patch p) (sections db)),
        set_sections db (update_where hit (apply_section_patch p) (sections db))).

Definition deleteSection (db : DB) (id : string) : DB :=
  set_sections db (delete_where (fun s => sec_id s =? id) (sections db)).

(** ** storage.ts: events and their course-section associations *)

Record InsertEvent : Type := mkInsertEvent {
  ie_name : string;
  ie_description : option string;
  ie_eventDate : string;
  ie_eventTime : string;
  ie_qrCode : option string;
  ie_qrCodeData : string;
  ie_isActive : option bool        (* absent: [.default(true)] *)
}.

Record EventPatch : Type := mkEventPatch {
  ep_name : option string;
  ep_description : option (option string);
  ep_eventDate : option string;
  ep_eventTime : option string;
  ep_qrCode : option (option string);
  ep_qrCodeData : option string;
  ep_isActive : option bool
}.

(** The values handed to [createEventCourseSection]; the routes take
    [courseId] and [sectionId] from the request body as they come. *)
Record InsertEventCourseSection : Type := mkInsertEcs {
  iecs_eventId : string;
  iecs_courseId : option string;
  iecs_sectionId : option string
}.

(** [{ ...r.event_course_sections, course: r.courses, section: r.sections }] *)
Record EcsJoined : Type := mkEcsJoined {
  ecsj_row : EventCourseSection;
  ecsj_course : option Course;
  ecsj_section : option Section
}.

(** [{ ...event, eventCourseSections }] *)
Record EventJoined : Type := mkEventJoined {
  ej_row : Event;
  ej_eventCourseSections : list EcsJoined
}.

Definition not_null (column : string) : string :=
  String.append "null value in column "
    (String.append (quoted column) " violates not-null constraint").

Definition createEventCourseSection (gen : string) (db : DB) (i : InsertEventCourseSection)
  : Result (EventCourseSection * DB) :=
  match iecs_courseId i, iecs_sectionId i with
  | None, _ => Thrown (not_null "course_id")
  | Some _, None => Thrown (not_null "section_id")
  | Some c, Some s =>
      let row := mkEcs gen (iecs_eventId i) c s in
      if existsb (fun r => ecs_id r =? gen) (eventCourseSections db) then
        Thrown (duplicate_key "event_course_sections_pkey")
      else Ok (row, set_eventCourseSections db (eventCourseSections db ++ [row]))
  end.

Definition getEventCourseSections (db : DB) (eventId : string) : list EcsJoined :=
  map (fun r => mkEcsJoined (fst (fst r)) (snd (fst r)) (snd r))
    (filter (fun r => ecs_eventId (fst (fst r)) =? eventId)
       (left_join (fun ec sec => ecs_sectionId (fst ec) =? sec_id sec)
          (left_join (fun e c => ecs_courseId e =? c_id c)
             (eventCourseSections db) (courses db))
          (sections db))).

Definition deleteEventCourseSections (db : DB) (eventId : string) : DB :=
  set_eventCourseSections db
    (delete_where (fun r => ecs_eventId r =? eventId) (eventCourseSections db)).

Definition getEvent (db : DB) (id : string) : option EventJoined :=
  match first (filter (fun e => e_id e =? id) (events db)) with
  | None => None
  | Some event => Some (mkEventJoined event (getEventCourseSections db id))
  end.

Definition getAllEvents (db : DB) : list EventJoined :=
  map (fun event => mkEventJoined event (getEventCourseSections db (e_id event)))
      (events db).

Definition createEvent (gen : string) (clock : Z) (db : DB) (i : InsertEvent)
  : Result (Event * DB) :=
  let row := mkEvent gen (ie_name i) (ie_description i) (ie_eventDate i) (ie_eventTime i)
                     (ie_qrCode i) (ie_qrCodeData i) (or_keep (ie_isActive i) true) clock in
  if existsb (fun e => e_id e =? gen) (events db) then
    Thrown (duplicate_key "events_pkey")
  else Ok (row, set_events db (events db ++ [row])).

Definition apply_event_patch (p : EventPatch) (e : Event) : Event :=
  mkEvent (e_id e)
    (or_keep (ep_name p) (e_name e))
    (or_keep (ep_description p) (e_description e))
    (or_keep (ep_eventDate p) (e_eventDate e))
    (or_keep (ep_eventTime p) (e_eventTime e))
    (or_keep (ep_qrCode p) (e_qrCode e))
    (or_keep (ep_qrCodeData p) (e_qrCodeData e))
    (or_keep (ep_isActive p) (e_isActive e))
    (e_createdAt e).

Definition event_patch_empty (p : EventPatch) : bool :=
  negb (is_some (ep_name p) || is_some (ep_description p) || is_some (ep_eventDate p)
        || is_some (ep_eventTime p) || is_some (ep_qrCode p) || is_some (ep_qrCodeData p)
        || is_some (ep_isActive p)).

Definition updateEvent (db : DB) (id : string) (p : EventPatch)
  : Result (option Event * DB) :=
  if event_patch_empty p then Thrown no_values_to_set
  else
    let hit := fun e => e_id e =? id in
    Ok (first (updated_rows hit (apply_event_patch p) (events db)),
        set_events db (update_where hit (apply_event_patch p) (events db))).

Definition deleteEvent (db : DB) (id : string) : DB :=
  set_events db (delete_where (fun e => e_id e =? id) (events db)).

(** ** storage.ts: attendance *)

Record InsertAttendance : Type := mkInsertAttendance {
  ia_eventId : string;
  ia_studentId : string;
  ia_timeIn : option Z;
  ia_timeOut : option Z
}.

Record AttendancePatch : Type := mkAttendancePatch {
  ap_eventId : option string;
  ap_studentId : option string;
  ap_timeIn : option (option Z);
  ap_timeOut : option (option Z)
}.

Definition getAttendance (db : DB) (eventId studentId : string) : option Attendance :=
  first (filter (fun a => (a_eventId a =? eventId) && (a_studentId a =? studentId))
                (attendance db)).

(** The table declares a primary key and no other constraint. *)
Definition createAttendance (gen : string) (clock : Z) (db : DB) (i : InsertAttendance)
  : Result (Attendance * DB) :=
  let record := mkAttendance gen (ia_eventId i) (ia_studentId i)
                             (ia_timeIn i) (ia_timeOut i) clock in
  if existsb (fun a => a_id a =? gen) (attendance db) then
    Thrown (duplicate_key "attendance_pkey")
  else Ok (record, set_attendance db (attendance db ++ [record])).

Definition apply_attendance_patch (p : AttendancePatch) (a : Attendance) : Attendance :=
  mkAttendance (a_id a)
    (or_keep (ap_eventId p) (a_eventId a))
    (or_keep (ap_studentId p) (a_studentId a))
    (or_keep (ap_timeIn p) (a_timeIn a))
    (or_keep (ap_timeOut p) (a_timeOut a))
    (a_createdAt a).

Definition updateAttendance (db : DB) (id : string) (p : AttendancePatch)
  : Result (option Attendance * DB) :=
  if negb (is_some (ap_eventId p) || is_some (ap_studentId p)
           || is_some (ap_timeIn p) || is_some (ap_timeOut p)) then
    Thrown no_values_to_set
  else
    let hit := fun a => a_id a =? id in
    Ok (first (updated_rows hit (apply_attendance_patch p) (attendance db)),
        set_attendance db (update_where hit (apply_attendance_patch p) (attendance db))).

(** ** storage.ts: system settings *)

(** [Partial<InsertSystemSettings>] *)
Record SettingsPatch : Type := mkSettingsPatch {
  stp_systemName : option string;
  stp_qrCodeEnabled : option bool
}.

(** [db.select().from(systemSettings).limit(1)] *)
Definition getSystemSettings (db : DB) : option SystemSettings :=
  first (firstn 1 (systemSettings db)).

Definition updateSystemSettings (gen : string) (clock : Z) (db : DB)
  (insertSettings : SettingsPatch) : Result (option SystemSettings * DB) :=
  match getSystemSettings db with
  | Some existing =>
      (* .set({ ...insertSettings, updatedAt: new Date() }) *)
      let hit := fun r => ss_id r =? ss_id existing in
      let set := fun r =>
        mkSettings (ss_id r)
          (or_keep (stp_systemName insertSettings) (ss_systemName r))
          (or_keep (stp_qrCodeEnabled insertSettings) (ss_qrCodeEnabled r))
          clock in
      Ok (first (updated_rows hit set (systemSettings db)),
          set_systemSettings db (update_where hit set (systemSettings db)))
  | None =>
      (* every column has a default *)
      let created :=
        mkSettings gen
          (or_keep (stp_systemName insertSettings) "Attendance System")
          (or_keep (stp_qrCodeEnabled insertSettings) true)
          clock in
      if existsb (fun r => ss_id r =? gen) (systemSettings db) then
        Thrown (duplicate_key "system_settings_pkey")
      else Ok (Some created, set_systemSettings db (systemSettings db ++ [created]))
  end.

(** ** Handlers: state, exceptions, responses *)

(** What a piece of a handler does to the database: it returns a value, or
    throws; either way the writes made so far stay. *)
Inductive Run (A : Type) : Type :=
| Returned (a : A) (db : DB)
| Raised (message : string) (db : DB).

Arguments Returned {A} a db.
Arguments Raised {A} message db.

Definition M (A : Type) : Type := DB -> Run A.

Definition ret {A : Type} (a : A) : M A := fun db => Returned a db.

Definition throw {A : Type} (message : string) : M A := fun db => Raised message db.

Definition bindM {A B : Type} (m : M A) (k : A -> M B) : M B :=
  fun db =>
    match m db with
    | Returned a db' => k a db'
    | Raised msg db' => Raised msg db'
    end.

Notation "x <~ e ;; k" := (bindM e (fun x => k))
  (at level 61, e at next level, right associativity).

(** [await storage.f(...)] for a query. *)
Definition read {A : Type} (f : DB -> A) : M A := fun db => Returned (f db) db.

(** [await storage.f(...)] for a statement that may violate a constraint. *)
Definition write {A : Type} (f : DB -> Result (A * DB)) : M A :=
  fun db =>
    match f db with
    | Ok (a, db') => Returned a db'
    | Thrown msg => Raised msg db
    end.

(** [await storage.f(...)] for a delete. *)
Definition exec (f : DB -> DB) : M unit := fun db => Returned tt (f db).

(** A library call that may throw. *)
Definition attempt {A : Type} (r : Result A) : M A :=
  match r with
  | Ok a => ret a
  | Thrown msg => throw msg
  end.

(** The shapes handed to [res.json]. *)
Inductive Body : Type :=
| Message (message : string)
| InvalidInput (errors : list string)   (* message "Invalid input", zod's issues by path *)
| LoginOk (token id email : string) (role : Role) (studentId : option string)
| JsonStudents (l : list StudentJoined)
| JsonStudent (s : option Student)
| JsonCourses (l : list Course)
| JsonCourse (c : option Course)
| JsonSections (l : list SectionJoined)
| JsonSection (s : option Section)
| JsonEvents (l : list EventJoined)
| JsonEvent (e : option Event)
| CheckIn (type : string) (attendance : option Attendance)
| StudentEvents (l : list (EventJoined * option Attendance))
| JsonSettings (s : option SystemSettings)
| DefaultSettings (systemName : string) (qrCodeEnabled : bool).

Record Response : Type := mkResponse {
  status : Z;
  body : Body
}.

Definition json (b : Body) : Response := mkResponse 200 b.

(** [try { ... } catch (error) { res.status(500).json({ message: error.message }) }] *)
Definition handle (m : M Response) (db : DB) : Response * DB :=
  match m db with
  | Returned r db' => (r, db')
  | Raised msg db' => (mkResponse 500 (Message msg), db')
  end.

(** JavaScript truthiness of a string-valued field that may be absent. *)
Definition truthy (o : option string) : bool :=
  match o with
  | Some s => negb (s =? "")
  | None => false
  end.

(** [s.replace(pat, rep)] with a string pattern: the first occurrence. *)
Definition replace (pat rep s : string) : string :=
  match String.index 0 pat s with
  | Some i =>
      String.append (String.substring 0 i s)
        (String.append rep
           (String.substring (i + String.length pat)
                             (String.length s - (i + String.length pat)) s))
  | None => s
  end.

(** [/^\d+$/] *)
Definition is_digit (c : ascii) : bool :=
  let n := nat_of_ascii c in (48 <=? n)%nat && (n <=? 57)%nat.

Definition all_digits (s : string) : bool :=
  negb (s =? "") && forallb is_digit (list_ascii_of_string s).

(** [parseInt] on a string of digits. *)
Definition parseInt (s : string) : Z :=
  fold_left (fun acc c => (10 * acc + (Z.of_nat (nat_of_ascii c) - 48))%Z)
            (list_ascii_of_string s) 0%Z.

Definition forbidden_admin : Response :=
  mkResponse 403 (Message "Admin access required").

Definition forbidden_student : Response :=
  mkResponse 403 (Message "Student access required").

Definition invalid_credentials : Response :=
  mkResponse 401 (Message "Invalid credentials").

(** ** routes.ts *)

(** Request bodies as [req.body] delivers them: a key that is absent, or
    does not hold a value of the expected type, is [None]. *)
Record LoginBody : Type := mkLoginBody {
  lb_email : option string;
  lb_password : option string
}.

Record UploadedFile : Type := mkFile {
  mimetype : string;
  base64 : string            (* [buffer.toString("base64")] *)
}.

Record RegisterBody : Type := mkRegisterBody {
  rb_studentId : option string;
  rb_email : option string;
  rb_password : option string;
  rb_age : option string;
  rb_birthday : option string
}.

Record Registration : Type := mkRegistration {
  r_studentId : string;
  r_email : string;
  r_password : string;
  r_age : string;
  r_birthday : string
}.

Record StudentBody : Type := mkStudentBody {
  sb_studentId : option string;
  sb_name : option string;
  sb_courseId : option string;
  sb_sectionId : option string;
  sb_age : option Z;
  sb_email : option string;
  sb_birthday : option string;
  sb_profilePicture : option string
}.

Record CourseBody : Type := mkCourseBody {
  cb_name : option string;
  cb_description : option string
}.

Record SectionBody : Type := mkSectionBody {
  secb_courseId : option string;
  secb_name : option string
}.

(** One element of [courseSections]. *)
Record CourseSectionRef : Type := mkCourseSectionRef {
  cs_courseId : option string;
  cs_sectionId : option string
}.

Record EventBody : Type := mkEventBody {
  eb_courseSections : option (list CourseSectionRef);
  eb_name : option string;
  eb_description : option string;
  eb_eventDate : option string;
  eb_eventTime : option string;
  eb_isActive : option bool
}.

Record EventUpdateBody : Type := mkEventUpdateBody {
  eub_courseSections : option (list CourseSectionRef);
  eub_eventData : EventPatch
}.

Record CheckinBody : Type := mkCheckinBody {
  ck_qrCodeData : option string;
  ck_studentId : option string;
  ck_eventId : option string
}.

Definition required (path : string) (o : option string) : list string :=
  match o with Some _ => [] | None => [path] end.

(** [insertStudentSchema.parse] *)
Definition insertStudentSchema_parse (b : StudentBody) : list string + InsertStudent :=
  match sb_studentId b, sb_name b, sb_courseId b, sb_sectionId b with
  | Some sid, Some name, Some c, Some s =>
      inr (mkInsertStudent sid name c s (sb_age b) (sb_email b) (sb_birthday b)
                           (sb_profilePicture b))
  | _, _, _, _ =>
      inl (required "studentId" (sb_studentId b) ++ required "name" (sb_name b)
           ++ required "courseId" (sb_courseId b) ++ required "sectionId" (sb_sectionId b))
  end.

(** [insertCourseSchema.parse] *)
Definition insertCourseSchema_parse (b : CourseBody) : list string + InsertCourse :=
  match cb_name b with
  | Some name => inr (mkInsertCourse name (cb_description b))
  | None => inl ["name"]
  end.

(** [insertSectionSchema.parse] *)
Definition insertSectionSchema_parse (b : SectionBody) : list string + InsertSection :=
  match secb_courseId b, secb_name b with
  | Some c, Some name => inr (mkInsertSection c name)
  | _, _ => inl (required "courseId" (secb_courseId b) ++ required "name" (secb_name b))
  end.

(** [insertEventSchema.parse], on the body without [courseSections]; the
    schema omits [qrCode] and [qrCodeData], which the handler adds. *)
Definition insertEventSchema_parse (b : EventBody) (qrCodeData qrCode : string)
  : list string + InsertEvent :=
  match eb_name b, eb_eventDate b, eb_eventTime b with
  | Some name, Some d, Some t =>
      inr (mkInsertEvent name (eb_description b) d t (Some qrCode) qrCodeData (eb_isActive b))
  | _, _, _ =>
      inl (required "name" (eb_name b) ++ required "eventDate" (eb_eventDate b)
           ++ required "eventTime" (eb_eventTime b))
  end.

Section Routes.

Context {services : Services}.

Definition issue (path : string) (ok : bool) : list string :=
  if ok then [] else [path].

Definition field_ok (check : string -> bool) (o : option string) : bool :=
  match o with Some s => check s | None => false end.

(** [loginSchema.parse] *)
Definition loginSchema_parse (b : LoginBody) : list string + (string * string) :=
  match lb_email b, lb_password b with
  | Some email, Some password =>
      if is_email email && (1 <=? String.length password)%nat then inr (email, password)
      else inl (issue "email" (is_email email)
                ++ issue "password" (1 <=? String.length password)%nat)
  | _, _ =>
      inl (issue "email" (field_ok is_email (lb_email b))
           ++ issue "password"
                (field_ok (fun p => (1 <=? String.length p)%nat) (lb_password b)))
  end.

(** [registerSchema.parse] *)
Definition registerSchema_ok (r : Registration) : bool :=
  (1 <=? String.length (r_studentId r))%nat
  && is_email (r_email r)
  && (6 <=? String.length (r_password r))%nat
  && all_digits (r_age r).

Definition registerSchema_parse (b : RegisterBody) : list string + Registration :=
  let errors :=
    issue "studentId" (field_ok (fun s => (1 <=? String.length s)%nat) (rb_studentId b))
    ++ issue "email" (field_ok is_email (rb_email b))
    ++ issue "password" (field_ok (fun s => (6 <=? String.length s)%nat) (rb_password b))
    ++ issue "age" (field_ok all_digits (rb_age b))
    ++ issue "birthday" (is_some (rb_birthday b)) in
  match rb_studentId b, rb_email b, rb_password b, rb_age b, rb_birthday b with
  | Some sid, Some email, Some password, Some age, Some birthday =>
      let r := mkRegistration sid email password age birthday in
      if registerSchema_ok r then inr r else inl errors
  | _, _, _, _, _ => inl errors
  end.

(** *** authMiddleware *)

Definition authMiddleware (env : Env) (db : DB) (authorization : option string)
  : Response + User :=
  if negb (truthy authorization) then
    inl (mkResponse 401 (Message "No authorization header"))
  else
    let token := replace "Bearer " "" (or_keep authorization "") in
    match jwt_verify (now env) token with
    | None => inl (mkResponse 401 (Message "Invalid token"))
    | Some userId =>
        match getUser db userId with
        | None => inl (mkResponse 401 (Message "User not found"))
        | Some user => inr user
        end
    end.

(** A route registered as [app.METHOD(path, authMiddleware, handler)]. *)
Definition authenticated (env : Env) (authorization : option string)
  (handler : User -> M Response) (db : DB) : Response * DB :=
  match authMiddleware env db authorization with
  | inl refused => (refused, db)
  | inr user => handle (handler user) db
  end.

(** *** POST /api/auth/login *)

Definition login (env : Env) (b : LoginBody) : M Response :=
  match loginSchema_parse b with
  | inl errors => ret (mkResponse 400 (InvalidInput errors))
  | inr (email, password) =>
      user <~ read (fun db => getUserByEmail db email) ;;
      match user with
      | Some user =>
          if bcrypt_compare password (u_password user) then
            ret (json (LoginOk (jwt_sign (now env) (u_id user))
                               (u_id user) (u_email user) (u_role user) (u_studentId user)))
          else ret invalid_credentials
      | None => ret invalid_credentials
      end
  end.

Definition post_auth_login (env : Env) (b : LoginBody) (db : DB) : Response * DB :=
  handle (login env b) db.

(** *** POST /api/auth/register *)

Definition profilePictureUrl (file : option UploadedFile) : string :=
  match file with
  | Some f => String.append "data:" (String.append (mimetype f)
                (String.append ";base64," (base64 f)))
  | None => ""
  end.

Definition register (env : Env) (b : RegisterBody) (file : option UploadedFile)
  : M Response :=
  match registerSchema_parse b with
  | inl errors => ret (mkResponse 400 (InvalidInput errors))
  | inr v =>
      student <~ read (fun db => getStudentByStudentId db (r_studentId v)) ;;
      match student with
      | None => ret (mkResponse 404 (Message "Student ID not found in system"))
      | Some student =>
          existingUser <~ read (fun db => getUserByEmail db (r_email v)) ;;
          match existingUser with
          | Some _ => ret (mkResponse 400 (Message "Email already registered"))
          | None =>
              let hashedPassword := bcrypt_hash (salt env) (r_password v) in
              _ <~ write (fun db =>
                     updateStudent db (s_id (sj_row student))
                       (mkStudentPatch None None None None
                          (Some (Some (parseInt (r_age v))))
                          (Some (Some (r_email v)))
                          (Some (Some (r_birthday v)))
                          (Some (Some (profilePictureUrl file))))) ;;
              _ <~ write (fun db =>
                     createUser (uuid env 0) (now env) db
                       (mkInsertUser (r_email v) hashedPassword role_student
                                     (Some (r_studentId v)))) ;;
              ret (json (Message "Registration successful"))
          end
      end
  end.

Definition post_auth_register (env : Env) (b : RegisterBody)
  (file : option UploadedFile) (db : DB) : Response * DB :=
  handle (register env b file) db.

(** *** Students *)

Definition get_students (env : Env) (authorization : option string) : DB -> Response * DB :=
  authenticated env authorization (fun _ =>
    all <~ read getAllStudents ;;
    ret (json (JsonStudents all))).

Definition post_students (env : Env) (authorization : option string) (b : StudentBody)
  : DB -> Response * DB :=
  authenticated env authorization (fun user =>
    if negb (Role_eqb (u_role user) role_admin) then ret forbidden_admin else
    match insertStudentSchema_parse b with
    | inl errors => ret (mkResponse 400 (InvalidInput errors))
    | inr validated =>
        created <~ write (fun db => createStudent (uuid env 0) (now env) db validated) ;;
        ret (json (JsonStudent (Some created)))
    end).

Definition put_students (env : Env) (authorization : option string) (id : string)
  (b : StudentPatch) : DB -> Response * DB :=
  authenticated env authorization (fun user =>
    if negb (Role_eqb (u_role user) role_admin) then ret forbidden_admin else
    updated <~ write (fun db => updateStudent db id b) ;;
    ret (json (JsonStudent updated))).

Definition delete_students (env : Env) (authorization : option string) (id : string)
  : DB -> Response * DB :=
  authenticated env authorization (fun user =>
    if negb (Role_eqb (u_role user) role_admin) then ret forbidden_admin else
    _ <~ exec (fun db => deleteStudent db id) ;;
    ret (json (Message "Student deleted"))).

(** The loop of the CSV import; [n] counts the rows inserted so far. *)
Fixpoint import_students (env : Env) (n : nat) (rows : list StudentBody) : M unit :=
  match rows with
  | [] => ret tt
  | row :: rest =>
      match sb_studentId row, sb_name row, sb_courseId row, sb_sectionId row with
      | Some sid, Some name, Some c, Some s =>
          if negb (sid =? "") && negb (name =? "") && negb (c =? "") && negb (s =? "")
          then
            _ <~ write (fun db =>
                   createStudent (uuid env n) (now env) db
                     (mkInsertStudent sid name c s (sb_age row) (sb_email row)
                                      (sb_birthday row) (sb_profilePicture row))) ;;
            import_students env (S n) rest
          else import_students env n rest
      | _, _, _, _ => import_students env n rest
      end
  end.

Definition post_students_import (env : Env) (authorization : option string)
  (rows : option (list StudentBody)) : DB -> Response * DB :=
  authenticated env authorization (fun user =>
    if negb (Role_eqb (u_role user) role_admin) then ret forbidden_admin else
    match rows with
    | None => throw "students is not iterable"
    | Some rows =>
        _ <~ import_students env 0 rows ;;
        ret (json (Message "Import successful"))
    end).

(** *** Courses *)

Definition get_courses (env : Env) (authorization : option string) : DB -> Response * DB :=
  authenticated env authorization (fun _ =>
    all <~ read getAllCourses ;;
    ret (json (JsonCourses all))).

Definition post_courses (env : Env) (authorization : option string) (b : CourseBody)
  : DB -> Response * DB :=
  authenticated env authorization (fun user =>
    if negb (Role_eqb (u_role user) role_admin) then ret forbidden_admin else
    match insertCourseSchema_parse b with
    | inl errors => ret (mkResponse 400 (InvalidInput errors))
    | inr validated =>
        created <~ write (fun db => createCourse (uuid env 0) (now env) db validated) ;;
        ret (json (JsonCourse (Some created)))
    end).

Definition put_courses (env : Env) (authorization : option string) (id : string)
  (b : CoursePatch) : DB -> Response * DB :=
  authenticated env authorization (fun user =>
    if negb (Role_eqb (u_role user) role_admin) then ret forbidden_admin else
    updated <~ write (fun db => updateCourse db id b) ;;
    ret (json (JsonCourse updated))).

Definition delete_courses (env : Env) (authorization : option string) (id : string)
  : DB -> Response * DB :=
  authenticated env authorization (fun user =>
    if negb (Role_eqb (u_role user) role_admin) then ret forbidden_admin else
    _ <~ exec (fun db => deleteCourse db id) ;;
    ret (json (Message "Course deleted"))).

(** *** Sections *)

Definition get_sections (env : Env) (authorization : option string) : DB -> Response * DB :=
  authenticated env authorization (fun _ =>
    all <~ read getAllSections ;;
    ret (json (JsonSections all))).

Definition post_sections (env : Env) (authorization : option string) (b : SectionBody)
  : DB -> Response * DB :=
  authenticated env authorization (fun user =>
    if negb (Role_eqb (u_role user) role_admin) then ret forbidden_admin else
    match insertSectionSchema_parse b with
    | inl errors => ret (mkResponse 400 (InvalidInput errors))
    | inr validated =>
        created <~ write (fun db => createSection (uuid env 0) (now env) db validated) ;;
        ret (json (JsonSection (Some created)))
    end).

Definition put_sections (env : Env) (authorization : option string) (id : string)
  (b : SectionPatch) : DB -> Response * DB :=
  authenticated env authorization (fun user =>
    if negb (Role_eqb (u_role user) role_admin) then ret forbidden_admin else
    updated <~ write (fun db => updateSection db id b) ;;
    ret (json (JsonSection updated))).

Definition delete_sections (env : Env) (authorization : option string) (id : string)
  : DB -> Response * DB :=
  authenticated env authorization (fun user =>
    if negb (Role_eqb (u_role user) role_admin) then ret forbidden_admin else
    _ <~ exec (fun db => deleteSection db id) ;;
    ret (json (Message "Section deleted"))).

(** *** Events *)

Definition get_events (env : Env) (authorization : option string) : DB -> Response * DB :=
  authenticated env authorization (fun _ =>
    all <~ read getAllEvents ;;
    ret (json (JsonEvents all))).

(** [for (const cs of courseSections) await storage.createEventCourseSection(...)];
    the n-th identifier of the request goes to the next row. *)
Fixpoint create_associations (env : Env) (n : nat) (eventId : string)
  (courseSections : list CourseSectionRef) : M unit :=
  match courseSections with
  | [] => ret tt
  | cs :: rest =>
      _ <~ write (fun db =>
             createEventCourseSection (uuid env n) db
               (mkInsertEcs eventId (cs_courseId cs) (cs_sectionId cs))) ;;
      create_associations env (S n) eventId rest
  end.

Definition post_events (env : Env) (authorization : option string) (b : EventBody)
  : DB -> Response * DB :=
  authenticated env authorization (fun user =>
    if negb (Role_eqb (u_role user) role_admin) then ret forbidden_admin else
    (* const eventId = uuidv4(): not the id the row will get *)
    let eventId := uuid env 0 in
    let qrCodeData := JSON_stringify eventId (now env) in
    let qrCode := QRCode_toDataURL qrCodeData in
    match insertEventSchema_parse b qrCodeData qrCode with
    | inl errors => ret (mkResponse 400 (InvalidInput errors))
    | inr validated =>
        event <~ write (fun db => createEvent (uuid env 1) (now env) db validated) ;;
        _ <~ match eb_courseSections b with
             | Some courseSections =>
                 create_associations env 2 (e_id event) courseSections
             | None => ret tt
             end ;;
        ret (json (JsonEvent (Some event)))
    end).

Definition put_events (env : Env) (authorization : option string) (id : string)
  (b : EventUpdateBody) : DB -> Response * DB :=
  authenticated env authorization (fun user =>
    if negb (Role_eqb (u_role user) role_admin) then ret forbidden_admin else
    event <~ write (fun db => updateEvent db id (eub_eventData b)) ;;
    _ <~ match eub_courseSections b with
         | Some courseSections =>
             _ <~ exec (fun db => deleteEventCourseSections db id) ;;
             create_associations env 0 id courseSections
         | None => ret tt
         end ;;
    ret (json (JsonEvent event))).

Definition delete_events (env : Env) (authorization : option string) (id : string)
  : DB -> Response * DB :=
  authenticated env authorization (fun user =>
    if negb (Role_eqb (u_role user) role_admin) then ret forbidden_admin else
    _ <~ exec (fun db => deleteEventCourseSections db id) ;;
    _ <~ exec (fun db => deleteEvent db id) ;;
    ret (json (Message "Event deleted"))).

(** *** POST /api/events/:id/regenerate-qr *)

Definition regenerate_qr (env : Env) (id : string) : M Response :=
  let qrCodeData := JSON_stringify id (now env) in
  let qrCode := QRCode_toDataURL qrCodeData in
  event <~ write (fun db =>
             updateEvent db id
               (mkEventPatch None None None None (Some (Some qrCode))
                             (Some qrCodeData) None)) ;;
  ret (json (JsonEvent event)).

Definition post_events_regenerate_qr (env : Env) (authorization : option string)
  (id : string) : DB -> Response * DB :=
  authenticated env authorization (fun user =>
    if negb (Role_eqb (u_role user) role_admin) then ret forbidden_admin else
    regenerate_qr env id).

(** *** POST /api/attendance/checkin *)

(** What the handler holds once [await storage.getAttendance(eventId, studentId)]
    has returned. *)
Record Lookup : Type := mkLookup {
  l_eventId : string;
  l_studentId : string;
  l_attendance : option Attendance
}.

(** The two ways of naming the event and the student. *)
Definition checkin_target (user : User) (b : CheckinBody)
  : M (Response + string * string) :=
  if truthy (ck_qrCodeData b) then
    (* QR code scan *)
    eventId <~ attempt (JSON_parse (or_keep (ck_qrCodeData b) "")) ;;
    if negb (truthy (u_studentId user)) then
      ret (inl (mkResponse 400 (Message "Not a student account")))
    else
      student <~ read (fun db => getStudentByStudentId db (or_keep (u_studentId user) "")) ;;
      match student with
      | None => ret (inl (mkResponse 404 (Message "Student not found")))
      | Some student => ret (inr (eventId, s_id (sj_row student)))
      end
  else if truthy (ck_studentId b) && truthy (ck_eventId b) then
    (* Manual entry *)
    student <~ read (fun db => getStudentByStudentId db (or_keep (ck_studentId b) "")) ;;
    match student with
    | None => ret (inl (mkResponse 404 (Message "Student not found")))
    | Some student => ret (inr (or_keep (ck_eventId b) "", s_id (sj_row student)))
    end
  else ret (inl (mkResponse 400 (Message "Invalid check-in data"))).

(** Up to and including the lookup of the attendance record: reads only. *)
Definition checkin_lookup (user : User) (b : CheckinBody) : M (Response + Lookup) :=
  target <~ checkin_target user b ;;
  match target with
  | inl refused => ret (inl refused)
  | inr (eventId, studentId) =>
      found <~ read (fun db => getAttendance db eventId studentId) ;;
      ret (inr (mkLookup eventId studentId found))
  end.

(** The branch on the record that was found, and its write. *)
Definition checkin_commit (env : Env) (l : Lookup) : M Response :=
  match l_attendance l with
  | None =>
      (* Create new attendance with time-in *)
      created <~ write (fun db =>
                   createAttendance (uuid env 0) (now env) db
                     (mkInsertAttendance (l_eventId l) (l_studentId l)
                                         (Some (now env)) None)) ;;
      ret (json (CheckIn "in" (Some created)))
  | Some found =>
      match a_timeOut found with
      | None =>
          (* Update with time-out *)
          updated <~ write (fun db =>
                       updateAttendance db (a_id found)
                         (mkAttendancePatch None None None (Some (Some (now env))))) ;;
          ret (json (CheckIn "out" updated))
      | Some _ => ret (mkResponse 400 (Message "Attendance already complete"))
      end
  end.

Definition checkin (env : Env) (user : User) (b : CheckinBody) : M Response :=
  looked <~ checkin_lookup user b ;;
  match looked with
  | inl refused => ret refused
  | inr l => checkin_commit env l
  end.

Definition post_attendance_checkin (env : Env) (authorization : option string)
  (b : CheckinBody) : DB -> Response * DB :=
  authenticated env authorization (fun user => checkin env user b).

(** Two check-in requests in flight.  The handler gives up control at each
    [await]; between the lookup and the write another request may run. *)
Inductive Task : Type :=
| Arrived (env : Env) (user : User) (b : CheckinBody)
| Looked (env : Env) (l : Lookup)
| Finished (r : Response).

Definition step (t : Task) (db : DB) : Task * DB :=
  match t with
  | Arrived env user b =>
      match checkin_lookup user b db with
      | Returned (inl refused) db' => (Finished refused, db')
      | Returned (inr l) db' => (Looked env l, db')
      | Raised msg db' => (Finished (mkResponse 500 (Message msg)), db')
      end
  | Looked env l =>
      let (r, db') := handle (checkin_commit env l) db in (Finished r, db')
  | Finished r => (Finished r, db)
  end.

(** A schedule names, step by step, which of the two requests runs next. *)
Inductive Turn : Type := first_request | second_request.

Fixpoint run_schedule (schedule : list Turn) (t1 t2 : Task) (db : DB)
  : Task * Task * DB :=
  match schedule with
  | [] => (t1, t2, db)
  | first_request :: rest =>
      let (t1', db') := step t1 db in run_schedule rest t1' t2 db'
  | second_request :: rest =>
      let (t2', db') := step t2 db in run_schedule rest t1 t2' db'
  end.

(** *** GET /api/student/events *)

Definition ecs_matches (st : Student) (ecs : EcsJoined) : bool :=
  (ecs_courseId (ecsj_row ecs) =? s_courseId st)
  && (ecs_sectionId (ecsj_row ecs) =? s_sectionId st).

Definition student_events (user : User) : M Response :=
  if negb (Role_eqb (u_role user) role_student) then ret forbidden_student else
  student <~ read (fun db =>
               match u_studentId user with
               | Some sid => getStudentByStudentId db sid
               | None => None
               end) ;;
  allEvents <~ read getAllEvents ;;
  match student with
  | Some student =>
      (* Filter events for student's course and section *)
      let studentEvents :=
        filter (fun event =>
                  existsb (ecs_matches (sj_row student)) (ej_eventCourseSections event))
               allEvents in
      (* Add attendance info *)
      eventsWithAttendance <~ read (fun db =>
        map (fun event =>
               (event, getAttendance db (e_id (ej_row event)) (s_id (sj_row student))))
            studentEvents) ;;
      ret (json (StudentEvents eventsWithAttendance))
  | None =>
      (* [student.courseId] throws in the first callback [some] runs *)
      if existsb (fun event =>
                    match ej_eventCourseSections event with [] => false | _ => true end)
                 allEvents
      then throw "Cannot read properties of undefined (reading 'courseId')"
      else ret (json (StudentEvents []))
  end.

Definition get_student_events (env : Env) (authorization : option string)
  : DB -> Response * DB :=
  authenticated env authorization student_events.

(** *** System settings *)

Definition get_settings (env : Env) (authorization : option string) : DB -> Response * DB :=
  authenticated env authorization (fun _ =>
    settings <~ read getSystemSettings ;;
    match settings with
    | Some s => ret (json (JsonSettings (Some s)))
    | None => ret (json (DefaultSettings "Attendance System" true))
    end).

Definition put_settings (env : Env) (authorization : option string) (b : SettingsPatch)
  : DB -> Response * DB :=
  authenticated env authorization (fun user =>
    if negb (Role_eqb (u_role user) role_admin) then ret forbidden_admin else
    settings <~ write (fun db => updateSystemSettings (uuid env 0) (now env) db b) ;;
    ret (json (JsonSettings settings))).

End Routes.

(** ** A reference instance of the libraries, for concrete runs *)

Module Reference.

(** Hashes keep the password readable: enough to run the handlers. *)
Definition hash (salt password : string) : string :=
  String.append "$2a$10$" password.

Definition compare (password hashed : string) : bool :=
  hashed =? String.append "$2a$10$" password.

Definition sign (clock : Z) (userId : string) : string :=
  String.append "jwt." userId.

Definition verify (clock : Z) (token : string) : option string :=
  if String.prefix "jwt." token
  then Some (String.substring 4 (String.length token - 4) token)
  else None.

Definition email (s : string) : bool :=
  match String.index 0 "@" s with
  | Some _ => true
  | None => false
  end.

Fixpoint digits (fuel : nat) (n : nat) (acc : string) : string :=
  match fuel with
  | O => acc
  | S fuel' =>
      let acc' := String (ascii_of_nat (48 + Nat.modulo n 10)) acc in
      match Nat.div n 10 with
      | O => acc'
      | q => digits fuel' q acc'
      end
  end.

Definition decimal (z : Z) : string :=
  let n := Z.to_nat z in digits (S n) n "".

(** The text [{"eventId":"<id>","timestamp":<ms>}]. *)
Definition stringify (eventId : string) (timestamp : Z) : string :=
  String.append "{"
    (String.append (quoted "eventId")
       (String.append ":"
          (String.append (quoted eventId)
             (String.append ","
                (String.append (quoted "timestamp")
                   (String.append ":"
                      (String.append (decimal timestamp) "}"))))))).

Definition double_quote : string := String (ascii_of_nat 34) EmptyString.

(** Reads the [eventId] of a text written by [stringify]. *)
Definition parse (text : string) : Result string :=
  let opening :=
    String.append "{" (String.append (quoted "eventId") (String.append ":" double_quote)) in
  if String.prefix opening text then
    let rest := String.substring (String.length opening)
                                 (String.length text - String.length opening) text in
    match String.index 0 double_quote rest with
    | Some i => Ok (String.substring 0 i rest)
    | None => Thrown "Unexpected end of JSON input"
    end
  else Thrown "Unexpected token in JSON".

Definition toDataURL (text : string) : string :=
  String.append "data:image/png;base64," text.

Definition services : Services := {|
  bcrypt_hash := hash;
  bcrypt_compare := compare;
  jwt_sign := sign;
  jwt_verify := verify;
  is_email := email;
  JSON_stringify := stringify;
  JSON_parse := parse;
  QRCode_toDataURL := toDataURL
|}.

End Reference.

(** ** Rows and runs named in the statements *)

(** The row a first check-in inserts. *)
Definition time_in_row (env : Env) (eventId studentId : string) : Attendance :=
  mkAttendance (uuid env 0) eventId studentId (Some (now env)) None (now env).

(** The rows the attendance table holds for one event and one student. *)
Definition rows_of_pair (db : DB) (eventId studentId : string) : list Attendance :=
  filter (fun a => (a_eventId a =? eventId) && (a_studentId a =? studentId))
         (attendance db).

(** A row with its time-out set. *)
Definition time_out_row (env : Env) (a : Attendance) : Attendance :=
  mkAttendance (a_id a) (a_eventId a) (a_studentId a) (a_timeIn a)
               (Some (now env)) (a_createdAt a).

Definition time_out_patch (env : Env) : AttendancePatch :=
  mkAttendancePatch None None None (Some (Some (now env))).

(** The outcome of a run, with the database mapped through [g]. *)
Definition with_db {A : Type} (g : DB -> DB) (r : Run A) : Run A :=
  match r with
  | Returned a db => Returned a (g db)
  | Raised msg db => Raised msg (g db)
  end.

(** [m] neither reads nor undoes what [g] changes. *)
Definition commutes {A : Type} (g : DB -> DB) (m : M A) : Prop :=
  forall db, m (g db) = with_db g (m db).

(** A change of the database that leaves the three tables behind
    [getStudentByStudentId] alone. *)
Definition keeps_students (g : DB -> DB) : Prop :=
  forall db, students (g db) = students db
             /\ courses (g db) = courses db
             /\ sections (g db) = sections db.

Definition replace_events (evs : list Event) (db : DB) : DB := set_events db evs.

(** What [regenerate-qr] sets on the rows of event [id]. *)
Definition regenerate_patch {services : Services} (env : Env) (id : string) : EventPatch :=
  mkEventPatch None None None None
    (Some (Some (QRCode_toDataURL (JSON_stringify id (now env)))))
    (Some (JSON_stringify id (now env))) None.

(** Both lookups before either write, and one request after the other. *)
Definition interleaved : list Turn :=
  [first_request; second_request; first_request; second_request].

Definition one_after_the_other : list Turn :=
  [first_request; first_request; second_request; second_request].

Definition replace_attendance (t : list Attendance) (db : DB) : DB :=
  set_attendance db t.

(** The listing [GET /api/student/events] sends to a student. *)
Definition events_with_attendance (db : DB) (st : Student)
  : list (EventJoined * option Attendance) :=
  map (fun event => (event, getAttendance db (e_id (ej_row event)) (s_id st)))
      (filter (fun event => existsb (ecs_matches st) (ej_eventCourseSections event))
              (getAllEvents db)).

(** The event row [ev] is in a listing. *)
Definition listed (ev : Event) (l : list (EventJoined * option Attendance)) : Prop :=
  exists item, In item l /\ ej_row (fst item) = ev.

(** Some association row of the event names the student's own course and
    section. *)
Definition associated (db : DB) (st : Student) (ev : Event) : Prop :=
  exists ecs, In ecs (eventCourseSections db)
              /\ ecs_eventId ecs = e_id ev
              /\ ecs_courseId ecs = s_courseId st
              /\ ecs_sectionId ecs = s_sectionId st.

Definition with_isActive (flag : bool) (e : Event) : Event :=
  mkEvent (e_id e) (e_name e) (e_description e) (e_eventDate e) (e_eventTime e)
          (e_qrCode e) (e_qrCodeData e) flag (e_createdAt e).

(** The database with the [isActive] flag of every event set anew. *)
Definition with_flags (flags : Event -> bool) (db : DB) : DB :=
  set_events db (map (fun e => with_isActive (flags e) e) (events db)).

Definition listed_ids (l : list (EventJoined * option Attendance)) : list string :=
  map (fun item => e_id (ej_row (fst item))) l.

(** Text that PostgreSQL takes as a value or as a parameter of a query:
    any string without the character U+0000. *)
Definition pg_text (s : string) : bool :=
  negb (existsb (Ascii.eqb Ascii.zero) (list_ascii_of_string s)).

(** The account a successful registration inserts. *)
Definition registered_user {services : Services} (env : Env) (v : Registration) : User :=
  mkUser (uuid env 0) (r_email v) (bcrypt_hash (salt env) (r_password v))
         role_student (Some (r_studentId v)) (now env).

(** The credentials of a registration, as a login body. *)
Definition credentials (v : Registration) : LoginBody :=
  mkLoginBody (Some (r_email v)) (Some (r_password v)).

(** One call of [updateSystemSettings]: the identifier the insert would
    get, the clock, the settings. *)
Definition SettingsCall : Type := (string * Z * SettingsPatch)%type.

(** Calls made one after the other. *)
Fixpoint update_all (calls : list SettingsCall) (db : DB) : Result DB :=
  match calls with
  | [] => Ok db
  | (gen, clock, p) :: rest =>
      match updateSystemSettings gen clock db p with
      | Ok (_, db') => update_all rest db'
      | Thrown msg => Thrown msg
      end
  end.

(** The row a call leaves where the table was empty: the identifier the
    insert gets, the values sent, the column defaults for the rest. *)
Definition settings_created (call : SettingsCall) : SystemSettings :=
  let '(gen, clock, p) := call in
  {| ss_id := gen;
     ss_systemName := match stp_systemName p with
                      | Some name => name
                      | None => "Attendance System"
                      end;
     ss_qrCodeEnabled := match stp_qrCodeEnabled p with
                         | Some enabled => enabled
                         | None => true
                         end;
     ss_updatedAt := clock |}.

(** What a call makes of the row it finds: the identifier stays, the values
    sent replace the stored ones, the time of the update is the clock's. *)
Definition settings_after (row : SystemSettings) (call : SettingsCall) : SystemSettings :=
  let '(_, clock, p) := call in
  {| ss_id := ss_id row;
     ss_systemName := match stp_systemName p with
                      | Some name => name
                      | None => ss_systemName row
                      end;
     ss_qrCodeEnabled := match stp_qrCodeEnabled p with
                         | Some enabled => enabled
                         | None => ss_qrCodeEnabled row
                         end;
     ss_updatedAt := clock |}.

(** The identifiers of a request: [id-<k>-<n>] for the n-th of request k. *)
Definition sample_env (k : nat) (clock : Z) : Env :=
  mkEnv clock
    (fun n => String.append "id-" (String.append (Reference.decimal (Z.of_nat k))
                (String.append "-" (Reference.decimal (Z.of_nat n)))))
    "salt".

Module Sample.

Definition admin_user : User :=
  mkUser "u-admin" "admin@attendance.com" (Reference.hash "salt" "admin123")
         role_admin None 0.

Definition ada_user : User :=
  mkUser "u-ada" "ada@school.edu" (Reference.hash "salt" "secret1")
         role_student (Some "2024-001") 0.

(** Ada is in (Computer Science, Section A), Bob in (Computer Science, Section B). *)
Definition ada : Student :=
  mkStudent "st-ada" "2024-001" "Ada" "c-cs" "sec-a" None None None None 0.

Definition bob : Student :=
  mkStudent "st-bob" "2024-002" "Bob" "c-cs" "sec-b" None None None None 0.

Definition cs : Course := mkCourse "c-cs" "Computer Science" None 0.

Definition section_a : Section := mkSection "sec-a" "c-cs" "Section A" 0.
Definition section_b : Section := mkSection "sec-b" "c-cs" "Section B" 0.

(** The payload written when the orientation was created: its [eventId]
    is the [uuidv4()] of the handler, not the id of the row. *)
Definition creation_payload : string := Reference.stringify "0b1f-4c2e" 500.

Definition orientation : Event :=
  mkEvent "ev-1" "Orientation" None "2025-01-10" "09:00"
          (Some (Reference.toDataURL creation_payload)) creation_payload true 500.

(** The payload a regeneration at time 1000 issues. *)
Definition old_payload : string := Reference.stringify "ev-1" 1000.

Definition orientation_for_a : EventCourseSection :=
  mkEcs "ecs-1" "ev-1" "c-cs" "sec-a".

Definition bob_user : User :=
  mkUser "u-bob" "bob@school.edu" (Reference.hash "salt" "hunter22")
         role_student (Some "2024-002") 0.

Definition db : DB :=
  mkDB [admin_user; ada_user; bob_user] [ada; bob] [cs] [section_a; section_b]
       [orientation] [orientation_for_a] [] [].

Definition admin_token : option string := Some "Bearer jwt.u-admin".
Definition ada_token : option string := Some "Bearer jwt.u-ada".
Definition bob_token : option string := Some "Bearer jwt.u-bob".

(** Carol is on the roll and has no account yet. *)
Definition carol : Student :=
  mkStudent "st-carol" "2024-003" "Carol" "c-cs" "sec-a" None None None None 0.

Definition roll : DB :=
  mkDB [admin_user; ada_user] [ada; bob; carol] [cs] [section_a; section_b] [] [] [] [].

Definition carol_registers : RegisterBody :=
  mkRegisterBody (Some "2024-003") (Some "carol@school.edu") (Some "correct horse")
                 (Some "19") (Some "2006-03-14").

Definition stranger_registers : RegisterBody :=
  mkRegisterBody (Some "1999-999") (Some "carol@school.edu") (Some "correct horse")
                 (Some "19") (Some "2006-03-14").

Definition carol_takes_ada : RegisterBody :=
  mkRegisterBody (Some "2024-003") (Some "ada@school.edu") (Some "correct horse")
                 (Some "19") (Some "2006-03-14").

(** A manual check-in of Ada to the orientation. *)
Definition manual : CheckinBody := mkCheckinBody None (Some "2024-001") (Some "ev-1").

(** A manual check-in of Bob, and one to an event that does not exist. *)
Definition manual_bob : CheckinBody :=
  mkCheckinBody None (Some "2024-002") (Some "ev-1").

Definition manual_nowhere : CheckinBody :=
  mkCheckinBody None (Some "2024-001") (Some "no-such-event").

(** A scan of the payload issued at time 1000. *)
Definition scan_old : CheckinBody := mkCheckinBody (Some old_payload) None None.

(** The database after the first and after the second manual check-in. *)
Definition timed_in : DB :=
  snd (handle (checkin (services := Reference.services)
                 (sample_env 1 2000) admin_user manual) db).

Definition timed_out : DB :=
  snd (handle (checkin (services := Reference.services)
                 (sample_env 2 3000) admin_user manual) timed_in).

(** The orientation after a regeneration at time 1000 and another at 2000. *)
Definition regenerated_once : DB :=
  snd (post_events_regenerate_qr (services := Reference.services)
         (sample_env 1 1000) admin_token "ev-1" db).

Definition regenerated_twice : DB :=
  snd (post_events_regenerate_qr (services := Reference.services)
         (sample_env 2 2000) admin_token "ev-1" regenerated_once).

End Sample.

(** ** More of storage.ts, routes.ts and the seeding script *)

(** [{ ...r.attendance, event: r.events }] *)
Record AttendanceJoined : Type := mkAttendanceJoined {
  aj_row : Attendance;
  aj_event : option Event
}.

Definition getAllAttendanceForStudent (db : DB) (studentId : string)
  : list AttendanceJoined :=
  map (fun r => mkAttendanceJoined (fst r) (snd r))
    (filter (fun r => a_studentId (fst r) =? studentId)
       (left_join (fun a e => a_eventId a =? e_id e) (attendance db) (events db))).

(** The body of [GET /api/admin/stats]. *)
Record AdminStats : Type := mkAdminStats {
  totalStudents : nat;
  activeEvents : nat;
  totalAttendance : nat;
  totalCourses : nat
}.

Section MoreRoutes.

Context {services : Services}.

(** *** POST /api/students/verify

    No middleware.  The answer is [inr]: the student sent with status 200,
    or [null] sent with status 404; [inl] is the answer of the [catch]. *)
Definition post_students_verify (studentId : string) (db : DB)
  : (Response + option StudentJoined) * DB :=
  (inr (getStudentByStudentId db studentId), db).

Definition verify_status (answer : Response + option StudentJoined) : Z :=
  match answer with
  | inl r => status r
  | inr (Some _) => 200
  | inr None => 404
  end.

(** *** GET /api/admin/stats

    [inl] is an answer with a message (401, 403), [inr] the statistics. *)
Definition get_admin_stats (env : Env) (authorization : option string) (db : DB)
  : (Response + AdminStats) * DB :=
  match authMiddleware env db authorization with
  | inl refused => (inl refused, db)
  | inr user =>
      if negb (Role_eqb (u_role user) role_admin) then (inl forbidden_admin, db)
      else
        (inr (mkAdminStats
                (List.length (getAllStudents db))
                (List.length (filter (fun e => e_isActive (ej_row e)) (getAllEvents db)))
                0  (* Would need to count all attendance records *)
                (List.length (getAllCourses db))),
         db)
  end.

(** *** The seeding script *)

Definition adminEmail : string := "admin@attendance.com".

Definition seed (env : Env) : M unit :=
  (* Create admin account *)
  existingAdmin <~ read (fun db => getUserByEmail db adminEmail) ;;
  _ <~ match existingAdmin with
       | None =>
           _ <~ write (fun db =>
                  createUser (uuid env 0) (now env) db
                    (mkInsertUser adminEmail (bcrypt_hash (salt env) "admin123")
                                  role_admin None)) ;;
           ret tt
       | Some _ => ret tt
       end ;;
  (* Create sample courses *)
  existing <~ read getAllCourses ;;
  match existing with
  | [] =>
      cs <~ write (fun db =>
              createCourse (uuid env 1) (now env) db
                (mkInsertCourse "Computer Science"
                   (Some "Bachelor of Science in Computer Science"))) ;;
      business <~ write (fun db =>
              createCourse (uuid env 2) (now env) db
                (mkInsertCourse "Business Administration"
                   (Some "Bachelor of Science in Business Administration"))) ;;
      (* Create sample sections *)
      _ <~ write (fun db =>
             createSection (uuid env 3) (now env) db
               (mkInsertSection (c_id cs) "Section A")) ;;
      _ <~ write (fun db =>
             createSection (uuid env 4) (now env) db
               (mkInsertSection (c_id cs) "Section B")) ;;
      _ <~ write (fun db =>
             createSection (uuid env 5) (now env) db
               (mkInsertSection (c_id business) "Section 1")) ;;
      ret tt
  | _ :: _ => ret tt
  end.

End MoreRoutes.

(** ** Rows named in the further statements *)

(** The student row after a registration has filled in its details. *)
Definition enriched (v : Registration) (file : option UploadedFile) (s : Student)
  : Student :=
  mkStudent (s_id s) (s_studentId s) (s_name s) (s_courseId s) (s_sectionId s)
            (Some (parseInt (r_age v))) (Some (r_email v)) (Some (r_birthday v))
            (Some (profilePictureUrl file)) (s_createdAt s).

(** The header the client sends with a token. *)
Definition bearer (token : string) : option string :=
  Some (String.append "Bearer " token).

(** What a registration sets on the student row. *)
Definition registration_patch (v : Registration) (file : option UploadedFile)
  : StudentPatch :=
  mkStudentPatch None None None None
    (Some (Some (parseInt (r_age v)))) (Some (Some (r_email v)))
    (Some (Some (r_birthday v))) (Some (Some (profilePictureUrl file))).

(** The row [createStudent] inserts. *)
Definition student_row (gen : string) (clock : Z) (i : InsertStudent) : Student :=
  mkStudent gen (ist_studentId i) (ist_name i) (ist_courseId i) (ist_sectionId i)
            (ist_age i) (ist_email i) (ist_birthday i) (ist_profilePicture i) clock.

(** A row of an import that has its four required fields. *)
Definition complete (row : StudentBody) : bool :=
  truthy (sb_studentId row) && truthy (sb_name row)
  && truthy (sb_courseId row) && truthy (sb_sectionId row).

(** A scan: a check-in body with QR data only. *)
Definition scan (qrCodeData : string) : CheckinBody :=
  mkCheckinBody (Some qrCodeData) None None.

(** An age a PostgreSQL [integer] column takes, or none. *)
Definition age_fits (age : option Z) : Prop :=
  match age with
  | Some n => (-2147483648 <= n <= 2147483647)%Z
  | None => True
  end.

(** The row [createEvent] inserts. *)
Definition created_event (gen : string) (clock : Z) (i : InsertEvent) : Event :=
  mkEvent gen (ie_name i) (ie_description i) (ie_eventDate i) (ie_eventTime i)
          (ie_qrCode i) (ie_qrCodeData i) (or_keep (ie_isActive i) true) clock.

(** The association rows the loop over [courseSections] inserts, the n-th
    identifier of the request going to the first; the loop ends at the
    first element without a course id or a section id. *)
Fixpoint association_rows (gen : nat -> string) (n : nat) (eventId : string)
  (courseSections : list CourseSectionRef) : list EventCourseSection :=
  match courseSections with
  | [] => []
  | cs :: rest =>
      match cs_courseId cs, cs_sectionId cs with
      | Some c, Some s => mkEcs (gen n) eventId c s :: association_rows gen (S n) eventId rest
      | _, _ => []
      end
  end.

Definition names_course_and_section (cs : CourseSectionRef) : bool :=
  is_some (cs_courseId cs) && is_some (cs_sectionId cs).

(** What a reader of the settings is told when the table holds [stored]. *)
Definition settings_shown (stored : option SystemSettings) : string * bool :=
  match stored with
  | Some row => (ss_systemName row, ss_qrCodeEnabled row)
  | None => ("Attendance System", true)
  end.

(** The account and the sample rows the seeding script inserts. *)
Definition seeded_admin {services : Services} (env : Env) : User :=
  mkUser (uuid env 0) adminEmail (bcrypt_hash (salt env) "admin123") role_admin None
         (now env).

Definition seeded_courses (env : Env) : list Course :=
  [mkCourse (uuid env 1) "Computer Science"
            (Some "Bachelor of Science in Computer Science") (now env);
   mkCourse (uuid env 2) "Business Administration"
            (Some "Bachelor of Science in Business Administration") (now env)].

Definition seeded_sections (env : Env) : list Section :=
  [mkSection (uuid env 3) (uuid env 1) "Section A" (now env);
   mkSection (uuid env 4) (uuid env 1) "Section B" (now env);
   mkSection (uuid env 5) (uuid env 2) "Section 1" (now env)].

(** The database after a seeding that had everything to insert. *)
Definition seeded {services : Services} (env : Env) (db : DB) : DB :=
  set_sections
    (set_courses (set_users db (users db ++ [seeded_admin env])) (seeded_courses env))
    (sections db ++ seeded_sections env).

(** Further requests and databases for concrete runs. *)
Module Cases.

Definition ada_logs_in : LoginBody :=
  mkLoginBody (Some "ada@school.edu") (Some "secret1").

Definition carol : Registration :=
  mkRegistration "2024-003" "carol@school.edu" "correct horse" "19" "2006-03-14".

Definition carol_again_body : RegisterBody :=
  mkRegisterBody (Some "2024-003") (Some "carol@work.example") (Some "battery staple")
                 (Some "19") (Some "2006-03-14").

Definition carol_again : Registration :=
  mkRegistration "2024-003" "carol@work.example" "battery staple" "19" "2006-03-14".

Definition methuselah_body : RegisterBody :=
  mkRegisterBody (Some "2024-003") (Some "carol@school.edu") (Some "correct horse")
                 (Some "2147483648") (Some "2006-03-14").

Definition methuselah : Registration :=
  mkRegistration "2024-003" "carol@school.edu" "correct horse" "2147483648" "2006-03-14".

Definition dave_body : StudentBody :=
  mkStudentBody (Some "2024-004") (Some "Dave") (Some "c-cs") (Some "sec-b")
                None None None None.

Definition dave : InsertStudent :=
  mkInsertStudent "2024-004" "Dave" "c-cs" "sec-b" None None None None.

Definition second_ada_body : StudentBody :=
  mkStudentBody (Some "2024-001") (Some "Ada II") (Some "c-cs") (Some "sec-b")
                None None None None.

Definition second_ada : InsertStudent :=
  mkInsertStudent "2024-001" "Ada II" "c-cs" "sec-b" None None None None.

Definition dave_twin_body : StudentBody :=
  mkStudentBody (Some "2024-004") (Some "Dave again") (Some "c-cs") (Some "sec-a")
                None None None None.

(** The roll without Ada. *)
Definition without_ada : DB :=
  snd (delete_students (services := Reference.services)
         (sample_env 1 2000) Sample.admin_token "st-ada" Sample.db).

Definition workshop_body (pairs : option (list CourseSectionRef)) : EventBody :=
  mkEventBody pairs (Some "Workshop") None (Some "2025-02-01") (Some "14:00") None.

Definition workshop : InsertEvent :=
  mkInsertEvent "Workshop" None "2025-02-01" "14:00"
    (Some (Reference.toDataURL (Reference.stringify "id-7-0" 5000)))
    (Reference.stringify "id-7-0" 5000) None.

Definition for_section_b : CourseSectionRef :=
  mkCourseSectionRef (Some "c-cs") (Some "sec-b").

Definition no_course : CourseSectionRef :=
  mkCourseSectionRef None (Some "sec-b").

Definition rename : EventPatch :=
  mkEventPatch (Some "Welcome") None None None None None None.

(** The event columns of a body that carries [courseSections] alone. *)
Definition nothing : EventPatch :=
  mkEventPatch None None None None None None None.

Definition ada_row : Attendance :=
  mkAttendance "id-1-0" "ev-1" "st-ada" (Some 2000%Z) (Some 3000%Z) 2000%Z.

Definition ada_in : Attendance :=
  mkAttendance "id-1-0" "ev-1" "st-ada" (Some 2000%Z) None 2000%Z.

End Cases.

(** * Properties *)

(** ** Lists as tables *)

Lemma first_filter_unique {R : Type} (key : R -> string) (t : list R) (a : R) :
  NoDup (map key t) -> In a t ->
  first (filter (fun r => key r =? key a) t) = Some a.
Proof.
  induction t as [|r t IH]; intros Hnd Hin; [contradiction|].
  cbn in Hnd. inversion Hnd as [|k ks Hnotin Hnd']; subst.
  cbn. destruct Hin as [->|Hin].
  - now rewrite String.eqb_refl.
  - destruct (String.eqb_spec (key r) (key a)) as [Heq|Hne].
    + exfalso. apply Hnotin. rewrite Heq. now apply in_map.
    + now apply IH.
Qed.

Lemma first_filter_In {R : Type} (p : R -> bool) (t : list R) (a : R) :
  first (filter p t) = Some a -> In a t /\ p a = true.
Proof.
  induction t as [|r t IH]; cbn; [discriminate|].
  destruct (p r) eqn:Hp; cbn.
  - intros [= ->]. auto.
  - intros H. destruct (IH H). auto.
Qed.

Lemma first_filter_none {R : Type} (p : R -> bool) (t : list R) :
  first (filter p t) = None -> forall r, In r t -> p r = false.
Proof.
  induction t as [|x t IH]; cbn; [contradiction|].
  destruct (p x) eqn:Hp; cbn; [discriminate|].
  intros H r [<-|Hin]; auto.
Qed.

Lemma first_filter_update {R : Type} (p hit : R -> bool) (f : R -> R) (t : list R) (a : R) :
  (forall r, p (f r) = p r) ->
  first (filter p t) = Some a -> hit a = true ->
  first (filter p (update_where hit f t)) = Some (f a).
Proof.
  intros Hp. induction t as [|r t IH]; cbn; [discriminate|].
  destruct (p r) eqn:Hr; cbn.
  - intros [= ->] Hhit. rewrite Hhit, Hp, Hr. reflexivity.
  - intros H Hhit. destruct (hit r); rewrite ?Hp, Hr; now apply IH.
Qed.

Lemma update_where_map {R B : Type} (g : R -> B) (hit : R -> bool) (f : R -> R) (t : list R) :
  (forall r, g (f r) = g r) -> map g (update_where hit f t) = map g t.
Proof.
  intros Hg. unfold update_where. rewrite map_map. apply map_ext.
  intros r. destruct (hit r); auto.
Qed.

Lemma update_where_length {R : Type} (hit : R -> bool) (f : R -> R) (t : list R) :
  List.length (update_where hit f t) = List.length t.
Proof. unfold update_where. apply List.length_map. Qed.

Lemma unique_key {R : Type} (key : R -> string) (t : list R) (a b : R) :
  NoDup (map key t) -> In a t -> In b t -> key a = key b -> a = b.
Proof.
  induction t as [|r t IH]; cbn; [contradiction|].
  intros Hnd Ha Hb Hk. inversion Hnd as [|k ks Hnotin Hnd']; subst.
  destruct Ha as [->|Ha], Hb as [->|Hb]; auto.
  - exfalso. apply Hnotin. rewrite Hk. now apply in_map.
  - exfalso. apply Hnotin. rewrite <- Hk. now apply in_map.
Qed.

Lemma filter_update_where {R : Type} (p hit : R -> bool) (f : R -> R) (t : list R) :
  (forall r, p (f r) = p r) ->
  filter p (update_where hit f t) = update_where hit f (filter p t).
Proof.
  intros Hp. unfold update_where. induction t as [|r t IH]; cbn; [reflexivity|].
  destruct (hit r) eqn:Hh; rewrite ?Hp; destruct (p r); cbn; rewrite ?Hh, IH;
    reflexivity.
Qed.

Lemma update_where_other {R : Type} (key : R -> string) (f : R -> R) (t : list R)
  (a found : R) :
  NoDup (map key t) -> In found t -> In a t -> a <> found ->
  In a (update_where (fun r => key r =? key found) f t).
Proof.
  intros Hnd Hf Ha Hne. unfold update_where. apply in_map_iff. exists a.
  split; [|exact Ha].
  destruct (String.eqb_spec (key a) (key found)) as [Hk|]; [|reflexivity].
  exfalso. apply Hne. exact (unique_key key t a found Hnd Ha Hf Hk).
Qed.

(** ** The attendance ledger *)

Section Ledger.

Context {services : Services}.

Lemma time_out_patch_row (env : Env) (a : Attendance) :
  apply_attendance_patch (time_out_patch env) a = time_out_row env a.
Proof. reflexivity. Qed.

(** Once the event and the student are named, the handler is the branch on
    the record that the lookup finds. *)
Lemma checkin_resolved (env : Env) (user : User) (b : CheckinBody) (db : DB)
  (e s : string) :
  checkin_target user b db = Returned (inr (e, s)) db ->
  handle (checkin env user b) db
  = handle (checkin_commit env (mkLookup e s (getAttendance db e s))) db.
Proof.
  intros H. unfold checkin, checkin_lookup, handle, bindM. rewrite H.
  reflexivity.
Qed.

Lemma commit_absent (env : Env) (db : DB) (e s : string) :
  existsb (fun a => a_id a =? uuid env 0) (attendance db) = false ->
  handle (checkin_commit env (mkLookup e s None)) db
  = (json (CheckIn "in" (Some (time_in_row env e s))),
     set_attendance db (attendance db ++ [time_in_row env e s])).
Proof.
  intros Hfresh.
  unfold handle, checkin_commit, bindM, write, createAttendance; cbn.
  rewrite Hfresh. reflexivity.
Qed.

Lemma commit_timed_in (env : Env) (db : DB) (e s : string) (found : Attendance) :
  a_timeOut found = None ->
  handle (checkin_commit env (mkLookup e s (Some found))) db
  = (json (CheckIn "out"
             (first (updated_rows (fun a => a_id a =? a_id found)
                                  (time_out_row env) (attendance db)))),
     set_attendance db
       (update_where (fun a => a_id a =? a_id found) (time_out_row env) (attendance db))).
Proof.
  intros Hout.
  unfold handle, checkin_commit, bindM, write, updateAttendance; cbn.
  rewrite Hout. reflexivity.
Qed.

Lemma commit_complete (env : Env) (db : DB) (e s : string) (found : Attendance) (t : Z) :
  a_timeOut found = Some t ->
  handle (checkin_commit env (mkLookup e s (Some found))) db
  = (mkResponse 400 (Message "Attendance already complete"), db).
Proof.
  intros Hout. unfold handle, checkin_commit; cbn. rewrite Hout. reflexivity.
Qed.

Lemma getAttendance_found (db : DB) (e s : string) (found : Attendance) :
  getAttendance db e s = Some found ->
  In found (attendance db) /\ a_eventId found = e /\ a_studentId found = s.
Proof.
  intros H. apply first_filter_In in H. destruct H as [Hin Hp].
  apply andb_true_iff in Hp. destruct Hp as [He Hs].
  apply String.eqb_eq in He, Hs. auto.
Qed.

(** The check-in that finds a row without a time-out, with the primary key
    of the table in force. *)
Lemma commit_timed_in_found (env : Env) (db : DB) (e s : string) (found : Attendance) :
  In found (attendance db) ->
  a_timeOut found = None ->
  NoDup (map a_id (attendance db)) ->
  handle (checkin_commit env (mkLookup e s (Some found))) db
  = (json (CheckIn "out" (Some (time_out_row env found))),
     set_attendance db
       (update_where (fun a => a_id a =? a_id found) (time_out_row env) (attendance db))).
Proof.
  intros Hin Hout Hnd.
  rewrite (commit_timed_in env db e s found Hout).
  unfold updated_rows.
  pose proof (first_filter_unique a_id _ _ Hnd Hin) as Hfirst.
  destruct (filter (fun r => a_id r =? a_id found) (attendance db)) as [|x xs];
    [discriminate|].
  cbn in Hfirst. injection Hfirst as ->. reflexivity.
Qed.

Lemma rows_of_pair_In (db : DB) (e s : string) (a : Attendance) :
  In a (rows_of_pair db e s)
  <-> In a (attendance db) /\ a_eventId a = e /\ a_studentId a = s.
Proof.
  unfold rows_of_pair. rewrite filter_In, andb_true_iff, !String.eqb_eq. tauto.
Qed.

(** C1.  The check-in handler is the three-state machine of an (event,
    student) pair, read off the rows the attendance table holds for the
    pair, under the primary key of the table.
    - No row: the handler inserts one for the pair, whose time-in is the
      current time and whose time-out is null, and answers "in"; that row is
      then the pair's only one.
    - One row, whose time-out is null: the handler sets that row's time-out
      to the current time and answers "out" with it; no time-in changes, no
      row is added, every other row stays, and the pair's only row is then
      the timed-out one.
    - One row, whose time-out is set: the handler answers 400 "Attendance
      already complete" and the database is as it was.
    - More than one row (the table has no constraint on the pair): the
      handler treats one of the pair's rows in the way above. *)
Theorem checkin_state_machine (env : Env) (user : User) (b : CheckinBody) (db : DB)
  (e s : string) :
  checkin_target user b db = Returned (inr (e, s)) db ->
  NoDup (map a_id (attendance db)) ->
  let db' := snd (handle (checkin env user b) db) in
  match rows_of_pair db e s with
  | [] =>
      existsb (fun a => a_id a =? uuid env 0) (attendance db) = false ->
      let created := time_in_row env e s in
      handle (checkin env user b) db
      = (json (CheckIn "in" (Some created)),
         set_attendance db (attendance db ++ [created]))
      /\ a_eventId created = e
      /\ a_studentId created = s
      /\ a_timeIn created = Some (now env)
      /\ a_timeOut created = None
      /\ rows_of_pair db' e s = [created]
  | [found] =>
      match a_timeOut found with
      | None =>
          let updated := time_out_row env found in
          handle (checkin env user b) db
          = (json (CheckIn "out" (Some updated)),
             set_attendance db
               (update_where (fun a => a_id a =? a_id found) (time_out_row env)
                             (attendance db)))
          /\ a_timeOut updated = Some (now env)
          /\ a_timeIn updated = a_timeIn found
          /\ a_id updated = a_id found
          /\ rows_of_pair db' e s = [updated]
          /\ map a_timeIn (attendance db') = map a_timeIn (attendance db)
          /\ List.length (attendance db') = List.length (attendance db)
          /\ forall a, In a (attendance db) -> a <> found -> In a (attendance db')
      | Some _ =>
          handle (checkin env user b) db
          = (mkResponse 400 (Message "Attendance already complete"), db)
      end
  | _ :: _ :: _ =>
      exists found,
        In found (rows_of_pair db e s)
        /\ match a_timeOut found with
           | None =>
               handle (checkin env user b) db
               = (json (CheckIn "out" (Some (time_out_row env found))),
                  set_attendance db
                    (update_where (fun a => a_id a =? a_id found) (time_out_row env)
                                  (attendance db)))
           | Some _ =>
               handle (checkin env user b) db
               = (mkResponse 400 (Message "Attendance already complete"), db)
           end
  end.
Proof.
  intros Htarget Hnd. cbv zeta.
  rewrite (checkin_resolved env user b db e s Htarget).
  assert (Hget : getAttendance db e s = first (rows_of_pair db e s)) by reflexivity.
  rewrite Hget.
  destruct (rows_of_pair db e s) as [|found [|other rest]] eqn:Hrows; cbn [first hd_error].
  - intros Hfresh. rewrite (commit_absent env db e s Hfresh). cbn [snd].
    repeat split.
    unfold rows_of_pair in *. cbn [attendance set_attendance].
    rewrite filter_app, Hrows. cbn. now rewrite !String.eqb_refl.
  - assert (Hin : In found (attendance db)).
    { apply (rows_of_pair_In db e s). rewrite Hrows. now left. }
    destruct (a_timeOut found) as [t|] eqn:Hout;
      [now apply commit_complete with (t := t)|].
    rewrite (commit_timed_in_found env db e s found Hin Hout Hnd). cbn [snd].
    split; [reflexivity|]. split; [reflexivity|]. split; [reflexivity|].
    split; [reflexivity|]. split; [|split; [|split]].
    + unfold rows_of_pair in *. cbn [attendance set_attendance].
      rewrite filter_update_where by reflexivity. rewrite Hrows.
      cbn. now rewrite String.eqb_refl.
    + cbn [attendance set_attendance]. now apply update_where_map.
    + cbn [attendance set_attendance]. apply update_where_length.
    + intros a Ha Hne. cbn [attendance set_attendance].
      now apply update_where_other.
  - assert (Hin : In found (attendance db)).
    { apply (rows_of_pair_In db e s). rewrite Hrows. now left. }
    exists found. split; [now left|].
    destruct (a_timeOut found) as [t|] eqn:Hout;
      [now apply commit_complete with (t := t)|].
    exact (commit_timed_in_found env db e s found Hin Hout Hnd).
Qed.

End Ledger.

(** ** What a handler does not touch *)

Section Frames.

Context {services : Services}.

Lemma commutes_ret {A : Type} (g : DB -> DB) (a : A) : commutes g (ret a).
Proof. intros db. reflexivity. Qed.

Lemma commutes_throw {A : Type} (g : DB -> DB) (msg : string) :
  commutes g (@throw A msg).
Proof. intros db. reflexivity. Qed.

Lemma commutes_attempt {A : Type} (g : DB -> DB) (r : Result A) :
  commutes g (attempt r).
Proof. destruct r; intros db; reflexivity. Qed.

Lemma commutes_bind {A B : Type} (g : DB -> DB) (m : M A) (k : A -> M B) :
  commutes g m -> (forall a, commutes g (k a)) -> commutes g (bindM m k).
Proof.
  intros Hm Hk db. unfold bindM. rewrite Hm.
  destruct (m db) as [a d|msg d]; cbn; [apply Hk|reflexivity].
Qed.

Lemma commutes_read {A : Type} (g : DB -> DB) (f : DB -> A) :
  (forall db, f (g db) = f db) -> commutes g (read f).
Proof. intros Hf db. unfold read. now rewrite Hf. Qed.

Lemma commutes_write {A : Type} (g : DB -> DB) (f : DB -> Result (A * DB)) :
  (forall db, f (g db) = match f db with
                         | Ok (a, d) => Ok (a, g d)
                         | Thrown msg => Thrown msg
                         end) ->
  commutes g (write f).
Proof.
  intros Hf db. unfold write. rewrite Hf.
  destruct (f db) as [[a d]|msg]; reflexivity.
Qed.

Lemma handle_commutes (g : DB -> DB) (m : M Response) (db : DB) :
  commutes g m ->
  handle m (g db) = (fst (handle m db), g (snd (handle m db))).
Proof.
  intros Hm. unfold handle. rewrite Hm.
  destruct (m db) as [r d|msg d]; reflexivity.
Qed.

Lemma getStudentByStudentId_keeps (g : DB -> DB) (db : DB) (sid : string) :
  keeps_students g ->
  getStudentByStudentId (g db) sid = getStudentByStudentId db sid.
Proof.
  intros Hg. destruct (Hg db) as (Hs & Hc & Hsec).
  unfold getStudentByStudentId, students_joined. now rewrite Hs, Hc, Hsec.
Qed.

Lemma checkin_target_commutes (g : DB -> DB) (user : User) (b : CheckinBody) :
  keeps_students g -> commutes g (checkin_target user b).
Proof.
  intros Hg. unfold checkin_target.
  destruct (truthy (ck_qrCodeData b)).
  - apply commutes_bind; [apply commutes_attempt|]. intros eventId.
    destruct (negb (truthy (u_studentId user))); [apply commutes_ret|].
    apply commutes_bind.
    + apply commutes_read. intros db. now apply getStudentByStudentId_keeps.
    + intros [st|]; apply commutes_ret.
  - destruct (truthy (ck_studentId b) && truthy (ck_eventId b)); [|apply commutes_ret].
    apply commutes_bind.
    + apply commutes_read. intros db. now apply getStudentByStudentId_keeps.
    + intros [st|]; apply commutes_ret.
Qed.

(** The target is found by reading: the database comes back as it was. *)
Lemma checkin_target_reads (user : User) (b : CheckinBody) (db : DB) :
  (exists v, checkin_target user b db = Returned v db)
  \/ (exists msg, checkin_target user b db = Raised msg db).
Proof.
  unfold checkin_target, bindM, read, attempt, ret, throw.
  destruct (truthy (ck_qrCodeData b)).
  - destruct (JSON_parse _); [|right; eauto].
    destruct (negb (truthy (u_studentId user))); [left; eauto|].
    destruct (getStudentByStudentId db _); left; eauto.
  - destruct (truthy (ck_studentId b) && truthy (ck_eventId b)); [|left; eauto].
    destruct (getStudentByStudentId db _); left; eauto.
Qed.

Lemma replace_events_keeps (evs : list Event) : keeps_students (replace_events evs).
Proof. intros db. repeat split. Qed.

Lemma checkin_commit_ignores_events (evs : list Event) (env : Env) (l : Lookup) :
  commutes (replace_events evs) (checkin_commit env l).
Proof.
  unfold checkin_commit. destruct (l_attendance l) as [found|].
  - destruct (a_timeOut found); [apply commutes_ret|].
    apply commutes_bind; [|intros; apply commutes_ret].
    apply commutes_write. intros db. reflexivity.
  - apply commutes_bind; [|intros; apply commutes_ret].
    apply commutes_write. intros db. unfold createAttendance. cbn.
    destruct (existsb _ (attendance db)); reflexivity.
Qed.

Lemma checkin_ignores_events (evs : list Event) (env : Env) (user : User)
  (b : CheckinBody) :
  commutes (replace_events evs) (checkin env user b).
Proof.
  unfold checkin, checkin_lookup.
  apply commutes_bind.
  - apply commutes_bind.
    + apply checkin_target_commutes, replace_events_keeps.
    + intros [refused|[e s]]; [apply commutes_ret|].
      apply commutes_bind; [|intros; apply commutes_ret].
      apply commutes_read. reflexivity.
  - intros [refused|l]; [apply commutes_ret|apply checkin_commit_ignores_events].
Qed.

(** The whole route, with its middleware, on another table of events. *)
Lemma post_attendance_checkin_events (env : Env) (authorization : option string)
  (b : CheckinBody) (db : DB) (evs : list Event) :
  post_attendance_checkin env authorization b (set_events db evs)
  = (fst (post_attendance_checkin env authorization b db),
     set_events (snd (post_attendance_checkin env authorization b db)) evs).
Proof.
  unfold post_attendance_checkin, authenticated.
  change (authMiddleware env (set_events db evs) authorization)
    with (authMiddleware env db authorization).
  destruct (authMiddleware env db authorization) as [refused|user]; [reflexivity|].
  apply (handle_commutes (replace_events evs)), checkin_ignores_events.
Qed.

Lemma post_attendance_checkin_user (env : Env) (authorization : option string)
  (b : CheckinBody) (db : DB) (user : User) :
  authMiddleware env db authorization = inr user ->
  post_attendance_checkin env authorization b db = handle (checkin env user b) db.
Proof.
  intros H. unfold post_attendance_checkin, authenticated. now rewrite H.
Qed.

End Frames.

(** ** Check-in: who may call it, and for which events *)

Section CheckInScope.

Context {services : Services}.

(** C10.  Check-in never consults the table of events.  A first check-in of
    a resolved student to any event id inserts the attendance record, which
    carries that event id, and answers "in"; and it does so whatever the
    table of events holds, so also when no event has that id. *)
Theorem checkin_without_event (env : Env) (authorization : option string)
  (b : CheckinBody) (db : DB) (user : User) (e s : string) :
  authMiddleware env db authorization = inr user ->
  checkin_target user b db = Returned (inr (e, s)) db ->
  getAttendance db e s = None ->
  existsb (fun a => a_id a =? uuid env 0) (attendance db) = false ->
  a_eventId (time_in_row env e s) = e
  /\ forall evs : list Event,
       post_attendance_checkin env authorization b (set_events db evs)
       = (json (CheckIn "in" (Some (time_in_row env e s))),
          set_events (set_attendance db (attendance db ++ [time_in_row env e s])) evs).
Proof.
  intros Hauth Htarget Hget Hfresh. split; [reflexivity|]. intros evs.
  rewrite post_attendance_checkin_events.
  rewrite (post_attendance_checkin_user env authorization b db user Hauth).
  rewrite (checkin_resolved env user b db e s Htarget), Hget.
  rewrite (commit_absent env db e s Hfresh). reflexivity.
Qed.

(** C9.  The manual path asks for an authenticated caller and nothing more.
    Whatever the caller's role, a body without QR data that names an
    existing student by student id, together with an event id, runs the
    state machine of that (event, student) pair. *)
Theorem manual_checkin_any_role (env : Env) (authorization : option string)
  (b : CheckinBody) (db : DB) (user : User) (sid eid : string) (st : StudentJoined) :
  authMiddleware env db authorization = inr user ->
  truthy (ck_qrCodeData b) = false ->
  ck_studentId b = Some sid -> sid <> "" ->
  ck_eventId b = Some eid -> eid <> "" ->
  getStudentByStudentId db sid = Some st ->
  post_attendance_checkin env authorization b db
  = handle (checkin_commit env
              (mkLookup eid (s_id (sj_row st))
                        (getAttendance db eid (s_id (sj_row st))))) db.
Proof.
  intros Hauth Hqr Hsid Hsid' Heid Heid' Hst.
  rewrite (post_attendance_checkin_user env authorization b db user Hauth).
  apply checkin_resolved.
  unfold checkin_target. rewrite Hqr, Hsid, Heid. cbn [truthy].
  apply String.eqb_neq in Hsid', Heid'. rewrite Hsid', Heid'. cbn.
  unfold bindM, read. rewrite Hst. reflexivity.
Qed.

(** C3, as the code has it.  Regenerating the QR code of an event replaces
    the payload and the image stored in the rows of that event and leaves
    the attendance table as it was.  Check-in does not compare a scanned
    payload with the stored one: every check-in, with whatever payload, is
    answered after the regeneration as it would have been before, and makes
    the same change to the attendance table. *)
Theorem regenerate_qr_effect (env : Env) (authorization : option string)
  (id : string) (db : DB) (user : User) :
  authMiddleware env db authorization = inr user ->
  u_role user = role_admin ->
  let db' := snd (post_events_regenerate_qr env authorization id db) in
  events db'
  = update_where (fun e => e_id e =? id)
      (apply_event_patch (regenerate_patch env id)) (events db)
  /\ (forall e, In e (events db') -> e_id e = id ->
                e_qrCodeData e = JSON_stringify id (now env))
  /\ attendance db' = attendance db
  /\ forall (env' : Env) (authorization' : option string) (b : CheckinBody),
       fst (post_attendance_checkin env' authorization' b db')
       = fst (post_attendance_checkin env' authorization' b db)
       /\ attendance (snd (post_attendance_checkin env' authorization' b db'))
          = attendance (snd (post_attendance_checkin env' authorization' b db)).
Proof.
  intros Hauth Hrole db'.
  assert (Hdb' : db' = set_events db
            (update_where (fun e => e_id e =? id)
               (apply_event_patch (regenerate_patch env id)) (events db))).
  { unfold db', post_events_regenerate_qr, authenticated.
    rewrite Hauth, Hrole. reflexivity. }
  rewrite Hdb'. split; [reflexivity|]. split; [|split; [reflexivity|]].
  - cbn. intros e Hin Hid. unfold update_where in Hin.
    apply in_map_iff in Hin. destruct Hin as (e0 & <- & _).
    destruct (e_id e0 =? id) eqn:Hhit; [reflexivity|].
    apply String.eqb_neq in Hhit. contradiction.
  - intros env' authorization' b. rewrite post_attendance_checkin_events.
    split; reflexivity.
Qed.

End CheckInScope.

(** ** Two check-ins in flight *)

Section Race.

Context {services : Services}.

Lemma existsb_false_filter {R : Type} (p : R -> bool) (t : list R) :
  existsb p t = false -> filter p t = [].
Proof.
  induction t as [|r t IH]; cbn; [reflexivity|].
  destruct (p r); cbn; [discriminate|exact IH].
Qed.

Lemma existsb_false_update {R : Type} (p : R -> bool) (f : R -> R) (t : list R) :
  existsb p t = false -> update_where p f t = t.
Proof.
  unfold update_where. induction t as [|r t IH]; cbn; [reflexivity|].
  destruct (p r); cbn; [discriminate|]. intros H. now rewrite IH.
Qed.

Lemma update_where_app {R : Type} (p : R -> bool) (f : R -> R) (t u : list R) :
  update_where p f (t ++ u) = update_where p f t ++ update_where p f u.
Proof. unfold update_where. apply map_app. Qed.

Lemma first_filter_none_existsb {R : Type} (p : R -> bool) (t : list R) :
  first (filter p t) = None -> existsb p t = false.
Proof.
  induction t as [|r t IH]; cbn; [reflexivity|].
  destruct (p r); cbn; [discriminate|exact IH].
Qed.

Lemma checkin_lookup_resolved (user : User) (b : CheckinBody) (db : DB) (e s : string) :
  checkin_target user b db = Returned (inr (e, s)) db ->
  checkin_lookup user b db = Returned (inr (mkLookup e s (getAttendance db e s))) db.
Proof. intros H. unfold checkin_lookup, bindM. now rewrite H. Qed.

Lemma replace_attendance_keeps (t : list Attendance) :
  keeps_students (replace_attendance t).
Proof. intros db. repeat split. Qed.

Lemma checkin_target_attendance (user : User) (b : CheckinBody) (db : DB)
  (t : list Attendance) (e s : string) :
  checkin_target user b db = Returned (inr (e, s)) db ->
  checkin_target user b (set_attendance db t) = Returned (inr (e, s)) (set_attendance db t).
Proof.
  intros H.
  pose proof (checkin_target_commutes (replace_attendance t) user b
                (replace_attendance_keeps t) db) as Hc.
  unfold replace_attendance in Hc. rewrite Hc, H. reflexivity.
Qed.

(** C8, as the code has it.  The attendance table has a primary key and no
    uniqueness constraint on (eventId, studentId), and the handler looks the
    record up and inserts it in two separate steps, with no retry.  Of two
    check-ins for the same pair, with no record yet: when both lookups run
    before either insert, both insert and both answer "in", and the table
    ends with two records for the pair; when one handler runs after the
    other, the table ends with one record and the second answer is "out". *)
Theorem concurrent_checkin (env1 env2 : Env) (user1 user2 : User) (b1 b2 : CheckinBody)
  (db : DB) (e s : string) :
  checkin_target user1 b1 db = Returned (inr (e, s)) db ->
  checkin_target user2 b2 db = Returned (inr (e, s)) db ->
  getAttendance db e s = None ->
  existsb (fun a => a_id a =? uuid env1 0) (attendance db) = false ->
  existsb (fun a => a_id a =? uuid env2 0) (attendance db) = false ->
  uuid env1 0 <> uuid env2 0 ->
  run_schedule interleaved (Arrived env1 user1 b1) (Arrived env2 user2 b2) db
  = (Finished (json (CheckIn "in" (Some (time_in_row env1 e s)))),
     Finished (json (CheckIn "in" (Some (time_in_row env2 e s)))),
     set_attendance db (attendance db ++ [time_in_row env1 e s; time_in_row env2 e s]))
  /\ run_schedule one_after_the_other (Arrived env1 user1 b1) (Arrived env2 user2 b2) db
     = (Finished (json (CheckIn "in" (Some (time_in_row env1 e s)))),
        Finished (json (CheckIn "out" (Some (time_out_row env2 (time_in_row env1 e s))))),
        set_attendance db (attendance db ++ [time_out_row env2 (time_in_row env1 e s)])).
Proof.
  intros Ht1 Ht2 Hget Hf1 Hf2 Hne.
  pose proof (checkin_lookup_resolved user1 b1 db e s Ht1) as Hl1.
  pose proof (checkin_lookup_resolved user2 b2 db e s Ht2) as Hl2.
  rewrite Hget in Hl1, Hl2.
  pose proof (commit_absent env1 db e s Hf1) as Hc1.
  set (db1 := set_attendance db (attendance db ++ [time_in_row env1 e s])) in *.
  split.
  - unfold interleaved. cbn [run_schedule step]. rewrite Hl1.
    cbn [run_schedule step]. rewrite Hl2. cbn [run_schedule step]. rewrite Hc1.
    cbn [run_schedule step].
    assert (Hf2' : existsb (fun a => a_id a =? uuid env2 0) (attendance db1) = false).
    { unfold db1; cbn [attendance set_attendance]. rewrite existsb_app, Hf2. cbn.
      apply String.eqb_neq in Hne. now rewrite Hne. }
    rewrite (commit_absent env2 db1 e s Hf2').
    unfold db1; cbn [attendance set_attendance]. rewrite <- app_assoc. reflexivity.
  - unfold one_after_the_other. cbn [run_schedule step]. rewrite Hl1.
    cbn [run_schedule step]. rewrite Hc1. cbn [run_schedule step].
    assert (Hl2' : checkin_lookup user2 b2 db1
                   = Returned (inr (mkLookup e s (Some (time_in_row env1 e s)))) db1).
    { rewrite (checkin_lookup_resolved user2 b2 db1 e s
                 (checkin_target_attendance user2 b2 db _ e s Ht2)).
      do 3 f_equal. unfold getAttendance, db1; cbn [attendance set_attendance].
      rewrite filter_app.
      rewrite (existsb_false_filter _ _ (first_filter_none_existsb _ _ Hget)).
      cbn. now rewrite !String.eqb_refl. }
    rewrite Hl2'. cbn [run_schedule step].
    rewrite (commit_timed_in env2 db1 e s (time_in_row env1 e s) eq_refl).
    unfold db1; cbn [attendance set_attendance a_id time_in_row].
    unfold updated_rows. rewrite update_where_app, filter_app.
    rewrite (existsb_false_filter _ _ Hf1), (existsb_false_update _ _ _ Hf1).
    cbn. rewrite String.eqb_refl. reflexivity.
Qed.

End Race.

(** ** The event scope resolver *)

Section Scope.

Context {services : Services}.

Lemma left_join_left {A B : Type} (on : A -> B -> bool) (l : list A) (r : list B)
  (x : A * option B) :
  In x (left_join on l r) -> In (fst x) l.
Proof.
  unfold left_join. rewrite in_flat_map. intros (a & Ha & Hx).
  destruct (filter (on a) r) as [|m ms] eqn:Hf.
  - destruct Hx as [<-|[]]. exact Ha.
  - apply in_map_iff in Hx. destruct Hx as (b' & <- & _). exact Ha.
Qed.

Lemma left_join_covers {A B : Type} (on : A -> B -> bool) (l : list A) (r : list B)
  (a : A) :
  In a l -> exists ob, In (a, ob) (left_join on l r).
Proof.
  intros Ha. unfold left_join.
  destruct (filter (on a) r) as [|m ms] eqn:Hf.
  - exists None. apply in_flat_map. exists a. rewrite Hf. cbn. auto.
  - exists (Some m). apply in_flat_map. exists a. rewrite Hf. cbn. auto.
Qed.

(** The joins of [getEventCourseSections] add the course and the section to
    each association row of the event; they neither drop nor invent rows. *)
Lemma getEventCourseSections_rows (db : DB) (eventId : string) (ecs : EventCourseSection) :
  (exists j, In j (getEventCourseSections db eventId) /\ ecsj_row j = ecs)
  <-> In ecs (eventCourseSections db) /\ ecs_eventId ecs = eventId.
Proof.
  unfold getEventCourseSections. split.
  - intros (j & Hj & <-). apply in_map_iff in Hj. destruct Hj as (x & <- & Hx).
    apply filter_In in Hx. destruct Hx as [Hx Hid]. cbn.
    apply left_join_left, left_join_left in Hx.
    split; [exact Hx|now apply String.eqb_eq].
  - intros [Hin Hid].
    destruct (left_join_covers (fun e c => ecs_courseId e =? c_id c)
                (eventCourseSections db) (courses db) ecs Hin) as [oc Hoc].
    destruct (left_join_covers (fun ec sec => ecs_sectionId (fst ec) =? sec_id sec)
                _ (sections db) (ecs, oc) Hoc) as [osec Hosec].
    exists (mkEcsJoined ecs oc osec). split; [|reflexivity].
    apply in_map_iff. exists ((ecs, oc), osec). split; [reflexivity|].
    apply filter_In. split; [exact Hosec|]. cbn. now apply String.eqb_eq.
Qed.

Lemma visible_iff_associated (db : DB) (st : Student) (ev : Event) :
  existsb (ecs_matches st) (getEventCourseSections db (e_id ev)) = true
  <-> associated db st ev.
Proof.
  rewrite existsb_exists. unfold associated, ecs_matches. split.
  - intros (j & Hj & Hm). apply andb_true_iff in Hm. destruct Hm as [Hc Hs].
    apply String.eqb_eq in Hc, Hs.
    destruct (proj1 (getEventCourseSections_rows db (e_id ev) (ecsj_row j))) as [Hin Hid];
      [now exists j|].
    exists (ecsj_row j). auto.
  - intros (ecs & Hin & Hid & Hc & Hs).
    destruct (proj2 (getEventCourseSections_rows db (e_id ev) ecs)) as (j & Hj & Hrow);
      [auto|].
    exists j. split; [exact Hj|]. rewrite Hrow, Hc, Hs, !String.eqb_refl. reflexivity.
Qed.

Lemma listed_iff_visible (db : DB) (st : Student) (ev : Event) :
  listed ev (events_with_attendance db st)
  <-> In ev (events db)
      /\ existsb (ecs_matches st) (getEventCourseSections db (e_id ev)) = true.
Proof.
  unfold listed, events_with_attendance, getAllEvents. split.
  - intros (item & Hitem & <-). apply in_map_iff in Hitem.
    destruct Hitem as (event & <- & Hevent). apply filter_In in Hevent.
    destruct Hevent as [Hevent Hvis]. apply in_map_iff in Hevent.
    destruct Hevent as (e0 & <- & He0). cbn in *. auto.
  - intros [Hin Hvis].
    exists (mkEventJoined ev (getEventCourseSections db (e_id ev)),
            getAttendance db (e_id ev) (s_id st)).
    split; [|reflexivity].
    apply in_map_iff. exists (mkEventJoined ev (getEventCourseSections db (e_id ev))).
    split; [reflexivity|]. apply filter_In. split; [|exact Hvis].
    apply in_map_iff. exists ev. auto.
Qed.

Lemma student_events_run (user : User) (db : DB) (sid : string) (st : StudentJoined) :
  u_role user = role_student ->
  u_studentId user = Some sid ->
  getStudentByStudentId db sid = Some st ->
  student_events user db
  = Returned (json (StudentEvents (events_with_attendance db (sj_row st)))) db.
Proof.
  intros Hrole Hsid Hst. unfold student_events.
  rewrite Hrole. cbn [Role_eqb negb]. unfold bindM, read.
  rewrite Hsid, Hst. reflexivity.
Qed.

Lemma listed_ids_flags (flags : Event -> bool) (db : DB) (st : Student) :
  listed_ids (events_with_attendance (with_flags flags db) st)
  = listed_ids (events_with_attendance db st).
Proof.
  unfold listed_ids, events_with_attendance, getAllEvents, with_flags.
  cbn [events set_events].
  change (fun event : Event =>
            mkEventJoined event
              (getEventCourseSections (set_events db
                 (map (fun e => with_isActive (flags e) e) (events db))) (e_id event)))
    with (fun event : Event => mkEventJoined event (getEventCourseSections db (e_id event))).
  induction (events db) as [|ev evs IH]; [reflexivity|].
  cbn [map filter ej_eventCourseSections with_isActive e_id].
  destruct (existsb (ecs_matches st) (getEventCourseSections db (e_id ev)));
    cbn [map fst ej_row e_id]; [f_equal|]; exact IH.
Qed.

(** C2.  For a student account whose student record exists, the listing of
    [GET /api/student/events] holds an event of the events table exactly when
    some association row of that event carries the student's own course id
    and section id; only events of the table are listed; and setting the
    [isActive] flags of the events to any other values leaves the listed
    events the same. *)
Theorem student_events_visibility (env : Env) (authorization : option string)
  (db : DB) (user : User) (sid : string) (st : StudentJoined) :
  authMiddleware env db authorization = inr user ->
  u_role user = role_student ->
  u_studentId user = Some sid ->
  getStudentByStudentId db sid = Some st ->
  get_student_events env authorization db
  = (json (StudentEvents (events_with_attendance db (sj_row st))), db)
  /\ (forall ev, In ev (events db) ->
        (listed ev (events_with_attendance db (sj_row st))
         <-> associated db (sj_row st) ev))
  /\ (forall ev, listed ev (events_with_attendance db (sj_row st)) -> In ev (events db))
  /\ forall flags : Event -> bool,
       get_student_events env authorization (with_flags flags db)
       = (json (StudentEvents
                  (events_with_attendance (with_flags flags db) (sj_row st))),
          with_flags flags db)
       /\ listed_ids (events_with_attendance (with_flags flags db) (sj_row st))
          = listed_ids (events_with_attendance db (sj_row st)).
Proof.
  intros Hauth Hrole Hsid Hst. split; [|split; [|split]].
  - unfold get_student_events, authenticated. rewrite Hauth. unfold handle.
    now rewrite (student_events_run user db sid st).
  - intros ev Hin. rewrite listed_iff_visible, <- visible_iff_associated. tauto.
  - intros ev H. now apply listed_iff_visible in H.
  - intros flags. split; [|apply listed_ids_flags].
    unfold get_student_events, authenticated.
    change (authMiddleware env (with_flags flags db) authorization)
      with (authMiddleware env db authorization).
    rewrite Hauth. unfold handle.
    now rewrite (student_events_run user (with_flags flags db) sid st).
Qed.

End Scope.

(** ** Identity and access *)

Section Identity.

Context {services : Services}.

Lemma login_no_user (env : Env) (b : LoginBody) (db : DB) (email password : string) :
  loginSchema_parse b = inr (email, password) ->
  getUserByEmail db email = None ->
  post_auth_login env b db = (invalid_credentials, db).
Proof.
  intros Hparse Huser. unfold post_auth_login, handle, login.
  rewrite Hparse. unfold bindM, read. rewrite Huser. reflexivity.
Qed.

Lemma login_wrong_password (env : Env) (b : LoginBody) (db : DB)
  (email password : string) (user : User) :
  loginSchema_parse b = inr (email, password) ->
  getUserByEmail db email = Some user ->
  bcrypt_compare password (u_password user) = false ->
  post_auth_login env b db = (invalid_credentials, db).
Proof.
  intros Hparse Huser Hcmp. unfold post_auth_login, handle, login.
  rewrite Hparse. unfold bindM, read. rewrite Huser, Hcmp. reflexivity.
Qed.

Lemma login_ok (env : Env) (b : LoginBody) (db : DB)
  (email password : string) (user : User) :
  loginSchema_parse b = inr (email, password) ->
  getUserByEmail db email = Some user ->
  bcrypt_compare password (u_password user) = true ->
  post_auth_login env b db
  = (json (LoginOk (jwt_sign (now env) (u_id user)) (u_id user) (u_email user)
                   (u_role user) (u_studentId user)), db).
Proof.
  intros Hparse Huser Hcmp. unfold post_auth_login, handle, login.
  rewrite Hparse. unfold bindM, read. rewrite Huser, Hcmp. reflexivity.
Qed.

(** C5.  A login that fails because no account has the e-mail address and a
    login that fails because the password does not match the stored hash get
    the same answer, status 401 with the one message "Invalid credentials",
    and neither changes the database. *)
Theorem login_failures_indistinguishable (env1 env2 : Env) (b1 b2 : LoginBody)
  (db1 db2 : DB) (email1 password1 email2 password2 : string) (user : User) :
  loginSchema_parse b1 = inr (email1, password1) ->
  getUserByEmail db1 email1 = None ->
  loginSchema_parse b2 = inr (email2, password2) ->
  getUserByEmail db2 email2 = Some user ->
  bcrypt_compare password2 (u_password user) = false ->
  post_auth_login env1 b1 db1 = (mkResponse 401 (Message "Invalid credentials"), db1)
  /\ post_auth_login env2 b2 db2 = (mkResponse 401 (Message "Invalid credentials"), db2)
  /\ fst (post_auth_login env1 b1 db1) = fst (post_auth_login env2 b2 db2).
Proof.
  intros Hp1 Hu1 Hp2 Hu2 Hcmp.
  rewrite (login_no_user env1 b1 db1 email1 password1 Hp1 Hu1).
  rewrite (login_wrong_password env2 b2 db2 email2 password2 user Hp2 Hu2 Hcmp).
  repeat split.
Qed.

Lemma parseInt_digits_nonneg (l : list ascii) (acc : Z) :
  forallb is_digit l = true -> (0 <= acc)%Z ->
  (0 <= fold_left (fun a c => (10 * a + (Z.of_nat (nat_of_ascii c) - 48))%Z) l acc)%Z.
Proof.
  revert acc. induction l as [|c l IH]; intros acc Hd Hacc; [exact Hacc|].
  cbn in Hd. apply andb_true_iff in Hd. destruct Hd as [Hc Hl].
  cbn [fold_left]. apply IH; [exact Hl|].
  unfold is_digit in Hc. apply andb_true_iff in Hc. destruct Hc as [Hlo _].
  apply Nat.leb_le in Hlo. lia.
Qed.

Lemma parseInt_nonneg (s : string) : all_digits s = true -> (0 <= parseInt s)%Z.
Proof.
  unfold all_digits, parseInt. intros H. apply andb_true_iff in H.
  destruct H as [_ H]. apply parseInt_digits_nonneg; [exact H|lia].
Qed.

Lemma registerSchema_parse_ok (b : RegisterBody) (v : Registration) :
  registerSchema_parse b = inr v -> registerSchema_ok v = true.
Proof.
  unfold registerSchema_parse.
  destruct (rb_studentId b), (rb_email b), (rb_password b), (rb_age b), (rb_birthday b);
    try discriminate.
  destruct (registerSchema_ok _) eqn:Hok; [|discriminate].
  intros [= <-]. exact Hok.
Qed.

Lemma registerSchema_ok_fields (v : Registration) :
  registerSchema_ok v = true ->
  is_email (r_email v) = true
  /\ (6 <= String.length (r_password v))%nat
  /\ all_digits (r_age v) = true.
Proof.
  unfold registerSchema_ok. intros H.
  apply andb_true_iff in H. destruct H as [H Hage].
  apply andb_true_iff in H. destruct H as [H Hpw].
  apply andb_true_iff in H. destruct H as [_ Hemail].
  apply Nat.leb_le in Hpw. auto.
Qed.

Lemma register_unknown_student (env : Env) (b : RegisterBody)
  (file : option UploadedFile) (db : DB) (v : Registration) :
  registerSchema_parse b = inr v ->
  getStudentByStudentId db (r_studentId v) = None ->
  post_auth_register env b file db
  = (mkResponse 404 (Message "Student ID not found in system"), db).
Proof.
  intros Hparse Hst. unfold post_auth_register, handle, register.
  rewrite Hparse. unfold bindM, read. rewrite Hst. reflexivity.
Qed.

Lemma register_email_taken (env : Env) (b : RegisterBody)
  (file : option UploadedFile) (db : DB) (v : Registration)
  (st : StudentJoined) (holder : User) :
  registerSchema_parse b = inr v ->
  getStudentByStudentId db (r_studentId v) = Some st ->
  getUserByEmail db (r_email v) = Some holder ->
  post_auth_register env b file db
  = (mkResponse 400 (Message "Email already registered"), db).
Proof.
  intros Hparse Hst Hu. unfold post_auth_register, handle, register.
  rewrite Hparse. unfold bindM, read. rewrite Hst, Hu. reflexivity.
Qed.

Lemma register_success (env : Env) (b : RegisterBody)
  (file : option UploadedFile) (db : DB) (v : Registration) (st : StudentJoined) :
  registerSchema_parse b = inr v ->
  getStudentByStudentId db (r_studentId v) = Some st ->
  getUserByEmail db (r_email v) = None ->
  existsb (fun u => u_id u =? uuid env 0) (users db) = false ->
  (parseInt (r_age v) <= 2147483647)%Z ->
  exists sts,
    post_auth_register env b file db
    = (json (Message "Registration successful"),
       set_users (set_students db sts) (users db ++ [registered_user env v])).
Proof.
  intros Hparse Hst Hu Hfresh Hage.
  pose proof (registerSchema_parse_ok b v Hparse) as Hok.
  destruct (registerSchema_ok_fields v Hok) as (_ & _ & Hdigits).
  pose proof (parseInt_nonneg _ Hdigits) as Hnonneg.
  unfold post_auth_register, handle, register.
  rewrite Hparse. unfold bindM, read, write. rewrite Hst, Hu.
  unfold updateStudent. cbn [student_patch_empty sp_studentId sp_name sp_courseId
    sp_sectionId sp_age sp_email sp_birthday sp_profilePicture is_some orb negb].
  unfold pg_integer_opt, pg_integer.
  replace ((-2147483648 <=? parseInt (r_age v))%Z) with true
    by (symmetry; apply Z.leb_le; lia).
  replace ((parseInt (r_age v) <=? 2147483647)%Z) with true
    by (symmetry; apply Z.leb_le; lia).
  cbn [andb bind]. unfold createUser.
  cbn [users set_students iu_email iu_password iu_role iu_studentId].
  rewrite Hfresh.
  rewrite (first_filter_none_existsb _ _ Hu).
  eexists. reflexivity.
Qed.

Lemma login_after_register (env' : Env) (db : DB) (sts : list Student)
  (v : Registration) (created : User) :
  registerSchema_ok v = true ->
  getUserByEmail db (r_email v) = None ->
  u_email created = r_email v ->
  bcrypt_compare (r_password v) (u_password created) = true ->
  let db' := set_users (set_students db sts) (users db ++ [created]) in
  post_auth_login env' (credentials v) db'
  = (json (LoginOk (jwt_sign (now env') (u_id created)) (u_id created) (u_email created)
                   (u_role created) (u_studentId created)), db').
Proof.
  intros Hok Hu Hemail Hcmp db'.
  destruct (registerSchema_ok_fields v Hok) as (His & Hlen & _).
  apply (login_ok env' (credentials v) db' (r_email v) (r_password v) created).
  - unfold loginSchema_parse, credentials. cbn [lb_email lb_password].
    rewrite His. replace (1 <=? String.length (r_password v))%nat with true
      by (symmetry; apply Nat.leb_le; lia).
    reflexivity.
  - unfold getUserByEmail, db'. cbn [users set_users]. rewrite filter_app.
    rewrite (existsb_false_filter _ _ (first_filter_none_existsb _ _ Hu)).
    cbn. rewrite Hemail, String.eqb_refl. reflexivity.
  - exact Hcmp.
Qed.

Lemma register_age_refused (env : Env) (b : RegisterBody) (file : option UploadedFile)
  (db : DB) (v : Registration) (st : StudentJoined) :
  registerSchema_parse b = inr v ->
  getStudentByStudentId db (r_studentId v) = Some st ->
  getUserByEmail db (r_email v) = None ->
  (2147483647 < parseInt (r_age v))%Z ->
  post_auth_register env b file db
  = (mkResponse 500 (Message "value is out of range for type integer"), db).
Proof.
  intros Hparse Hst Hu Hage.
  unfold post_auth_register, handle, register.
  rewrite Hparse. unfold bindM, read, write. rewrite Hst, Hu.
  unfold updateStudent. cbn [student_patch_empty sp_studentId sp_name sp_courseId
    sp_sectionId sp_age sp_email sp_birthday sp_profilePicture is_some orb negb].
  unfold pg_integer_opt, pg_integer.
  replace ((parseInt (r_age v) <=? 2147483647)%Z) with false
    by (symmetry; apply Z.leb_gt; lia).
  rewrite andb_false_r. reflexivity.
Qed.

(** C4.  A registration that passes [registerSchema]:
    - with a student id that no student record has, gets 404 "Student ID not
      found in system", and the database is as it was;
    - with an existing student id and an e-mail address some account has,
      gets 400 "Email already registered", and the database is as it was;
    - with an existing student id, an e-mail address no account has and an
      age that fits the integer column, provided the generated user id is
      new, succeeds and adds one account, whose stored hash is bcrypt's hash
      of the password; where bcrypt's compare accepts that pair, a login
      with the same e-mail address and password succeeds;
    - with an existing student id, an e-mail address no account has and an
      age above the range of the integer column, gets 500, and the database
      is as it was: no account is created.
    The student id, the e-mail address and the birthday are text that
    PostgreSQL takes. *)
Theorem register_outcomes (env : Env) (b : RegisterBody) (file : option UploadedFile)
  (db : DB) (v : Registration) :
  registerSchema_parse b = inr v ->
  forallb pg_text [r_studentId v; r_email v; r_birthday v] = true ->
  match getStudentByStudentId db (r_studentId v) with
  | None =>
      post_auth_register env b file db
      = (mkResponse 404 (Message "Student ID not found in system"), db)
  | Some _ =>
      match getUserByEmail db (r_email v) with
      | Some _ =>
          post_auth_register env b file db
          = (mkResponse 400 (Message "Email already registered"), db)
      | None =>
          (existsb (fun u => u_id u =? uuid env 0) (users db) = false ->
           (parseInt (r_age v) <= 2147483647)%Z ->
           bcrypt_compare (r_password v) (bcrypt_hash (salt env) (r_password v)) = true ->
           let db' := snd (post_auth_register env b file db) in
           fst (post_auth_register env b file db)
           = json (Message "Registration successful")
           /\ users db' = users db ++ [registered_user env v]
           /\ bcrypt_compare (r_password v) (u_password (registered_user env v)) = true
           /\ forall env' : Env,
                post_auth_login env' (credentials v) db'
                = (json (LoginOk (jwt_sign (now env') (uuid env 0)) (uuid env 0)
                                 (r_email v) role_student (Some (r_studentId v))), db'))
          /\ ((2147483647 < parseInt (r_age v))%Z ->
              post_auth_register env b file db
              = (mkResponse 500 (Message "value is out of range for type integer"), db))
      end
  end.
Proof.
  intros Hparse _.
  destruct (getStudentByStudentId db (r_studentId v)) as [st|] eqn:Hst;
    [|now apply register_unknown_student with (v := v)].
  destruct (getUserByEmail db (r_email v)) as [holder|] eqn:Hu;
    [now apply register_email_taken with (v := v) (st := st) (holder := holder)|].
  split; [|now apply register_age_refused with (v := v) (st := st)].
  intros Hfresh Hage Hcmp.
  destruct (register_success env b file db v st Hparse Hst Hu Hfresh Hage) as [sts Hrun].
  rewrite Hrun. cbn [fst snd]. split; [reflexivity|]. split; [reflexivity|].
  split; [exact Hcmp|]. intros env'.
  apply (login_after_register env' db sts v (registered_user env v));
    [now apply registerSchema_parse_ok with (b := b)|exact Hu|reflexivity|exact Hcmp].
Qed.

End Identity.

(** ** The settings row *)

Section Settings.

Lemma updateSystemSettings_first (gen : string) (clock : Z) (db : DB) (p : SettingsPatch) :
  systemSettings db = [] ->
  let created := mkSettings gen (or_keep (stp_systemName p) "Attendance System")
                            (or_keep (stp_qrCodeEnabled p) true) clock in
  updateSystemSettings gen clock db p
  = Ok (Some created, set_systemSettings db [created]).
Proof.
  intros Hempty created. unfold updateSystemSettings, getSystemSettings.
  rewrite Hempty. reflexivity.
Qed.

Lemma updateSystemSettings_again (gen : string) (clock : Z) (db : DB) (p : SettingsPatch)
  (row : SystemSettings) :
  systemSettings db = [row] ->
  let updated := mkSettings (ss_id row) (or_keep (stp_systemName p) (ss_systemName row))
                            (or_keep (stp_qrCodeEnabled p) (ss_qrCodeEnabled row)) clock in
  updateSystemSettings gen clock db p
  = Ok (Some updated, set_systemSettings db [updated]).
Proof.
  intros Hone updated. unfold updateSystemSettings, getSystemSettings.
  rewrite Hone. cbn. rewrite String.eqb_refl. reflexivity.
Qed.

Lemma update_all_one_row (calls : list SettingsCall) (db : DB) (row : SystemSettings) :
  systemSettings db = [row] ->
  update_all calls db
  = Ok (set_systemSettings db [fold_left settings_after calls row]).
Proof.
  revert db row. induction calls as [|[[gen clock] p] rest IH]; intros db row Hone.
  - cbn. destruct db; cbn in *. now subst.
  - cbn [update_all fold_left].
    rewrite (updateSystemSettings_again gen clock db p row Hone).
    rewrite (IH (set_systemSettings db
                   [mkSettings (ss_id row) (or_keep (stp_systemName p) (ss_systemName row))
                      (or_keep (stp_qrCodeEnabled p) (ss_qrCodeEnabled row)) clock])
                _ eq_refl).
    reflexivity.
Qed.

Lemma settings_after_id (calls : list SettingsCall) (row : SystemSettings) :
  ss_id (fold_left settings_after calls row) = ss_id row.
Proof.
  revert row. induction calls as [|[[gen clock] p] rest IH]; intros row; [reflexivity|].
  cbn [fold_left]. now rewrite IH.
Qed.

(** C6.  On an empty settings table [updateSystemSettings] inserts one row,
    with the identifier generated for it, and returns it.  A call that finds
    one row inserts nothing: it puts in that row's place the row with the
    same identifier, the values sent in place of the stored ones and the
    time of the call, and returns it.  So after any number of further calls
    the table holds exactly one row: the created row with each call's
    changes made to it in turn, under the identifier the first call gave
    it. *)
Theorem settings_singleton (gen : string) (clock : Z) (p : SettingsPatch)
  (later : list SettingsCall) (db : DB) :
  systemSettings db = [] ->
  let created := settings_created (gen, clock, p) in
  let final := fold_left settings_after later created in
  updateSystemSettings gen clock db p
  = Ok (Some created, set_systemSettings db [created])
  /\ ss_id created = gen
  /\ update_all ((gen, clock, p) :: later) db = Ok (set_systemSettings db [final])
  /\ ss_id final = gen
  /\ forall (call : SettingsCall) (row : SystemSettings) (db1 : DB),
       systemSettings db1 = [row] ->
       updateSystemSettings (fst (fst call)) (snd (fst call)) db1 (snd call)
       = Ok (Some (settings_after row call),
             set_systemSettings db1 [settings_after row call])
       /\ ss_id (settings_after row call) = ss_id row.
Proof.
  intros Hempty created final.
  pose proof (updateSystemSettings_first gen clock db p Hempty) as Hfirst.
  cbv zeta in Hfirst.
  split; [exact Hfirst|]. split; [reflexivity|]. split; [|split].
  - cbn [update_all]. rewrite Hfirst.
    exact (update_all_one_row later (set_systemSettings db [created]) created eq_refl).
  - unfold final. now rewrite settings_after_id.
  - intros [[gen1 clock1] p1] row db1 Hone. split; [|reflexivity].
    exact (updateSystemSettings_again gen1 clock1 db1 p1 row Hone).
Qed.

End Settings.

(** ** Who may change the records *)

Section Authorization.

Context {services : Services}.

Lemma refused_unless_admin (env : Env) (authorization : option string) (db : DB)
  (user : User) (h : M Response) :
  authMiddleware env db authorization = inr user ->
  u_role user <> role_admin ->
  authenticated env authorization
    (fun user => if negb (Role_eqb (u_role user) role_admin) then ret forbidden_admin else h)
    db
  = (forbidden_admin, db).
Proof.
  intros Hauth Hrole. unfold authenticated. rewrite Hauth.
  destruct (u_role user); [contradiction|]. reflexivity.
Qed.

Lemma open_to_authenticated {A : Type} (env : Env) (authorization : option string)
  (db : DB) (user : User) (f : DB -> A) (shape : A -> Body) :
  authMiddleware env db authorization = inr user ->
  authenticated env authorization (fun _ => all <~ read f ;; ret (json (shape all))) db
  = (json (shape (f db)), db).
Proof. intros Hauth. unfold authenticated. rewrite Hauth. reflexivity. Qed.

(** C7, as the code has it.  Every operation that creates, updates or
    deletes students, courses, sections or events (the CSV import and the
    QR regeneration among them) answers an authenticated caller whose role
    is not admin with 403 "Admin access required" and leaves the database
    as it was.  The listings of courses, sections and events make no role
    check: every authenticated caller gets them. *)
Theorem changes_admin_only (env : Env) (authorization : option string) (db : DB)
  (user : User) :
  authMiddleware env db authorization = inr user ->
  u_role user <> role_admin ->
  ((forall b, post_students env authorization b db = (forbidden_admin, db))
   /\ (forall id b, put_students env authorization id b db = (forbidden_admin, db))
   /\ (forall id, delete_students env authorization id db = (forbidden_admin, db))
   /\ (forall rows, post_students_import env authorization rows db = (forbidden_admin, db)))
  /\ ((forall b, post_courses env authorization b db = (forbidden_admin, db))
      /\ (forall id b, put_courses env authorization id b db = (forbidden_admin, db))
      /\ (forall id, delete_courses env authorization id db = (forbidden_admin, db)))
  /\ ((forall b, post_sections env authorization b db = (forbidden_admin, db))
      /\ (forall id b, put_sections env authorization id b db = (forbidden_admin, db))
      /\ (forall id, delete_sections env authorization id db = (forbidden_admin, db)))
  /\ ((forall b, post_events env authorization b db = (forbidden_admin, db))
      /\ (forall id b, put_events env authorization id b db = (forbidden_admin, db))
      /\ (forall id, delete_events env authorization id db = (forbidden_admin, db))
      /\ (forall id, post_events_regenerate_qr env authorization id db
                     = (forbidden_admin, db)))
  /\ (get_courses env authorization db = (json (JsonCourses (getAllCourses db)), db)
      /\ get_sections env authorization db = (json (JsonSections (getAllSections db)), db)
      /\ get_events env authorization db = (json (JsonEvents (getAllEvents db)), db)).
Proof.
  intros Hauth Hrole.
  repeat split; intros;
    solve [ now apply refused_unless_admin with (user := user)
          | now apply open_to_authenticated with (user := user) ].
Qed.

End Authorization.

(** ** Further properties: authentication *)

Section Tokens.

Context {services : Services}.

Lemma substring_all (s : string) : String.substring 0 (String.length s) s = s.
Proof. induction s as [|c s IH]; cbn; [reflexivity|now rewrite IH]. Qed.

Lemma index_bearer (token : string) :
  String.index 0 "Bearer " (String.append "Bearer " token) = Some 0.
Proof.
  assert (Hsub : String.substring 0 (String.length "Bearer ")
                   (String.append "Bearer " token) = "Bearer ")
    by (cbn; destruct token; reflexivity).
  destruct (String.index 0 "Bearer " (String.append "Bearer " token)) as [m|] eqn:Hi.
  - destruct m as [|m]; [reflexivity|].
    exfalso. eapply String.index_correct2 with (p := 0); [exact Hi|lia|lia|exact Hsub].
  - exfalso.
    eapply String.index_correct3 with (m := 0); [exact Hi|discriminate|lia|exact Hsub].
Qed.

Lemma replace_bearer (token : string) :
  replace "Bearer " "" (String.append "Bearer " token) = token.
Proof.
  unfold replace. rewrite index_bearer. cbn.
  rewrite Nat.sub_0_r. apply substring_all.
Qed.

(** The middleware refuses with status 401 only, and then the route answers
    with that refusal and writes nothing; the user it lets through is a row
    of the users table, the one whose id the token decodes to. *)
Theorem authMiddleware_outcomes (env : Env) (db : DB) (authorization : option string) :
  match authMiddleware env db authorization with
  | inl refused =>
      status refused = 401%Z
      /\ forall handler, authenticated env authorization handler db = (refused, db)
  | inr user =>
      In user (users db)
      /\ exists header,
           authorization = Some header
           /\ header <> ""
           /\ jwt_verify (now env) (replace "Bearer " "" header) = Some (u_id user)
  end.
Proof.
  unfold authenticated. unfold authMiddleware.
  destruct authorization as [header|]; cbn [truthy negb or_keep].
  - destruct (String.eqb_spec header "") as [->|Hne]; cbn [negb].
    + split; [reflexivity|]. intros handler. reflexivity.
    + destruct (jwt_verify (now env) (replace "Bearer " "" header)) as [userId|] eqn:Hv.
      * destruct (getUser db userId) as [user|] eqn:Hu.
        -- apply first_filter_In in Hu. destruct Hu as [Hin Hid].
           apply String.eqb_eq in Hid. split; [exact Hin|].
           exists header. rewrite Hid. auto.
        -- split; [reflexivity|]. intros handler. reflexivity.
      * split; [reflexivity|]. intros handler. reflexivity.
  - split; [reflexivity|]. intros handler. reflexivity.
Qed.

(** A login never writes, and answers 200, 400 or 401, never 500. *)
Theorem login_reads_only (env : Env) (b : LoginBody) (db : DB) :
  snd (post_auth_login env b db) = db
  /\ (status (fst (post_auth_login env b db)) = 200%Z
      \/ status (fst (post_auth_login env b db)) = 400%Z
      \/ status (fst (post_auth_login env b db)) = 401%Z).
Proof.
  unfold post_auth_login, handle, login.
  destruct (loginSchema_parse b) as [errors|[email password]]; [cbn; auto|].
  unfold bindM, read. destruct (getUserByEmail db email) as [user|]; [|cbn; auto].
  destruct (bcrypt_compare password (u_password user)); cbn; auto.
Qed.

(** The token a successful login issues, sent back as [Bearer <token>],
    authenticates the account that logged in, as long as that account is
    stored and jsonwebtoken verifies what it signed. *)
Theorem login_token_authenticates (env env' : Env) (b : LoginBody) (db : DB)
  (email password : string) (user : User) :
  loginSchema_parse b = inr (email, password) ->
  getUserByEmail db email = Some user ->
  bcrypt_compare password (u_password user) = true ->
  NoDup (map u_id (users db)) ->
  jwt_verify (now env') (jwt_sign (now env) (u_id user)) = Some (u_id user) ->
  post_auth_login env b db
  = (json (LoginOk (jwt_sign (now env) (u_id user)) (u_id user) (u_email user)
                   (u_role user) (u_studentId user)), db)
  /\ authMiddleware env' db (bearer (jwt_sign (now env) (u_id user))) = inr user.
Proof.
  intros Hparse Huser Hcmp Hnd Hjwt.
  split; [now apply login_ok with (email := email) (password := password)|].
  unfold authMiddleware, bearer. cbn [truthy negb or_keep].
  replace (String.append "Bearer " (jwt_sign (now env) (u_id user)) =? "") with false
    by reflexivity.
  cbn [negb]. rewrite replace_bearer, Hjwt.
  apply first_filter_In in Huser. destruct Huser as [Hin _].
  unfold getUser. now rewrite (first_filter_unique u_id _ _ Hnd Hin).
Qed.

End Tokens.

(** ** Further properties: the student roll *)

Section Roll.

Context {services : Services}.

Lemma first_filter_find {R : Type} (p : R -> bool) (t : list R) :
  first (filter p t) = find p t.
Proof.
  induction t as [|r t IH]; cbn; [reflexivity|]. destruct (p r); [reflexivity|exact IH].
Qed.

Lemma first_filter_map {A B : Type} (g : A -> B) (p : B -> bool) (t : list A) :
  first (filter p (map g t)) = option_map g (first (filter (fun a => p (g a)) t)).
Proof.
  induction t as [|a t IH]; cbn; [reflexivity|]. destruct (p (g a)); [reflexivity|exact IH].
Qed.

Lemma filter_block {A B : Type} (p : A -> bool) (a : A) (ms : list B) :
  filter (fun x : A * option B => p (fst x)) (map (fun b => (a, Some b)) ms)
  = if p a then map (fun b => (a, Some b)) ms else [].
Proof.
  induction ms as [|m ms IH]; cbn; [now destruct (p a)|].
  rewrite IH. now destruct (p a).
Qed.

(** The first row of a left join whose left side satisfies [p] carries the
    first left row that satisfies [p]. *)
Lemma left_join_first {A B : Type} (on : A -> B -> bool) (p : A -> bool)
  (l : list A) (r : list B) :
  option_map fst (first (filter (fun x => p (fst x)) (left_join on l r))) = find p l.
Proof.
  unfold left_join. induction l as [|a l IH]; cbn [flat_map]; [reflexivity|].
  rewrite filter_app. cbn [find].
  destruct (filter (on a) r) as [|m ms].
  - cbn [filter fst]. destruct (p a); [reflexivity|exact IH].
  - rewrite filter_block. destruct (p a); [reflexivity|exact IH].
Qed.

Lemma option_map_map {A B C : Type} (f : A -> B) (g : B -> C) (o : option A) :
  option_map g (option_map f o) = option_map (fun a => g (f a)) o.
Proof. now destruct o. Qed.

Lemma students_joined_first (p : Student -> bool) (db : DB) :
  option_map sj_row (first (filter (fun j => p (sj_row j)) (students_joined db)))
  = find p (students db).
Proof.
  unfold students_joined. rewrite first_filter_map, option_map_map. cbn [sj_row].
  rewrite <- (left_join_first (fun s c => s_courseId s =? c_id c) p
                (students db) (courses db)).
  rewrite <- (option_map_map fst fst).
  rewrite (left_join_first (fun sc sec => s_sectionId (fst sc) =? sec_id sec)
             (fun sc => p (fst sc))).
  now rewrite first_filter_find.
Qed.

Lemma find_none_iff {R : Type} (p : R -> bool) (t : list R) :
  find p t = None <-> forall r, In r t -> p r = false.
Proof.
  split; [apply find_none|].
  induction t as [|x t IH]; cbn; [reflexivity|]. intros H.
  rewrite (H x (or_introl eq_refl)). apply IH. intros r Hr. apply H. now right.
Qed.

Lemma getStudentByStudentId_find (db : DB) (studentId : string) :
  option_map sj_row (getStudentByStudentId db studentId)
  = find (fun s => s_studentId s =? studentId) (students db).
Proof. apply (students_joined_first (fun s => s_studentId s =? studentId)). Qed.

Lemma getStudentByStudentId_none (db : DB) (studentId : string) :
  getStudentByStudentId db studentId = None
  <-> forall s, In s (students db) -> s_studentId s <> studentId.
Proof.
  pose proof (getStudentByStudentId_find db studentId) as H. split.
  - intros Hnone s Hin. rewrite Hnone in H. cbn in H. symmetry in H.
    apply String.eqb_neq. exact (proj1 (find_none_iff _ _) H s Hin).
  - intros Hall.
    assert (Hf : find (fun s => s_studentId s =? studentId) (students db) = None).
    { apply find_none_iff. intros s Hin. apply String.eqb_neq. now apply Hall. }
    rewrite Hf in H. now destruct (getStudentByStudentId db studentId).
Qed.

(** The joins with courses and sections decide nothing about which student
    [getStudentByStudentId] finds: it is the first row of the students table
    with that student id, and there is none exactly when no row has it. *)
Theorem student_lookup_row (db : DB) (studentId : string) :
  option_map sj_row (getStudentByStudentId db studentId)
  = find (fun s => s_studentId s =? studentId) (students db)
  /\ (getStudentByStudentId db studentId = None
      <-> forall s, In s (students db) -> s_studentId s <> studentId).
Proof.
  split; [apply getStudentByStudentId_find|apply getStudentByStudentId_none].
Qed.

Lemma find_update_where {R : Type} (p hit : R -> bool) (f : R -> R) (t : list R) :
  (forall r, p (f r) = p r) ->
  find p (update_where hit f t) = option_map (fun r => if hit r then f r else r) (find p t).
Proof.
  intros Hp. unfold update_where. induction t as [|r t IH]; cbn; [reflexivity|].
  destruct (hit r) eqn:Hh; rewrite ?Hp; destruct (p r); cbn; rewrite ?Hh; auto.
Qed.

Lemma existsb_false_find {R : Type} (p : R -> bool) (t : list R) :
  existsb p t = false -> find p t = None.
Proof.
  induction t as [|r t IH]; cbn; [reflexivity|]. destruct (p r); [discriminate|exact IH].
Qed.

Lemma find_app {R : Type} (p : R -> bool) (t u : list R) :
  find p (t ++ u) = match find p t with Some r => Some r | None => find p u end.
Proof.
  induction t as [|r t IH]; cbn; [reflexivity|]. destruct (p r); [reflexivity|exact IH].
Qed.

Lemma register_run (env : Env) (b : RegisterBody) (file : option UploadedFile)
  (db : DB) (v : Registration) (st : StudentJoined) :
  registerSchema_parse b = inr v ->
  getStudentByStudentId db (r_studentId v) = Some st ->
  getUserByEmail db (r_email v) = None ->
  existsb (fun u => u_id u =? uuid env 0) (users db) = false ->
  (parseInt (r_age v) <= 2147483647)%Z ->
  post_auth_register env b file db
  = (json (Message "Registration successful"),
     set_users
       (set_students db
          (update_where (fun s => s_id s =? s_id (sj_row st)) (enriched v file)
                        (students db)))
       (users db ++ [registered_user env v])).
Proof.
  intros Hparse Hst Hu Hfresh Hage.
  pose proof (registerSchema_parse_ok b v Hparse) as Hok.
  destruct (registerSchema_ok_fields v Hok) as (_ & _ & Hdigits).
  pose proof (parseInt_nonneg _ Hdigits) as Hnonneg.
  unfold post_auth_register, handle, register.
  rewrite Hparse. unfold bindM, read, write. rewrite Hst, Hu.
  unfold updateStudent. cbn [student_patch_empty sp_studentId sp_name sp_courseId
    sp_sectionId sp_age sp_email sp_birthday sp_profilePicture is_some orb negb].
  unfold pg_integer_opt, pg_integer.
  replace ((-2147483648 <=? parseInt (r_age v))%Z) with true
    by (symmetry; apply Z.leb_le; lia).
  replace ((parseInt (r_age v) <=? 2147483647)%Z) with true
    by (symmetry; apply Z.leb_le; lia).
  cbn [andb bind]. unfold createUser.
  cbn [users set_students iu_email iu_password iu_role iu_studentId].
  rewrite Hfresh.
  rewrite (first_filter_none_existsb _ _ Hu).
  reflexivity.
Qed.

Lemma register_student_found (env : Env) (b : RegisterBody)
  (file : option UploadedFile) (db : DB) (v : Registration) (st : StudentJoined) :
  registerSchema_parse b = inr v ->
  getStudentByStudentId db (r_studentId v) = Some st ->
  getUserByEmail db (r_email v) = None ->
  existsb (fun u => u_id u =? uuid env 0) (users db) = false ->
  (parseInt (r_age v) <= 2147483647)%Z ->
  option_map sj_row
    (getStudentByStudentId (snd (post_auth_register env b file db)) (r_studentId v))
  = Some (enriched v file (sj_row st)).
Proof.
  intros Hparse Hst Hu Hfresh Hage.
  rewrite (register_run env b file db v st Hparse Hst Hu Hfresh Hage). cbn [snd].
  rewrite (getStudentByStudentId_find _ _). cbn [students set_users set_students].
  rewrite find_update_where by reflexivity.
  pose proof (getStudentByStudentId_find db (r_studentId v)) as Hrow.
  rewrite Hst in Hrow. cbn in Hrow. rewrite <- Hrow. cbn.
  now rewrite String.eqb_refl.
Qed.

(** A successful registration fills in the student row it registered
    against: age, e-mail address, birthday and picture are set from the
    request, the other columns stay, and the student id still finds the
    row. *)
Theorem register_enriches_student (env : Env) (b : RegisterBody)
  (file : option UploadedFile) (db : DB) (v : Registration) (st : StudentJoined) :
  registerSchema_parse b = inr v ->
  getStudentByStudentId db (r_studentId v) = Some st ->
  getUserByEmail db (r_email v) = None ->
  existsb (fun u => u_id u =? uuid env 0) (users db) = false ->
  (parseInt (r_age v) <= 2147483647)%Z ->
  option_map sj_row
    (getStudentByStudentId (snd (post_auth_register env b file db)) (r_studentId v))
  = Some (enriched v file (sj_row st)).
Proof. apply register_student_found. Qed.

(** The schema bounds the age by its digits only.  An age above the range
    of the integer column passes validation, the update of the student row
    throws, and the registration is answered 500 with nothing written. *)
Theorem register_age_out_of_range (env : Env) (b : RegisterBody)
  (file : option UploadedFile) (db : DB) (v : Registration) (st : StudentJoined) :
  registerSchema_parse b = inr v ->
  getStudentByStudentId db (r_studentId v) = Some st ->
  getUserByEmail db (r_email v) = None ->
  (2147483647 < parseInt (r_age v))%Z ->
  status (fst (post_auth_register env b file db)) = 500%Z
  /\ snd (post_auth_register env b file db) = db.
Proof.
  intros Hparse Hst Hu Hage.
  unfold post_auth_register, handle, register.
  rewrite Hparse. unfold bindM, read, write. rewrite Hst, Hu.
  unfold updateStudent. cbn [student_patch_empty sp_studentId sp_name sp_courseId
    sp_sectionId sp_age sp_email sp_birthday sp_profilePicture is_some orb negb].
  unfold pg_integer_opt, pg_integer.
  replace ((parseInt (r_age v) <=? 2147483647)%Z) with false
    by (symmetry; apply Z.leb_gt; lia).
  rewrite andb_false_r. cbn. auto.
Qed.

(** Registration does not ask whether the student already has an account.
    A second registration against the same student id, with another e-mail
    address, succeeds as well, and both accounts carry that student id. *)
Theorem one_student_many_accounts (env1 env2 : Env) (b1 b2 : RegisterBody)
  (f1 f2 : option UploadedFile) (db : DB) (v1 v2 : Registration) (st : StudentJoined) :
  registerSchema_parse b1 = inr v1 ->
  registerSchema_parse b2 = inr v2 ->
  r_studentId v2 = r_studentId v1 ->
  r_email v2 <> r_email v1 ->
  getStudentByStudentId db (r_studentId v1) = Some st ->
  getUserByEmail db (r_email v1) = None ->
  getUserByEmail db (r_email v2) = None ->
  existsb (fun u => u_id u =? uuid env1 0) (users db) = false ->
  existsb (fun u => u_id u =? uuid env2 0) (users db) = false ->
  uuid env1 0 <> uuid env2 0 ->
  (parseInt (r_age v1) <= 2147483647)%Z ->
  (parseInt (r_age v2) <= 2147483647)%Z ->
  let db1 := snd (post_auth_register env1 b1 f1 db) in
  let db2 := snd (post_auth_register env2 b2 f2 db1) in
  fst (post_auth_register env1 b1 f1 db) = json (Message "Registration successful")
  /\ fst (post_auth_register env2 b2 f2 db1) = json (Message "Registration successful")
  /\ users db2 = users db ++ [registered_user env1 v1; registered_user env2 v2]
  /\ u_studentId (registered_user env1 v1) = u_studentId (registered_user env2 v2).
Proof.
  intros Hp1 Hp2 Hsid Hemail Hst Hu1 Hu2 Hf1 Hf2 Hne Ha1 Ha2 db1 db2.
  pose proof (register_student_found env1 b1 f1 db v1 st Hp1 Hst Hu1 Hf1 Ha1) as Hst1.
  fold db1 in Hst1.
  pose proof (register_run env1 b1 f1 db v1 st Hp1 Hst Hu1 Hf1 Ha1) as Hrun1.
  destruct (getStudentByStudentId db1 (r_studentId v1)) as [st1|] eqn:Hst1';
    [|discriminate].
  assert (Husers1 : users db1 = users db ++ [registered_user env1 v1])
    by (unfold db1; now rewrite Hrun1).
  assert (Hu2' : getUserByEmail db1 (r_email v2) = None).
  { unfold getUserByEmail. rewrite Husers1, filter_app.
    rewrite (existsb_false_filter _ _ (first_filter_none_existsb _ _ Hu2)).
    cbn. apply not_eq_sym, String.eqb_neq in Hemail. now rewrite Hemail. }
  assert (Hf2' : existsb (fun u => u_id u =? uuid env2 0) (users db1) = false).
  { rewrite Husers1, existsb_app, Hf2. cbn.
    apply String.eqb_neq in Hne. now rewrite Hne. }
  rewrite <- Hsid in Hst1'.
  pose proof (register_run env2 b2 f2 db1 v2 st1 Hp2 Hst1' Hu2' Hf2' Ha2) as Hrun2.
  split; [now rewrite Hrun1|]. split; [now rewrite Hrun2|].
  split.
  - unfold db2. rewrite Hrun2. cbn [snd users set_users].
    rewrite Husers1, <- app_assoc. reflexivity.
  - unfold registered_user. cbn. now rewrite Hsid.
Qed.

Lemma pg_integer_opt_fits (age : option Z) :
  age_fits age -> pg_integer_opt age = Ok age.
Proof.
  destruct age as [n|]; [|reflexivity]. cbn. intros [Hlo Hhi].
  unfold pg_integer.
  replace ((-2147483648 <=? n)%Z) with true by (symmetry; now apply Z.leb_le).
  replace ((n <=? 2147483647)%Z) with true by (symmetry; now apply Z.leb_le).
  reflexivity.
Qed.

Lemma createStudent_ok (gen : string) (clock : Z) (db : DB) (i : InsertStudent) :
  age_fits (ist_age i) ->
  existsb (fun s => s_id s =? gen) (students db) = false ->
  getStudentByStudentId db (ist_studentId i) = None ->
  createStudent gen clock db i
  = Ok (student_row gen clock i, set_students db (students db ++ [student_row gen clock i])).
Proof.
  intros Hage Hfresh Hfree. unfold createStudent.
  rewrite (pg_integer_opt_fits _ Hage). cbn [bind]. rewrite Hfresh.
  pose proof (getStudentByStudentId_find db (ist_studentId i)) as Hrow.
  rewrite Hfree in Hrow. cbn in Hrow. symmetry in Hrow.
  rewrite <- first_filter_find in Hrow.
  now rewrite (first_filter_none_existsb _ _ Hrow).
Qed.

Lemma createStudent_taken (gen : string) (clock : Z) (db : DB) (i : InsertStudent)
  (holder : StudentJoined) :
  getStudentByStudentId db (ist_studentId i) = Some holder ->
  exists msg, createStudent gen clock db i = Thrown msg.
Proof.
  intros Htaken. unfold createStudent.
  destruct (pg_integer_opt (ist_age i)) as [age|msg]; cbn [bind]; [|eauto].
  destruct (existsb (fun s => s_id s =? gen) (students db)); [eauto|].
  pose proof (getStudentByStudentId_find db (ist_studentId i)) as Hrow.
  rewrite Htaken in Hrow. cbn in Hrow. symmetry in Hrow.
  apply find_some in Hrow. destruct Hrow as [Hin Hid].
  assert (He : existsb (fun s => s_studentId s =? ist_studentId i) (students db) = true)
    by (apply existsb_exists; eauto).
  rewrite He. eauto.
Qed.

(** A student an admin creates is on the roll at once: the verification
    that answered 404 for the student id before answers 200 with the new
    row after, provided the id generated for the row is new and the age, if
    any, fits the integer column. *)
Theorem created_student_is_verified (env : Env) (authorization : option string)
  (db : DB) (caller : User) (b : StudentBody) (i : InsertStudent) :
  authMiddleware env db authorization = inr caller ->
  u_role caller = role_admin ->
  insertStudentSchema_parse b = inr i ->
  age_fits (ist_age i) ->
  existsb (fun s => s_id s =? uuid env 0) (students db) = false ->
  fst (post_students_verify (ist_studentId i) db) = inr None ->
  let created := student_row (uuid env 0) (now env) i in
  let db' := snd (post_students env authorization b db) in
  post_students env authorization b db
  = (json (JsonStudent (Some created)), set_students db (students db ++ [created]))
  /\ verify_status (fst (post_students_verify (ist_studentId i) db')) = 200%Z
  /\ exists found,
       fst (post_students_verify (ist_studentId i) db') = inr (Some found)
       /\ sj_row found = created.
Proof.
  intros Hauth Hrole Hparse Hage Hfresh Hfree created db'.
  cbn in Hfree. injection Hfree as Hfree.
  assert (Hrun : post_students env authorization b db
                 = (json (JsonStudent (Some created)),
                    set_students db (students db ++ [created]))).
  { unfold post_students, authenticated. rewrite Hauth, Hrole. cbn [Role_eqb negb].
    rewrite Hparse. unfold handle, bindM, write.
    now rewrite (createStudent_ok _ _ db i Hage Hfresh Hfree). }
  split; [exact Hrun|].
  assert (Hfound : option_map sj_row (getStudentByStudentId db' (ist_studentId i))
                   = Some created).
  { rewrite (getStudentByStudentId_find _ _). unfold db'. rewrite Hrun.
    cbn [snd students set_students]. rewrite find_app.
    pose proof (getStudentByStudentId_find db (ist_studentId i)) as Hrow.
    rewrite Hfree in Hrow. cbn in Hrow. rewrite <- Hrow. cbn.
    now rewrite String.eqb_refl. }
  unfold post_students_verify. cbn [fst].
  destruct (getStudentByStudentId db' (ist_studentId i)) as [found|]; [|discriminate].
  cbn in Hfound. injection Hfound as Hfound.
  split; [reflexivity|]. exists found. auto.
Qed.

(** A student id that is taken is not a validation error: creating a
    second student with it is answered 500, and nothing is written. *)
Theorem duplicate_student_id_refused (env : Env) (authorization : option string)
  (db : DB) (caller : User) (b : StudentBody) (i : InsertStudent)
  (holder : StudentJoined) :
  authMiddleware env db authorization = inr caller ->
  u_role caller = role_admin ->
  insertStudentSchema_parse b = inr i ->
  age_fits (ist_age i) ->
  getStudentByStudentId db (ist_studentId i) = Some holder ->
  status (fst (post_students env authorization b db)) = 500%Z
  /\ snd (post_students env authorization b db) = db.
Proof.
  intros Hauth Hrole Hparse _ Htaken.
  destruct (createStudent_taken (uuid env 0) (now env) db i holder Htaken) as [msg Hmsg].
  unfold post_students, authenticated. rewrite Hauth, Hrole. cbn [Role_eqb negb].
  rewrite Hparse. unfold handle, bindM, write. rewrite Hmsg. cbn. auto.
Qed.

(** Deleting a student removes the row of the students table and nothing
    else: the accounts and the attendance records stay.  With student ids
    unique, the deleted student's id finds no one afterwards, and a scan by
    the account that was registered against it is answered 404. *)
Theorem delete_student_leaves_account (env : Env) (authorization : option string)
  (db : DB) (caller : User) (st : StudentJoined) (studentId : string) :
  authMiddleware env db authorization = inr caller ->
  u_role caller = role_admin ->
  getStudentByStudentId db studentId = Some st ->
  NoDup (map s_studentId (students db)) ->
  let db' := snd (delete_students env authorization (s_id (sj_row st)) db) in
  fst (delete_students env authorization (s_id (sj_row st)) db)
  = json (Message "Student deleted")
  /\ users db' = users db
  /\ attendance db' = attendance db
  /\ getStudentByStudentId db' studentId = None
  /\ forall (env2 : Env) (account : User) (qrCodeData eventId : string),
       u_studentId account = Some studentId ->
       studentId <> "" -> qrCodeData <> "" ->
       JSON_parse qrCodeData = Ok eventId ->
       handle (checkin env2 account (scan qrCodeData)) db'
       = (mkResponse 404 (Message "Student not found"), db').
Proof.
  intros Hauth Hrole Hst Hnd db'.
  assert (Hdb' : db' = set_students db
            (delete_where (fun s => s_id s =? s_id (sj_row st)) (students db))).
  { unfold db', delete_students, authenticated. rewrite Hauth, Hrole. reflexivity. }
  assert (Hgone : getStudentByStudentId db' studentId = None).
  { apply (proj2 (getStudentByStudentId_none db' studentId)). intros s Hin Hsid.
    rewrite Hdb' in Hin. cbn [students set_students] in Hin.
    unfold delete_where in Hin. apply filter_In in Hin. destruct Hin as [Hin Hkeep].
    pose proof (getStudentByStudentId_find db studentId) as Hrow.
    rewrite Hst in Hrow. cbn in Hrow. symmetry in Hrow.
    apply find_some in Hrow. destruct Hrow as [Hin0 Hsid0].
    apply String.eqb_eq in Hsid0.
    assert (s = sj_row st)
      by (apply (unique_key s_studentId (students db)); congruence).
    subst s. now rewrite String.eqb_refl in Hkeep. }
  split; [unfold delete_students, authenticated; now rewrite Hauth, Hrole|].
  split; [now rewrite Hdb'|]. split; [now rewrite Hdb'|]. split; [exact Hgone|].
  intros env2 account qrCodeData eventId Hacc Hsid Hqr Hparse.
  unfold handle, checkin, checkin_lookup, checkin_target, scan, bindM, read.
  cbn [ck_qrCodeData truthy or_keep].
  apply String.eqb_neq in Hsid, Hqr. rewrite Hqr, Hparse, Hacc. cbn [negb attempt ret truthy].
  rewrite Hsid. cbn [negb or_keep]. rewrite Hgone. reflexivity.
Qed.

Lemma complete_fields (row : StudentBody) :
  complete row
  = match sb_studentId row, sb_name row, sb_courseId row, sb_sectionId row with
    | Some sid, Some name, Some c, Some s =>
        negb (sid =? "") && negb (name =? "") && negb (c =? "") && negb (s =? "")
    | _, _, _, _ => false
    end.
Proof.
  unfold complete, truthy.
  destruct (sb_studentId row), (sb_name row), (sb_courseId row), (sb_sectionId row);
    rewrite ?andb_false_r; reflexivity.
Qed.

Lemma import_students_complete (env : Env) (rows : list StudentBody) (n : nat) (db : DB) :
  import_students env n rows db = import_students env n (filter complete rows) db.
Proof.
  revert n db. induction rows as [|row rows IH]; intros n db; [reflexivity|].
  cbn [filter]. rewrite complete_fields. cbn [import_students].
  destruct (sb_studentId row) as [sid|] eqn:H1; [|apply IH].
  destruct (sb_name row) as [name|] eqn:H2; [|apply IH].
  destruct (sb_courseId row) as [c|] eqn:H3; [|apply IH].
  destruct (sb_sectionId row) as [sec|] eqn:H4; [|apply IH].
  destruct (negb (sid =? "") && negb (name =? "") && negb (c =? "") && negb (sec =? ""))
    eqn:Hc; [|apply IH].
  cbn [import_students]. rewrite H1, H2, H3, H4, Hc.
  unfold bindM. destruct (write _ db) as [a d|msg d]; [apply IH|reflexivity].
Qed.

(** The import passes over every row that lacks one of student id, name,
    course id and section id, or has it empty, without a word: the outcome
    is that of importing the complete rows alone. *)
Theorem import_skips_incomplete_rows (env : Env) (authorization : option string)
  (rows : list StudentBody) (db : DB) :
  post_students_import env authorization (Some rows) db
  = post_students_import env authorization (Some (filter complete rows)) db.
Proof.
  unfold post_students_import, authenticated.
  destruct (authMiddleware env db authorization) as [refused|user]; [reflexivity|].
  destruct (negb (Role_eqb (u_role user) role_admin)); [reflexivity|].
  unfold handle, bindM. now rewrite import_students_complete.
Qed.

(** The import is not atomic.  When the second row repeats the student id
    of the first, the first row is inserted, the second insert throws, the
    answer is 500, and the first row stays in the table. *)
Theorem import_stops_at_duplicate (env : Env) (authorization : option string)
  (db : DB) (caller : User) (r1 r2 : StudentBody) (rest : list StudentBody)
  (i1 : InsertStudent) :
  authMiddleware env db authorization = inr caller ->
  u_role caller = role_admin ->
  complete r1 = true -> complete r2 = true ->
  insertStudentSchema_parse r1 = inr i1 ->
  sb_studentId r2 = sb_studentId r1 ->
  age_fits (ist_age i1) ->
  existsb (fun s => s_id s =? uuid env 0) (students db) = false ->
  getStudentByStudentId db (ist_studentId i1) = None ->
  status (fst (post_students_import env authorization (Some (r1 :: r2 :: rest)) db))
  = 500%Z
  /\ students (snd (post_students_import env authorization (Some (r1 :: r2 :: rest)) db))
     = students db ++ [student_row (uuid env 0) (now env) i1].
Proof.
  intros Hauth Hrole Hc1 Hc2 Hparse Hsame Hage Hfresh Hfree.
  set (db1 := set_students db (students db ++ [student_row (uuid env 0) (now env) i1])).
  assert (Hrun : exists msg,
             import_students env 0 (r1 :: r2 :: rest) db = Raised msg db1).
  { rewrite complete_fields in Hc1, Hc2.
    unfold insertStudentSchema_parse in Hparse.
    cbn [import_students].
    destruct (sb_studentId r1) as [sid|] eqn:H1; [|discriminate].
    destruct (sb_name r1) as [name|] eqn:H2; [|discriminate].
    destruct (sb_courseId r1) as [c|] eqn:H3; [|discriminate].
    destruct (sb_sectionId r1) as [sec|] eqn:H4; [|discriminate].
    injection Hparse as Hi1. rewrite Hc1, Hi1.
    unfold bindM at 1. unfold write at 1.
    rewrite (createStudent_ok (uuid env 0) (now env) db i1 Hage Hfresh Hfree).
    fold db1. rewrite Hsame in Hc2. rewrite Hsame.
    destruct (sb_name r2) as [name2|]; [|discriminate].
    destruct (sb_courseId r2) as [c2|]; [|discriminate].
    destruct (sb_sectionId r2) as [sec2|]; [|discriminate].
    rewrite Hc2. unfold bindM at 1. unfold write at 1.
    set (i2 := mkInsertStudent sid name2 c2 sec2 _ _ _ _).
    assert (Htaken : exists holder,
               getStudentByStudentId db1 (ist_studentId i2) = Some holder).
    { destruct (getStudentByStudentId db1 (ist_studentId i2)) as [holder|] eqn:Hl;
        [eauto|].
      exfalso.
      apply (proj1 (getStudentByStudentId_none db1 (ist_studentId i2)) Hl
               (student_row (uuid env 0) (now env) i1)).
      - unfold db1. cbn [students set_students]. apply in_or_app. right. now left.
      - rewrite <- Hi1. reflexivity. }
    destruct Htaken as [holder Htaken].
    destruct (createStudent_taken (uuid env 1) (now env) db1 i2 holder Htaken)
      as [msg ->].
    eauto. }
  destruct Hrun as [msg Hrun].
  unfold post_students_import, authenticated. rewrite Hauth, Hrole. cbn [Role_eqb negb].
  unfold handle, bindM. rewrite Hrun. split; reflexivity.
Qed.

End Roll.

(** ** Further properties: what a check-in may write *)

Section LedgerWrites.

Context {services : Services}.

Lemma checkin_writes (env : Env) (user : User) (b : CheckinBody) (db : DB) :
  let db' := snd (handle (checkin env user b) db) in
  db' = db
  \/ (exists e s, db' = set_attendance db (attendance db ++ [time_in_row env e s]))
  \/ (exists found,
        In found (attendance db) /\ a_timeOut found = None
        /\ db' = set_attendance db
                   (update_where (fun a => a_id a =? a_id found) (time_out_row env)
                                 (attendance db))).
Proof.
  cbv zeta.
  destruct (checkin_target_reads user b db) as [[[refused|[e s]] Ht]|[msg Ht]].
  - left. unfold handle, checkin, checkin_lookup, bindM. now rewrite Ht.
  - rewrite (checkin_resolved env user b db e s Ht).
    destruct (getAttendance db e s) as [found|] eqn:Hget.
    + destruct (a_timeOut found) as [t|] eqn:Hout.
      * left. now rewrite (commit_complete env db e s found t Hout).
      * right. right. exists found.
        destruct (getAttendance_found db e s found Hget) as (Hin & _).
        rewrite (commit_timed_in env db e s found Hout). auto.
    + unfold handle, checkin_commit, bindM, write, createAttendance.
      cbn [l_attendance l_eventId l_studentId].
      destruct (existsb (fun a => a_id a =? uuid env 0) (attendance db)).
      * left. reflexivity.
      * right. left. exists e, s. reflexivity.
  - left. unfold handle, checkin, checkin_lookup, bindM. now rewrite Ht.
Qed.

(** Whatever the request, a check-in writes to the attendance table alone,
    and there it either changes nothing, or appends one record with a
    time-in and no time-out, or sets the time-out of records that had none:
    no record is removed, and none loses or changes its time-in. *)
Theorem checkin_only_adds_or_times_out (env : Env) (authorization : option string)
  (b : CheckinBody) (db : DB) :
  let db' := snd (post_attendance_checkin env authorization b db) in
  db' = set_attendance db (attendance db')
  /\ (attendance db' = attendance db
      \/ (exists row, attendance db' = attendance db ++ [row]
                      /\ a_timeIn row = Some (now env) /\ a_timeOut row = None)
      \/ (List.length (attendance db') = List.length (attendance db)
          /\ map a_id (attendance db') = map a_id (attendance db)
          /\ map a_eventId (attendance db') = map a_eventId (attendance db)
          /\ map a_studentId (attendance db') = map a_studentId (attendance db)
          /\ map a_timeIn (attendance db') = map a_timeIn (attendance db))).
Proof.
  cbv zeta. unfold post_attendance_checkin, authenticated.
  destruct (authMiddleware env db authorization) as [refused|user].
  - cbn [snd]. split; [now destruct db|now left].
  - destruct (checkin_writes env user b db) as [->|[(e & s & ->)|(found & _ & _ & ->)]].
    + split; [now destruct db|now left].
    + split; [reflexivity|]. right. left. exists (time_in_row env e s). auto.
    + split; [reflexivity|]. right. right. cbn [attendance set_attendance].
      split; [apply update_where_length|].
      repeat split; now apply update_where_map.
Qed.

(** With the primary key in force, a record whose time-out is set is final:
    no check-in, by anyone, for any event, changes or removes it. *)
Theorem completed_attendance_is_final (env : Env) (authorization : option string)
  (b : CheckinBody) (db : DB) (row : Attendance) (t : Z) :
  NoDup (map a_id (attendance db)) ->
  In row (attendance db) ->
  a_timeOut row = Some t ->
  In row (attendance (snd (post_attendance_checkin env authorization b db))).
Proof.
  intros Hnd Hin Hout. unfold post_attendance_checkin, authenticated.
  destruct (authMiddleware env db authorization) as [refused|user]; [exact Hin|].
  destruct (checkin_writes env user b db)
    as [->|[(e & s & ->)|(found & Hfound & Hnone & ->)]].
  - exact Hin.
  - cbn [attendance set_attendance]. apply in_or_app. now left.
  - cbn [attendance set_attendance]. unfold update_where. apply in_map_iff.
    exists row. split; [|exact Hin].
    destruct (String.eqb_spec (a_id row) (a_id found)) as [Heq|]; [|reflexivity].
    assert (row = found) by (apply (unique_key a_id (attendance db)); assumption).
    subst row. congruence.
Qed.


End LedgerWrites.

(** ** Further properties: events and their QR payloads *)

Section EventsLife.

Context {services : Services}.

Lemma set_eventCourseSections_same (db : DB) :
  set_eventCourseSections db (eventCourseSections db) = db.
Proof. now destruct db. Qed.

(** The loop over [courseSections] writes association rows and nothing
    else, whether it ends or throws. *)
Lemma create_associations_frame (env : Env) (eventId : string)
  (css : list CourseSectionRef) (n : nat) (db : DB) :
  exists t,
    create_associations env n eventId css db = Returned tt (set_eventCourseSections db t)
    \/ exists msg,
         create_associations env n eventId css db
         = Raised msg (set_eventCourseSections db t).
Proof.
  revert n db. induction css as [|cs css IH]; intros n db.
  - exists (eventCourseSections db). left. cbn. now rewrite set_eventCourseSections_same.
  - cbn [create_associations].
    destruct (createEventCourseSection (uuid env n) db
                (mkInsertEcs eventId (cs_courseId cs) (cs_sectionId cs)))
      as [[row db1]|msg] eqn:Hc.
    + assert (Hdb1 : db1 = set_eventCourseSections db (eventCourseSections db ++ [row])).
      { unfold createEventCourseSection in Hc. cbn in Hc.
        destruct (cs_courseId cs); [|discriminate].
        destruct (cs_sectionId cs); [|discriminate].
        destruct (existsb _ (eventCourseSections db)); [discriminate|].
        now injection Hc as <- <-. }
      subst db1.
      destruct (IH (S n) (set_eventCourseSections db (eventCourseSections db ++ [row])))
        as [t [Ht|[msg Ht]]];
        exists t; [left|right; exists msg]; unfold bindM, write; rewrite Hc; exact Ht.
    + exists (eventCourseSections db). right. exists msg.
      unfold bindM, write. rewrite Hc. now rewrite set_eventCourseSections_same.
Qed.

Lemma insertEventSchema_parse_payload (b : EventBody) (q c : string) (i : InsertEvent) :
  insertEventSchema_parse b q c = inr i ->
  ie_qrCodeData i = q /\ ie_qrCode i = Some c.
Proof.
  unfold insertEventSchema_parse.
  destruct (eb_name b), (eb_eventDate b), (eb_eventTime b); try discriminate.
  intros [= <-]. auto.
Qed.

Lemma post_events_run (env : Env) (authorization : option string) (db : DB)
  (caller : User) (b : EventBody) (i : InsertEvent) :
  authMiddleware env db authorization = inr caller ->
  u_role caller = role_admin ->
  insertEventSchema_parse b (JSON_stringify (uuid env 0) (now env))
    (QRCode_toDataURL (JSON_stringify (uuid env 0) (now env))) = inr i ->
  existsb (fun e => e_id e =? uuid env 1) (events db) = false ->
  let created := created_event (uuid env 1) (now env) i in
  let db1 := set_events db (events db ++ [created]) in
  post_events env authorization b db
  = handle
      (_ <~ match eb_courseSections b with
            | Some courseSections => create_associations env 2 (uuid env 1) courseSections
            | None => ret tt
            end ;;
       ret (json (JsonEvent (Some created)))) db1.
Proof.
  intros Hauth Hrole Hparse Hfresh created db1.
  unfold post_events, authenticated. rewrite Hauth, Hrole. cbn [Role_eqb negb].
  rewrite Hparse. unfold handle. unfold bindM at 1. unfold write at 1.
  unfold createEvent. rewrite Hfresh. reflexivity.
Qed.

(** The payload stored with a new event does not name the event.  Its
    event id is the identifier the handler draws for the payload, while the
    row gets another from the database; a student who scans the stored
    payload is checked in under the former, which is the id of no new row. *)
Theorem creation_payload_names_another_id (env : Env) (authorization : option string)
  (db : DB) (caller : User) (b : EventBody) (i : InsertEvent) :
  authMiddleware env db authorization = inr caller ->
  u_role caller = role_admin ->
  insertEventSchema_parse b (JSON_stringify (uuid env 0) (now env))
    (QRCode_toDataURL (JSON_stringify (uuid env 0) (now env))) = inr i ->
  existsb (fun e => e_id e =? uuid env 1) (events db) = false ->
  JSON_parse (JSON_stringify (uuid env 0) (now env)) = Ok (uuid env 0) ->
  JSON_stringify (uuid env 0) (now env) <> "" ->
  uuid env 0 <> uuid env 1 ->
  let created := created_event (uuid env 1) (now env) i in
  let db' := snd (post_events env authorization b db) in
  events db' = events db ++ [created]
  /\ e_id created = uuid env 1
  /\ JSON_parse (e_qrCodeData created) = Ok (uuid env 0)
  /\ forall (env2 : Env) (account : User) (sid : string) (st : StudentJoined),
       u_studentId account = Some sid -> sid <> "" ->
       getStudentByStudentId db sid = Some st ->
       handle (checkin env2 account (scan (e_qrCodeData created))) db'
       = handle (checkin_commit env2
                   (mkLookup (uuid env 0) (s_id (sj_row st))
                      (getAttendance db' (uuid env 0) (s_id (sj_row st))))) db'.
Proof.
  intros Hauth Hrole Hparse Hfresh Hlaw Hnonempty Hne. cbv zeta.
  destruct (insertEventSchema_parse_payload _ _ _ _ Hparse) as [Hq _].
  assert (Hdb' : exists t,
             snd (post_events env authorization b db)
             = set_eventCourseSections
                 (set_events db (events db ++ [created_event (uuid env 1) (now env) i]))
                 t).
  { pose proof (post_events_run env authorization db caller b i
                  Hauth Hrole Hparse Hfresh) as Hrun.
    cbv zeta in Hrun. rewrite Hrun. unfold handle, bindM.
    destruct (eb_courseSections b) as [css|].
    - destruct (create_associations_frame env (uuid env 1) css 2
                  (set_events db (events db ++ [created_event (uuid env 1) (now env) i])))
        as [t [Hf|[msg Hf]]]; rewrite Hf; exists t; reflexivity.
    - exists (eventCourseSections db). cbn. now destruct db. }
  destruct Hdb' as [t Hdb'].
  split; [now rewrite Hdb'|]. split; [reflexivity|].
  split; [cbn [created_event e_qrCodeData]; now rewrite Hq|].
  intros env2 account sid st Hacc Hsid Hst.
  apply checkin_resolved.
  unfold checkin_target, scan. cbn [ck_qrCodeData truthy or_keep created_event
    e_qrCodeData]. rewrite Hq.
  apply String.eqb_neq in Hnonempty, Hsid. rewrite Hnonempty. cbn [negb].
  unfold bindM. rewrite Hlaw. cbn [attempt ret]. rewrite Hacc. cbn [truthy].
  rewrite Hsid. cbn [negb or_keep]. unfold read.
  replace (getStudentByStudentId (snd (post_events env authorization b db)) sid)
    with (getStudentByStudentId db sid) by (rewrite Hdb'; reflexivity).
  now rewrite Hst.
Qed.

(** Creating an event is not atomic.  When the first element of
    [courseSections] lacks its course id, the answer is 500, yet the event
    row is in the table, with no association, so that no student sees it. *)
Theorem event_without_associations_stays (env : Env) (authorization : option string)
  (db : DB) (caller : User) (b : EventBody) (i : InsertEvent)
  (cs : CourseSectionRef) (rest : list CourseSectionRef) :
  authMiddleware env db authorization = inr caller ->
  u_role caller = role_admin ->
  insertEventSchema_parse b (JSON_stringify (uuid env 0) (now env))
    (QRCode_toDataURL (JSON_stringify (uuid env 0) (now env))) = inr i ->
  existsb (fun e => e_id e =? uuid env 1) (events db) = false ->
  eb_courseSections b = Some (cs :: rest) ->
  cs_courseId cs = None ->
  status (fst (post_events env authorization b db)) = 500%Z
  /\ snd (post_events env authorization b db)
     = set_events db (events db ++ [created_event (uuid env 1) (now env) i]).
Proof.
  intros Hauth Hrole Hparse Hfresh Hcss Hbad.
  pose proof (post_events_run env authorization db caller b i
                Hauth Hrole Hparse Hfresh) as Hrun.
  cbv zeta in Hrun. rewrite Hrun, Hcss. unfold handle, bindM. cbn [create_associations].
  unfold bindM, write, createEventCourseSection. cbn [iecs_courseId iecs_sectionId].
  rewrite Hbad. split; reflexivity.
Qed.

Lemma set_events_same (db : DB) : set_events db (events db) = db.
Proof. now destruct db. Qed.

(** Regenerating the QR code of an event that does not exist is answered
    200 with an empty body, and writes nothing. *)
Theorem regenerate_qr_of_missing_event (env : Env) (authorization : option string)
  (db : DB) (caller : User) (id : string) :
  authMiddleware env db authorization = inr caller ->
  u_role caller = role_admin ->
  existsb (fun e => e_id e =? id) (events db) = false ->
  post_events_regenerate_qr env authorization id db = (json (JsonEvent None), db).
Proof.
  intros Hauth Hrole Hmissing.
  unfold post_events_regenerate_qr, authenticated. rewrite Hauth, Hrole.
  cbn [Role_eqb negb]. unfold handle, regenerate_qr, bindM, write, updateEvent.
  cbn [event_patch_empty ep_name ep_description ep_eventDate ep_eventTime ep_qrCode
    ep_qrCodeData ep_isActive is_some orb negb].
  unfold updated_rows.
  rewrite (existsb_false_filter _ _ Hmissing), (existsb_false_update _ _ _ Hmissing).
  cbn. now rewrite set_events_same.
Qed.

(** After a regeneration the stored payload does name the event: where
    JSON reads back what it wrote, a student's scan of the new payload is a
    check-in to the event that was regenerated. *)
Theorem regenerated_payload_names_the_event (env env2 : Env)
  (authorization : option string) (db : DB) (caller account : User)
  (id sid : string) (st : StudentJoined) :
  authMiddleware env db authorization = inr caller ->
  u_role caller = role_admin ->
  JSON_parse (JSON_stringify id (now env)) = Ok id ->
  JSON_stringify id (now env) <> "" ->
  u_studentId account = Some sid -> sid <> "" ->
  getStudentByStudentId db sid = Some st ->
  let db' := snd (post_events_regenerate_qr env authorization id db) in
  (forall e, In e (events db') -> e_id e = id ->
             e_qrCodeData e = JSON_stringify id (now env))
  /\ handle (checkin env2 account (scan (JSON_stringify id (now env)))) db'
     = handle (checkin_commit env2
                 (mkLookup id (s_id (sj_row st))
                    (getAttendance db id (s_id (sj_row st))))) db'.
Proof.
  intros Hauth Hrole Hlaw Hnonempty Hacc Hsid Hst db'.
  assert (Hdb' : db' = set_events db
            (update_where (fun e => e_id e =? id)
               (apply_event_patch (regenerate_patch env id)) (events db))).
  { unfold db', post_events_regenerate_qr, authenticated.
    rewrite Hauth, Hrole. reflexivity. }
  split.
  - rewrite Hdb'. cbn [events set_events]. intros e Hin Hid. unfold update_where in Hin.
    apply in_map_iff in Hin. destruct Hin as (e0 & <- & _).
    destruct (e_id e0 =? id) eqn:Hhit; [reflexivity|].
    apply String.eqb_neq in Hhit. contradiction.
  - replace (getAttendance db id (s_id (sj_row st)))
      with (getAttendance db' id (s_id (sj_row st))) by (rewrite Hdb'; reflexivity).
    apply checkin_resolved.
    unfold checkin_target, scan. cbn [ck_qrCodeData truthy or_keep].
    apply String.eqb_neq in Hnonempty, Hsid. rewrite Hnonempty. cbn [negb].
    unfold bindM. rewrite Hlaw. cbn [attempt ret]. rewrite Hacc. cbn [truthy].
    rewrite Hsid. cbn [negb or_keep]. unfold read.
    replace (getStudentByStudentId db' sid) with (getStudentByStudentId db sid)
      by (rewrite Hdb'; reflexivity).
    now rewrite Hst.
Qed.

Lemma create_associations_ok (env : Env) (eventId : string)
  (css : list CourseSectionRef) (n : nat) (db : DB) :
  forallb names_course_and_section css = true ->
  NoDup (map ecs_id (eventCourseSections db) ++ map (uuid env) (seq n (List.length css))) ->
  create_associations env n eventId css db
  = Returned tt
      (set_eventCourseSections db
         (eventCourseSections db ++ association_rows (uuid env) n eventId css)).
Proof.
  revert n db. induction css as [|cs css IH]; intros n db Hvalid Hnd.
  - cbn. now rewrite app_nil_r, set_eventCourseSections_same.
  - cbn [forallb] in Hvalid. apply andb_true_iff in Hvalid. destruct Hvalid as [Hcs Hvalid].
    unfold names_course_and_section in Hcs. apply andb_true_iff in Hcs.
    destruct Hcs as [Hc Hs].
    destruct (cs_courseId cs) as [c|] eqn:Ec; [|discriminate].
    destruct (cs_sectionId cs) as [sec|] eqn:Es; [|discriminate].
    cbn [List.length seq map] in Hnd.
    assert (Hfresh : existsb (fun r => ecs_id r =? uuid env n) (eventCourseSections db)
                     = false).
    { destruct (existsb _ (eventCourseSections db)) eqn:He; [|reflexivity].
      exfalso. apply existsb_exists in He. destruct He as (r & Hr & Hid).
      apply String.eqb_eq in Hid.
      apply (NoDup_remove_2 _ _ _ Hnd). apply in_or_app. left.
      rewrite <- Hid. now apply in_map. }
    cbn [create_associations association_rows]. rewrite Ec, Es.
    unfold bindM at 1. unfold write at 1. unfold createEventCourseSection.
    cbn [iecs_courseId iecs_sectionId iecs_eventId]. rewrite Hfresh.
    rewrite IH; [|exact Hvalid|].
    + cbn [eventCourseSections set_eventCourseSections]. now rewrite <- app_assoc.
    + cbn [eventCourseSections set_eventCourseSections].
      rewrite map_app, <- app_assoc. exact Hnd.
Qed.

Lemma association_rows_In (gen : nat -> string) (eventId : string)
  (css : list CourseSectionRef) (n : nat) (c s : string) :
  forallb names_course_and_section css = true ->
  ((exists r, In r (association_rows gen n eventId css)
              /\ ecs_eventId r = eventId /\ ecs_courseId r = c /\ ecs_sectionId r = s)
   <-> exists cs, In cs css /\ cs_courseId cs = Some c /\ cs_sectionId cs = Some s).
Proof.
  revert n. induction css as [|cs css IH]; intros n Hvalid.
  - cbn. split; intros (x & [] & _).
  - cbn [forallb] in Hvalid. apply andb_true_iff in Hvalid. destruct Hvalid as [Hcs Hvalid].
    unfold names_course_and_section in Hcs. apply andb_true_iff in Hcs.
    destruct Hcs as [Hc Hs].
    destruct (cs_courseId cs) as [c0|] eqn:Ec; [|discriminate].
    destruct (cs_sectionId cs) as [s0|] eqn:Es; [|discriminate].
    cbn [association_rows]. rewrite Ec, Es. split.
    + intros (r & [<-|Hin] & He & Hcr & Hsr).
      * cbn in Hcr, Hsr. subst. exists cs. split; [now left|auto].
      * destruct (proj1 (IH (S n) Hvalid)) as (cs' & Hin' & H1 & H2); [eauto|].
        exists cs'. split; [now right|auto].
    + intros (cs' & [<-|Hin] & H1 & H2).
      * rewrite Ec in H1. rewrite Es in H2. injection H1 as <-. injection H2 as <-.
        eexists. split; [now left|]. cbn. auto.
      * destruct (proj2 (IH (S n) Hvalid)) as (r & Hr & H); [eauto|].
        exists r. split; [now right|exact H].
Qed.

(** An event created with a list of course-section pairs, each naming both,
    gets one association row per pair, in order, and is then shown to a
    student exactly when the student's own pair is in the list (no older
    row carrying the id the new event gets). *)
Theorem created_event_is_visible_to_its_pairs (env : Env)
  (authorization : option string) (db : DB) (caller : User) (b : EventBody)
  (i : InsertEvent) (css : list CourseSectionRef) :
  authMiddleware env db authorization = inr caller ->
  u_role caller = role_admin ->
  insertEventSchema_parse b (JSON_stringify (uuid env 0) (now env))
    (QRCode_toDataURL (JSON_stringify (uuid env 0) (now env))) = inr i ->
  existsb (fun e => e_id e =? uuid env 1) (events db) = false ->
  eb_courseSections b = Some css ->
  forallb names_course_and_section css = true ->
  NoDup (map ecs_id (eventCourseSections db)
         ++ map (uuid env) (seq 2 (List.length css))) ->
  (forall r, In r (eventCourseSections db) -> ecs_eventId r <> uuid env 1) ->
  let created := created_event (uuid env 1) (now env) i in
  let db' := snd (post_events env authorization b db) in
  fst (post_events env authorization b db) = json (JsonEvent (Some created))
  /\ eventCourseSections db'
     = eventCourseSections db ++ association_rows (uuid env) 2 (uuid env 1) css
  /\ forall st : Student,
       listed created (events_with_attendance db' st)
       <-> exists cs, In cs css
                      /\ cs_courseId cs = Some (s_courseId st)
                      /\ cs_sectionId cs = Some (s_sectionId st).
Proof.
  intros Hauth Hrole Hparse Hfresh Hcss Hvalid Hnd Hold. cbv zeta.
  pose proof (post_events_run env authorization db caller b i
                Hauth Hrole Hparse Hfresh) as Hrun.
  cbv zeta in Hrun. rewrite Hrun, Hcss. unfold handle, bindM.
  rewrite (create_associations_ok env (uuid env 1) css 2
             (set_events db (events db ++ [created_event (uuid env 1) (now env) i]))
             Hvalid Hnd).
  cbn [fst snd ret eventCourseSections set_eventCourseSections set_events].
  split; [reflexivity|]. split; [reflexivity|].
  intros st. rewrite listed_iff_visible, visible_iff_associated.
  rewrite <- (association_rows_In (uuid env) (uuid env 1) css 2
                (s_courseId st) (s_sectionId st) Hvalid).
  unfold associated. cbn [e_id created_event eventCourseSections events].
  split.
  - intros (_ & r & Hin & He & Hc & Hs). apply in_app_or in Hin.
    destruct Hin as [Hin|Hin]; [now destruct (Hold r Hin)|]. exists r. auto.
  - intros (r & Hin & He & Hc & Hs). split.
    + apply in_or_app. right. now left.
    + exists r. split; [apply in_or_app; now right|auto].
Qed.

(** An update of an event writes the event's columns first.  Where the body
    sets at least one of them, an empty list of course-section pairs
    removes every association of the event, which then no student is shown,
    and with no list in the body the associations stay as they are.  Where
    the body sets none of them, whatever list it carries, the update of the
    event throws: the answer is 500 "No values to set" and the database,
    the associations with it, is as it was. *)
Theorem put_events_associations (env : Env) (authorization : option string)
  (db : DB) (caller : User) (id : string) (patch : EventPatch) :
  authMiddleware env db authorization = inr caller ->
  u_role caller = role_admin ->
  let cleared := snd (put_events env authorization id
                        (mkEventUpdateBody (Some []) patch) db) in
  let kept := snd (put_events env authorization id
                     (mkEventUpdateBody None patch) db) in
  (event_patch_empty patch = false ->
   eventCourseSections cleared
   = filter (fun r => negb (ecs_eventId r =? id)) (eventCourseSections db)
   /\ (forall (st : Student) (ev : Event),
         e_id ev = id -> ~ listed ev (events_with_attendance cleared st))
   /\ eventCourseSections kept = eventCourseSections db)
  /\ (event_patch_empty patch = true ->
      forall courseSections : option (list CourseSectionRef),
        put_events env authorization id (mkEventUpdateBody courseSections patch) db
        = (mkResponse 500 (Message "No values to set"), db)).
Proof.
  intros Hauth Hrole. cbv zeta.
  unfold put_events, authenticated. rewrite Hauth, Hrole. cbn [Role_eqb negb].
  unfold handle, bindM, write, updateEvent. cbn [eub_eventData eub_courseSections].
  split; intros Hpatch; rewrite Hpatch; [|reflexivity].
  cbn [snd create_associations ret exec].
  unfold deleteEventCourseSections, delete_where.
  cbn [eventCourseSections set_eventCourseSections set_events].
  split; [reflexivity|]. split; [|reflexivity].
  intros st ev Hid Hl. apply listed_iff_visible in Hl. destruct Hl as [_ Hvis].
  apply visible_iff_associated in Hvis. destruct Hvis as (r & Hin & He & _).
  cbn [eventCourseSections set_eventCourseSections] in Hin.
  apply filter_In in Hin. destruct Hin as [_ Hkeep].
  rewrite He, Hid, String.eqb_refl in Hkeep. discriminate.
Qed.

Lemma filter_none {R : Type} (p : R -> bool) (t : list R) :
  (forall r, In r t -> p r = false) -> filter p t = [].
Proof.
  induction t as [|r t IH]; cbn; [reflexivity|]. intros H.
  rewrite (H r (or_introl eq_refl)). apply IH. intros x Hx. apply H. now right.
Qed.

Lemma left_join_unmatched {A B : Type} (on : A -> B -> bool) (l : list A) (r : list B)
  (a : A) :
  In a l -> filter (on a) r = [] -> In (a, None) (left_join on l r).
Proof.
  intros Hin Hf. unfold left_join. apply in_flat_map. exists a.
  rewrite Hf. split; [exact Hin|now left].
Qed.

(** Deleting an event removes its row and its associations and leaves the
    attendance table as it was: the records of the event stay, and each
    student's attendance history still lists them, with no event attached.
    The answer is the same whether or not the event existed. *)
Theorem delete_event_keeps_attendance (env : Env) (authorization : option string)
  (db : DB) (caller : User) (id : string) :
  authMiddleware env db authorization = inr caller ->
  u_role caller = role_admin ->
  let db' := snd (delete_events env authorization id db) in
  fst (delete_events env authorization id db) = json (Message "Event deleted")
  /\ getEvent db' id = None
  /\ getEventCourseSections db' id = []
  /\ attendance db' = attendance db
  /\ forall a, In a (attendance db) -> a_eventId a = id ->
       In (mkAttendanceJoined a None) (getAllAttendanceForStudent db' (a_studentId a)).
Proof.
  intros Hauth Hrole. cbv zeta.
  unfold delete_events, authenticated. rewrite Hauth, Hrole. cbn [Role_eqb negb].
  unfold handle, bindM, exec, ret. cbn [fst snd].
  unfold deleteEvent, deleteEventCourseSections, delete_where.
  cbn [events eventCourseSections set_events set_eventCourseSections].
  split; [reflexivity|]. split; [|split; [|split; [reflexivity|]]].
  - unfold getEvent. cbn [events set_events].
    rewrite filter_none; [reflexivity|].
    intros e He. apply filter_In in He. destruct He as [_ He].
    now apply negb_true_iff in He.
  - unfold getEventCourseSections. rewrite filter_none; [reflexivity|].
    intros x Hx. apply left_join_left, left_join_left in Hx.
    cbn [eventCourseSections set_eventCourseSections] in Hx.
    apply filter_In in Hx. destruct Hx as [_ Hx]. now apply negb_true_iff in Hx.
  - intros a Hin Hid. unfold getAllAttendanceForStudent.
    apply in_map_iff. exists (a, None). split; [reflexivity|].
    apply filter_In. split; [|cbn; apply String.eqb_refl].
    apply left_join_unmatched; [exact Hin|].
    apply filter_none. intros e He. cbn [events set_events] in He.
    apply filter_In in He. destruct He as [_ He]. apply negb_true_iff in He.
    now rewrite Hid, String.eqb_sym.
Qed.

(** After a first check-in to an event the student is shown, the student's
    listing carries the new record on that event. *)
Theorem checked_in_student_sees_record (env : Env) (user : User) (b : CheckinBody)
  (db : DB) (st : Student) (ev : Event) :
  checkin_target user b db = Returned (inr (e_id ev, s_id st)) db ->
  getAttendance db (e_id ev) (s_id st) = None ->
  existsb (fun a => a_id a =? uuid env 0) (attendance db) = false ->
  In ev (events db) ->
  associated db st ev ->
  In (mkEventJoined ev (getEventCourseSections db (e_id ev)),
      Some (time_in_row env (e_id ev) (s_id st)))
     (events_with_attendance (snd (handle (checkin env user b) db)) st).
Proof.
  intros Ht Hget Hfresh Hin Hassoc.
  rewrite (checkin_resolved env user b db _ _ Ht), Hget.
  rewrite (commit_absent env db _ _ Hfresh). cbn [snd].
  unfold events_with_attendance. apply in_map_iff.
  exists (mkEventJoined ev (getEventCourseSections db (e_id ev))). split.
  - f_equal. unfold getAttendance. cbn [attendance set_attendance ej_row].
    rewrite filter_app.
    rewrite (existsb_false_filter _ _ (first_filter_none_existsb _ _ Hget)).
    cbn. now rewrite !String.eqb_refl.
  - apply filter_In. split.
    + unfold getAllEvents. cbn [events set_attendance].
      apply in_map_iff. exists ev. split; [reflexivity|exact Hin].
    + cbn [ej_eventCourseSections]. now apply visible_iff_associated.
Qed.

(** A student account whose student id finds no student row (the row was
    deleted, say) cannot be served its listing: as soon as some event has an
    association the answer is 500; with no association at all it is an
    empty list. *)
Theorem listing_without_student_row (env : Env) (authorization : option string)
  (db : DB) (user : User) (sid : string) :
  authMiddleware env db authorization = inr user ->
  u_role user = role_student ->
  u_studentId user = Some sid ->
  getStudentByStudentId db sid = None ->
  snd (get_student_events env authorization db) = db
  /\ ((exists ev r, In ev (events db) /\ In r (eventCourseSections db)
                    /\ ecs_eventId r = e_id ev) ->
      status (fst (get_student_events env authorization db)) = 500%Z)
  /\ ((forall ev r, In ev (events db) -> In r (eventCourseSections db) ->
                    ecs_eventId r <> e_id ev) ->
      fst (get_student_events env authorization db) = json (StudentEvents [])).
Proof.
  intros Hauth Hrole Hsid Hnone.
  unfold get_student_events, authenticated. rewrite Hauth.
  unfold handle, student_events. rewrite Hrole. cbn [Role_eqb negb].
  unfold bindM, read. rewrite Hsid, Hnone.
  destruct (existsb _ (getAllEvents db)) eqn:Hex.
  - split; [reflexivity|]. split; [reflexivity|].
    intros Hall. exfalso. apply existsb_exists in Hex.
    destruct Hex as (event & Hevent & Hsome).
    unfold getAllEvents in Hevent. apply in_map_iff in Hevent.
    destruct Hevent as (ev & <- & Hev). cbn [ej_eventCourseSections] in Hsome.
    destruct (getEventCourseSections db (e_id ev)) as [|j js] eqn:Hj; [discriminate|].
    destruct (proj1 (getEventCourseSections_rows db (e_id ev) (ecsj_row j)))
      as [Hin Hid]; [exists j; rewrite Hj; split; [now left|reflexivity]|].
    exact (Hall ev (ecsj_row j) Hev Hin Hid).
  - split; [reflexivity|]. split; [|reflexivity].
    intros (ev & r & Hev & Hr & Hid). exfalso.
    destruct (proj2 (getEventCourseSections_rows db (e_id ev) r)) as (j & Hj & _);
      [auto|].
    assert (Htrue : existsb
              (fun event => match ej_eventCourseSections event with
                            | [] => false | _ :: _ => true end)
              (getAllEvents db) = true).
    { apply existsb_exists.
      exists (mkEventJoined ev (getEventCourseSections db (e_id ev))). split.
      - unfold getAllEvents. apply in_map_iff. exists ev. auto.
      - cbn. destruct (getEventCourseSections db (e_id ev)); [contradiction|reflexivity]. }
    congruence.
Qed.

End EventsLife.

(** ** Further properties: settings, statistics, seeding *)

Section Housekeeping.

Context {services : Services}.

(** What is written to the settings is what is read back.  With at most
    one settings row, an admin's update answers with a row, a later read by
    any authenticated caller answers with that same row, and each value in
    it is the one sent, or else the one a read showed before: the stored
    one, or the default where the table was empty. *)
Theorem settings_written_are_read (env env2 : Env) (authorization authorization2 : option string)
  (db : DB) (caller reader : User) (p : SettingsPatch) :
  authMiddleware env db authorization = inr caller ->
  u_role caller = role_admin ->
  authMiddleware env2 db authorization2 = inr reader ->
  (List.length (systemSettings db) <= 1)%nat ->
  let db' := snd (put_settings env authorization p db) in
  exists row,
    fst (put_settings env authorization p db) = json (JsonSettings (Some row))
    /\ get_settings env2 authorization2 db' = (json (JsonSettings (Some row)), db')
    /\ systemSettings db' = [row]
    /\ ss_systemName row
       = or_keep (stp_systemName p) (fst (settings_shown (getSystemSettings db)))
    /\ ss_qrCodeEnabled row
       = or_keep (stp_qrCodeEnabled p) (snd (settings_shown (getSystemSettings db))).
Proof.
  intros Hauth Hrole Hauth2 Hlen. cbv zeta.
  unfold put_settings, get_settings, authenticated. rewrite Hauth, Hrole.
  cbn [Role_eqb negb]. unfold handle, bindM, write.
  destruct (systemSettings db) as [|old [|x xs]] eqn:Hs; [| |cbn in Hlen; lia].
  - rewrite (updateSystemSettings_first (uuid env 0) (now env) db p Hs). cbn [fst snd ret].
    change (authMiddleware env2 (set_systemSettings db _) authorization2)
      with (authMiddleware env2 db authorization2).
    rewrite Hauth2. eexists. split; [reflexivity|]. split; [reflexivity|].
    unfold getSystemSettings. rewrite Hs. cbn. auto.
  - rewrite (updateSystemSettings_again (uuid env 0) (now env) db p old Hs).
    cbn [fst snd ret].
    change (authMiddleware env2 (set_systemSettings db _) authorization2)
      with (authMiddleware env2 db authorization2).
    rewrite Hauth2. eexists. split; [reflexivity|]. split; [reflexivity|].
    unfold getSystemSettings. rewrite Hs. cbn. auto.
Qed.

Lemma left_join_length {A B : Type} (on : A -> B -> bool) (l : list A) (r : list B) :
  (forall a, In a l -> (List.length (filter (on a) r) <= 1)%nat) ->
  List.length (left_join on l r) = List.length l.
Proof.
  unfold left_join. induction l as [|a l IH]; intros H; [reflexivity|].
  cbn [flat_map]. rewrite List.length_app, IH by (intros x Hx; apply H; now right).
  cbn [List.length]. f_equal.
  pose proof (H a (or_introl eq_refl)) as Ha.
  destruct (filter (on a) r) as [|m [|m' ms]]; cbn in *; [reflexivity|reflexivity|lia].
Qed.

Lemma filter_unique_key {R : Type} (key : R -> string) (t : list R) (k : string) :
  NoDup (map key t) ->
  (List.length (filter (fun r => String.eqb k (key r)) t) <= 1)%nat.
Proof.
  induction t as [|r t IH]; cbn; intros Hnd; [lia|].
  inversion Hnd as [|x xs Hnotin Hnd']; subst.
  destruct (String.eqb_spec k (key r)) as [->|Hne]; [|now apply IH].
  cbn. rewrite filter_none; [cbn; lia|].
  intros x Hx. apply String.eqb_neq. intros Heq. apply Hnotin.
  rewrite Heq. now apply in_map.
Qed.

(** The admin statistics report zero attendance whatever the attendance
    table holds; the other figures count rows: courses, events flagged
    active, and, where course ids and section ids are unique, students. *)
Theorem admin_stats_figures (env : Env) (authorization : option string) (db : DB)
  (caller : User) :
  authMiddleware env db authorization = inr caller ->
  u_role caller = role_admin ->
  NoDup (map c_id (courses db)) ->
  NoDup (map sec_id (sections db)) ->
  get_admin_stats env authorization db
  = (inr (mkAdminStats (List.length (students db))
                       (List.length (filter e_isActive (events db)))
                       0
                       (List.length (courses db))), db).
Proof.
  intros Hauth Hrole Hc Hs. unfold get_admin_stats. rewrite Hauth, Hrole.
  cbn [Role_eqb negb]. f_equal. f_equal. f_equal.
  - unfold getAllStudents, students_joined. rewrite List.length_map.
    rewrite left_join_length.
    + apply left_join_length. intros a _. now apply filter_unique_key.
    + intros a _. now apply filter_unique_key.
  - unfold getAllEvents. induction (events db) as [|e es IH]; [reflexivity|].
    cbn [map filter ej_row]. destruct (e_isActive e); cbn [List.length]; now rewrite IH.
Qed.

(** Seeding is idempotent: once a run has gone through, a further run, with
    whatever clock and identifiers, finds the admin account and some course
    and writes nothing. *)
Theorem seed_twice_is_seed_once (env env' : Env) (db db1 : DB) :
  seed env db = Returned tt db1 ->
  seed env' db1 = Returned tt db1.
Proof.
  intros Hrun.
  assert (Hadmin : exists u, getUserByEmail db1 adminEmail = Some u).
  { revert Hrun. unfold seed, bindM, read, write, ret.
    destruct (getUserByEmail db adminEmail) as [u|] eqn:Hu.
    - destruct (getAllCourses db) as [|c0 cs0] eqn:Hc.
      + unfold createCourse, createSection.
        repeat match goal with
               | |- context [if ?c then _ else _] => destruct c
               end; try discriminate.
        intros [= <-]. exists u. exact Hu.
      + intros [= <-]. eauto.
    - unfold createUser. destruct (existsb _ (users db)); [discriminate|].
      destruct (existsb _ (users db)) eqn:He; [discriminate|].
      set (dbu := set_users db _).
      assert (Hfound : exists u, getUserByEmail dbu adminEmail = Some u).
      { unfold getUserByEmail, dbu. cbn [users set_users iu_email] in *.
        rewrite filter_app, (existsb_false_filter _ _ He). cbn. eauto. }
      destruct Hfound as [u Hfound].
      destruct (getAllCourses dbu) as [|c0 cs0] eqn:Hc.
      + unfold createCourse, createSection.
        repeat match goal with
               | |- context [if ?c then _ else _] => destruct c
               end; try discriminate.
        intros [= <-]. exists u. exact Hfound.
      + intros [= <-]. eauto. }
  assert (Hcourses : courses db1 <> []).
  { revert Hrun. unfold seed, bindM, read, write, ret.
    destruct (getUserByEmail db adminEmail) as [u|].
    - destruct (getAllCourses db) as [|c0 cs0] eqn:Hc.
      + unfold createCourse, createSection.
        repeat match goal with
               | |- context [if ?c then _ else _] => destruct c
               end; try discriminate.
        intros [= <-]. cbn. now destruct (courses db).
      + intros [= <-]. unfold getAllCourses in Hc. now rewrite Hc.
    - unfold createUser. destruct (existsb _ (users db)); [discriminate|].
      destruct (existsb _ (users db)); [discriminate|].
      set (dbu := set_users db _).
      destruct (getAllCourses dbu) as [|c0 cs0] eqn:Hc.
      + unfold createCourse, createSection.
        repeat match goal with
               | |- context [if ?c then _ else _] => destruct c
               end; try discriminate.
        intros [= <-]. cbn. now destruct (courses db).
      + intros [= <-]. unfold getAllCourses in Hc. now rewrite Hc. }
  destruct Hadmin as [u Hu].
  unfold seed, bindM, read, ret. rewrite Hu. unfold getAllCourses.
  destruct (courses db1); [contradiction|reflexivity].
Qed.

Lemma fresh_of_NoDup {R : Type} (key : R -> string) (t : list R) (r : R) (rest : list R) :
  NoDup (map key (t ++ r :: rest)) ->
  existsb (fun x => key x =? key r) t = false.
Proof.
  intros Hnd. rewrite map_app in Hnd. cbn [map] in Hnd.
  destruct (existsb _ t) eqn:He; [|reflexivity].
  exfalso. apply existsb_exists in He. destruct He as (x & Hx & Hk).
  apply String.eqb_eq in Hk. apply (NoDup_remove_2 _ _ _ Hnd).
  apply in_or_app. left. rewrite <- Hk. now apply in_map.
Qed.

(** On a database with no admin account and no course, where the
    identifiers drawn are new, the seeding inserts the admin account, two
    courses and three sections, each section in one of the two courses; and
    the admin can then log in with the password of the script, given that
    zod takes the address for an e-mail address and bcrypt accepts its own
    hash. *)
Theorem seeded_admin_logs_in (env env' : Env) (db : DB) :
  getUserByEmail db adminEmail = None ->
  existsb (fun u => u_id u =? uuid env 0) (users db) = false ->
  courses db = [] ->
  uuid env 1 <> uuid env 2 ->
  NoDup (map sec_id (sections db ++ seeded_sections env)) ->
  is_email adminEmail = true ->
  bcrypt_compare "admin123" (bcrypt_hash (salt env) "admin123") = true ->
  seed env db = Returned tt (seeded env db)
  /\ post_auth_login env' (mkLoginBody (Some adminEmail) (Some "admin123")) (seeded env db)
     = (json (LoginOk (jwt_sign (now env') (uuid env 0)) (uuid env 0) adminEmail
                      role_admin None), seeded env db)
  /\ forall s, In s (seeded_sections env) ->
       exists c, In c (courses (seeded env db)) /\ sec_courseId s = c_id c.
Proof.
  intros Hu Hfresh Hc Hne Hnd Hemail Hcmp.
  pose proof (fresh_of_NoDup sec_id (sections db) _ _ Hnd) as H3.
  assert (Hnd4 : NoDup (map sec_id
            ((sections db ++ [mkSection (uuid env 3) (uuid env 1) "Section A" (now env)])
             ++ [mkSection (uuid env 4) (uuid env 1) "Section B" (now env);
                 mkSection (uuid env 5) (uuid env 2) "Section 1" (now env)])))
    by (rewrite <- app_assoc; exact Hnd).
  pose proof (fresh_of_NoDup sec_id _ _ _ Hnd4) as H4.
  assert (Hnd5 : NoDup (map sec_id
            (((sections db ++ [mkSection (uuid env 3) (uuid env 1) "Section A" (now env)])
              ++ [mkSection (uuid env 4) (uuid env 1) "Section B" (now env)])
             ++ [mkSection (uuid env 5) (uuid env 2) "Section 1" (now env)])))
    by (rewrite <- app_assoc; exact Hnd4).
  pose proof (fresh_of_NoDup sec_id _ _ _ Hnd5) as H5.
  cbn [sec_id] in H3, H4, H5.
  split; [|split].
  - unfold seed, bindM, read, write, ret. rewrite Hu.
    unfold createUser. cbn [iu_email iu_password iu_role iu_studentId]. rewrite Hfresh.
    rewrite (first_filter_none_existsb _ _ Hu).
    unfold getAllCourses. cbn [courses set_users]. rewrite Hc.
    unfold createCourse. cbn [courses set_users set_courses]. rewrite Hc.
    cbn [courses set_users set_courses existsb app c_id ic_name ic_description].
    apply String.eqb_neq in Hne. rewrite Hne. cbn [orb].
    unfold createSection.
    cbn [sections set_users set_courses set_sections isec_courseId isec_name c_id].
    rewrite H3.
    cbn [sections set_users set_courses set_sections isec_courseId isec_name c_id].
    rewrite H4.
    cbn [sections set_users set_courses set_sections isec_courseId isec_name c_id].
    rewrite H5. unfold seeded, seeded_courses, seeded_sections, seeded_admin.
    cbn [app]. rewrite <- !app_assoc. reflexivity.
  - apply (login_ok env' _ (seeded env db) adminEmail "admin123" (seeded_admin env)).
    + unfold loginSchema_parse. cbn [lb_email lb_password]. rewrite Hemail. reflexivity.
    + unfold getUserByEmail, seeded. cbn [users set_users set_courses set_sections].
      rewrite filter_app.
      rewrite (existsb_false_filter _ _ (first_filter_none_existsb _ _ Hu)).
      reflexivity.
    + exact Hcmp.
  - intros s Hs. unfold seeded. cbn [courses set_courses set_sections].
    destruct Hs as [<-|[<-|[<-|[]]]].
    + exists (mkCourse (uuid env 1) "Computer Science"
                (Some "Bachelor of Science in Computer Science") (now env)).
      split; [now left|reflexivity].
    + exists (mkCourse (uuid env 1) "Computer Science"
                (Some "Bachelor of Science in Computer Science") (now env)).
      split; [now left|reflexivity].
    + exists (mkCourse (uuid env 2) "Business Administration"
                (Some "Bachelor of Science in Business Administration") (now env)).
      split; [right; now left|reflexivity].
Qed.

End Housekeeping.

(** ** Concrete runs *)

#[local] Existing Instance Reference.services.

Lemma checkin_state_machine_witness :
  handle (checkin (sample_env 1 2000) Sample.admin_user Sample.manual) Sample.db
  = (json (CheckIn "in"
        (Some (mkAttendance "id-1-0" "ev-1" "st-ada" (Some 2000%Z) None 2000%Z))),
     set_attendance Sample.db
       [mkAttendance "id-1-0" "ev-1" "st-ada" (Some 2000%Z) None 2000%Z])
  /\ handle (checkin (sample_env 2 3000) Sample.admin_user Sample.manual) Sample.timed_in
     = (json (CheckIn "out"
          (Some (mkAttendance "id-1-0" "ev-1" "st-ada" (Some 2000%Z) (Some 3000%Z) 2000%Z))),
        set_attendance Sample.db
          [mkAttendance "id-1-0" "ev-1" "st-ada" (Some 2000%Z) (Some 3000%Z) 2000%Z])
  /\ handle (checkin (sample_env 3 4000) Sample.admin_user Sample.manual) Sample.timed_out
     = (mkResponse 400 (Message "Attendance already complete"), Sample.timed_out).
Proof.
  assert (Hnone : NoDup (map a_id (attendance Sample.db))) by constructor.
  assert (Hin : NoDup (map a_id (attendance Sample.timed_in)))
    by (constructor; [intros []|constructor]).
  assert (Hout : NoDup (map a_id (attendance Sample.timed_out)))
    by (constructor; [intros []|constructor]).
  assert (Hfirst : checkin_target (services := Reference.services)
                     Sample.admin_user Sample.manual Sample.db
                   = Returned (inr ("ev-1", "st-ada")) Sample.db) by reflexivity.
  assert (Hsecond : checkin_target (services := Reference.services)
                      Sample.admin_user Sample.manual Sample.timed_in
                    = Returned (inr ("ev-1", "st-ada")) Sample.timed_in) by reflexivity.
  assert (Hthird : checkin_target (services := Reference.services)
                     Sample.admin_user Sample.manual Sample.timed_out
                   = Returned (inr ("ev-1", "st-ada")) Sample.timed_out) by reflexivity.
  split; [|split].
  - pose proof (checkin_state_machine (services := Reference.services)
                  (sample_env 1 2000) Sample.admin_user Sample.manual Sample.db
                  "ev-1" "st-ada" Hfirst Hnone) as H.
    cbv zeta in H.
    change (rows_of_pair Sample.db "ev-1" "st-ada") with (@nil Attendance) in H.
    cbv iota in H.
    assert (Hfresh : existsb (fun a => a_id a =? uuid (sample_env 1 2000) 0)
                       (attendance Sample.db) = false) by reflexivity.
    destruct (H Hfresh) as (Hrun & _). exact Hrun.
  - pose proof (checkin_state_machine (services := Reference.services)
                  (sample_env 2 3000) Sample.admin_user Sample.manual Sample.timed_in
                  "ev-1" "st-ada" Hsecond Hin) as H.
    cbv zeta in H.
    change (rows_of_pair Sample.timed_in "ev-1" "st-ada")
      with [mkAttendance "id-1-0" "ev-1" "st-ada" (Some 2000%Z) None 2000%Z] in H.
    cbv iota in H. cbn [a_timeOut] in H.
    destruct H as (Hrun & _). exact Hrun.
  - pose proof (checkin_state_machine (services := Reference.services)
                  (sample_env 3 4000) Sample.admin_user Sample.manual Sample.timed_out
                  "ev-1" "st-ada" Hthird Hout) as H.
    cbv zeta in H.
    change (rows_of_pair Sample.timed_out "ev-1" "st-ada")
      with [mkAttendance "id-1-0" "ev-1" "st-ada" (Some 2000%Z) (Some 3000%Z) 2000%Z] in H.
    cbv iota in H. cbn [a_timeOut] in H. exact H.
Defined.

Lemma checkin_without_event_witness :
  getEvent Sample.db "no-such-event" = None
  /\ post_attendance_checkin (sample_env 1 2000) Sample.admin_token
       Sample.manual_nowhere (set_events Sample.db [])
     = (json (CheckIn "in"
          (Some (mkAttendance "id-1-0" "no-such-event" "st-ada"
                              (Some 2000%Z) None 2000%Z))),
        set_events
          (set_attendance Sample.db
             [mkAttendance "id-1-0" "no-such-event" "st-ada" (Some 2000%Z) None 2000%Z])
          []).
Proof.
  split; [reflexivity|].
  exact (proj2 (checkin_without_event (sample_env 1 2000) Sample.admin_token
                  Sample.manual_nowhere Sample.db Sample.admin_user
                  "no-such-event" "st-ada" eq_refl eq_refl eq_refl eq_refl) []).
Defined.

Lemma manual_checkin_any_role_witness :
  u_role Sample.ada_user = role_student
  /\ post_attendance_checkin (sample_env 1 2000) Sample.ada_token Sample.manual_bob Sample.db
     = (json (CheckIn "in"
          (Some (mkAttendance "id-1-0" "ev-1" "st-bob" (Some 2000%Z) None 2000%Z))),
        set_attendance Sample.db
          [mkAttendance "id-1-0" "ev-1" "st-bob" (Some 2000%Z) None 2000%Z]).
Proof.
  split; [reflexivity|].
  assert (Hauth : authMiddleware (sample_env 1 2000) Sample.db Sample.ada_token
                  = inr Sample.ada_user) by reflexivity.
  assert (Hst : getStudentByStudentId Sample.db "2024-002"
                = Some (mkStudentJoined Sample.bob (Some Sample.cs)
                                        (Some Sample.section_b))) by reflexivity.
  rewrite (manual_checkin_any_role (sample_env 1 2000) Sample.ada_token
             Sample.manual_bob Sample.db Sample.ada_user "2024-002" "ev-1" _
             Hauth eq_refl eq_refl ltac:(discriminate) eq_refl ltac:(discriminate) Hst).
  reflexivity.
Defined.

(** C3, as the claim has it, fails: the payload issued at time 1000 is the
    stored one until the regeneration at time 2000 replaces it, and a scan
    of it after that is still taken as a check-in. *)
Lemma old_payload_still_accepted :
  map e_qrCodeData (events Sample.regenerated_once) = [Sample.old_payload]
  /\ map e_qrCodeData (events Sample.regenerated_twice) = [Reference.stringify "ev-1" 2000]
  /\ Reference.stringify "ev-1" 2000 <> Sample.old_payload
  /\ post_attendance_checkin (sample_env 3 3000) Sample.ada_token Sample.scan_old
       Sample.regenerated_twice
     = (mkResponse 200 (CheckIn "in"
          (Some (mkAttendance "id-3-0" "ev-1" "st-ada" (Some 3000%Z) None 3000%Z))),
        set_attendance Sample.regenerated_twice
          [mkAttendance "id-3-0" "ev-1" "st-ada" (Some 3000%Z) None 3000%Z]).
Proof.
  repeat split; try reflexivity. vm_compute. discriminate.
Qed.

Lemma regenerate_qr_effect_witness :
  map e_qrCodeData (events Sample.regenerated_twice) = [Reference.stringify "ev-1" 2000]
  /\ attendance Sample.regenerated_twice = attendance Sample.regenerated_once
  /\ fst (post_attendance_checkin (sample_env 3 3000) Sample.ada_token Sample.scan_old
            Sample.regenerated_twice)
     = fst (post_attendance_checkin (sample_env 3 3000) Sample.ada_token Sample.scan_old
              Sample.regenerated_once).
Proof.
  assert (Hauth : authMiddleware (sample_env 2 2000) Sample.regenerated_once
                    Sample.admin_token = inr Sample.admin_user) by reflexivity.
  pose proof (regenerate_qr_effect (sample_env 2 2000) Sample.admin_token "ev-1"
                Sample.regenerated_once Sample.admin_user Hauth eq_refl)
    as (Hevents & _ & Hatt & Hcheckin).
  split; [|split; [exact Hatt|]].
  - change Sample.regenerated_twice
      with (snd (post_events_regenerate_qr (sample_env 2 2000) Sample.admin_token
                   "ev-1" Sample.regenerated_once)).
    rewrite Hevents. reflexivity.
  - exact (proj1 (Hcheckin (sample_env 3 3000) Sample.ada_token Sample.scan_old)).
Defined.

(** C8, as the claim has it, fails: two manual check-ins of Ada to the
    orientation, both looked up before either is written, leave two
    attendance records for the one pair; nothing rejects the second insert
    and nothing retries it as an update. *)
Lemma double_checkin_two_rows :
  run_schedule interleaved
    (Arrived (sample_env 1 2000) Sample.admin_user Sample.manual)
    (Arrived (sample_env 2 2001) Sample.admin_user Sample.manual)
    Sample.db
  = (Finished (json (CheckIn "in"
       (Some (mkAttendance "id-1-0" "ev-1" "st-ada" (Some 2000%Z) None 2000%Z)))),
     Finished (json (CheckIn "in"
       (Some (mkAttendance "id-2-0" "ev-1" "st-ada" (Some 2001%Z) None 2001%Z)))),
     set_attendance Sample.db
       [mkAttendance "id-1-0" "ev-1" "st-ada" (Some 2000%Z) None 2000%Z;
        mkAttendance "id-2-0" "ev-1" "st-ada" (Some 2001%Z) None 2001%Z]).
Proof. reflexivity. Qed.

Lemma concurrent_checkin_witness :
  List.length
    (attendance
       (snd (run_schedule interleaved
               (Arrived (sample_env 1 2000) Sample.admin_user Sample.manual)
               (Arrived (sample_env 2 2001) Sample.admin_user Sample.manual)
               Sample.db)))
  = 2
  /\ List.length
       (attendance
          (snd (run_schedule one_after_the_other
                  (Arrived (sample_env 1 2000) Sample.admin_user Sample.manual)
                  (Arrived (sample_env 2 2001) Sample.admin_user Sample.manual)
                  Sample.db)))
     = 1.
Proof.
  assert (Hne : uuid (sample_env 1 2000) 0 <> uuid (sample_env 2 2001) 0)
    by discriminate.
  destruct (concurrent_checkin (sample_env 1 2000) (sample_env 2 2001)
              Sample.admin_user Sample.admin_user Sample.manual Sample.manual
              Sample.db "ev-1" "st-ada" eq_refl eq_refl eq_refl eq_refl eq_refl Hne)
    as [-> ->].
  split; reflexivity.
Defined.

(** Ada, of (Computer Science, Section A), is shown the orientation, which
    is open to that pair; Bob, of Section B of the same course, is not. *)
Lemma student_events_visibility_witness :
  listed Sample.orientation (events_with_attendance Sample.db Sample.ada)
  /\ ~ listed Sample.orientation (events_with_attendance Sample.db Sample.bob).
Proof.
  assert (Hada : authMiddleware (sample_env 1 2000) Sample.db Sample.ada_token
                 = inr Sample.ada_user) by reflexivity.
  assert (Hbob : authMiddleware (sample_env 1 2000) Sample.db Sample.bob_token
                 = inr Sample.bob_user) by reflexivity.
  assert (Hsa : getStudentByStudentId Sample.db "2024-001"
                = Some (mkStudentJoined Sample.ada (Some Sample.cs)
                                        (Some Sample.section_a))) by reflexivity.
  assert (Hsb : getStudentByStudentId Sample.db "2024-002"
                = Some (mkStudentJoined Sample.bob (Some Sample.cs)
                                        (Some Sample.section_b))) by reflexivity.
  destruct (student_events_visibility (sample_env 1 2000) Sample.ada_token Sample.db
              Sample.ada_user "2024-001" _ Hada eq_refl eq_refl Hsa) as (_ & Ha & _).
  destruct (student_events_visibility (sample_env 1 2000) Sample.bob_token Sample.db
              Sample.bob_user "2024-002" _ Hbob eq_refl eq_refl Hsb) as (_ & Hb & _).
  split.
  - apply (Ha Sample.orientation); [left; reflexivity|].
    exists Sample.orientation_for_a. repeat split. left; reflexivity.
  - intros Hl. apply (Hb Sample.orientation) in Hl; [|left; reflexivity].
    destruct Hl as (ecs & [<-|[]] & _ & _ & Hsec). discriminate Hsec.
Defined.

Lemma login_failures_indistinguishable_witness :
  fst (post_auth_login (sample_env 1 2000)
         (mkLoginBody (Some "nobody@school.edu") (Some "secret1")) Sample.db)
  = fst (post_auth_login (sample_env 2 3000)
           (mkLoginBody (Some "ada@school.edu") (Some "not-her-password")) Sample.db).
Proof.
  exact (proj2 (proj2
    (login_failures_indistinguishable (sample_env 1 2000) (sample_env 2 3000)
       (mkLoginBody (Some "nobody@school.edu") (Some "secret1"))
       (mkLoginBody (Some "ada@school.edu") (Some "not-her-password"))
       Sample.db Sample.db "nobody@school.edu" "secret1"
       "ada@school.edu" "not-her-password" Sample.ada_user
       eq_refl eq_refl eq_refl eq_refl eq_refl))).
Defined.

Lemma register_outcomes_witness :
  post_auth_register (sample_env 1 2000) Sample.stranger_registers None Sample.roll
  = (mkResponse 404 (Message "Student ID not found in system"), Sample.roll)
  /\ post_auth_register (sample_env 1 2000) Sample.carol_takes_ada None Sample.roll
     = (mkResponse 400 (Message "Email already registered"), Sample.roll)
  /\ fst (post_auth_register (sample_env 1 2000) Sample.carol_registers None Sample.roll)
     = json (Message "Registration successful")
  /\ fst (post_auth_login (sample_env 2 3000)
            (mkLoginBody (Some "carol@school.edu") (Some "correct horse"))
            (snd (post_auth_register (sample_env 1 2000) Sample.carol_registers None
                    Sample.roll)))
     = json (LoginOk "jwt.id-1-0" "id-1-0" "carol@school.edu" role_student
                     (Some "2024-003"))
  /\ post_auth_register (sample_env 1 2000) Cases.methuselah_body None Sample.roll
     = (mkResponse 500 (Message "value is out of range for type integer"), Sample.roll).
Proof.
  split; [|split; [|apply and_assoc; split]].
  - exact (register_outcomes (sample_env 1 2000) Sample.stranger_registers None
             Sample.roll
             (mkRegistration "1999-999" "carol@school.edu" "correct horse" "19"
                             "2006-03-14") eq_refl eq_refl).
  - exact (register_outcomes (sample_env 1 2000) Sample.carol_takes_ada None
             Sample.roll
             (mkRegistration "2024-003" "ada@school.edu" "correct horse" "19"
                             "2006-03-14") eq_refl eq_refl).
  - pose proof (register_outcomes (sample_env 1 2000) Sample.carol_registers None
                  Sample.roll
                  (mkRegistration "2024-003" "carol@school.edu" "correct horse" "19"
                                  "2006-03-14") eq_refl eq_refl) as H.
    cbn match in H. destruct H as [H _].
    assert (Hage : (parseInt "19" <= 2147483647)%Z) by (vm_compute; discriminate).
    destruct (H eq_refl Hage eq_refl) as (Hok & _ & _ & Hlogin).
    split; [exact Hok|]. exact (f_equal fst (Hlogin (sample_env 2 3000))).
  - pose proof (register_outcomes (sample_env 1 2000) Cases.methuselah_body None
                  Sample.roll Cases.methuselah eq_refl eq_refl) as H.
    cbn match in H. destruct H as [_ H].
    assert (Hage : (2147483647 < parseInt "2147483648")%Z) by (vm_compute; reflexivity).
    exact (H Hage).
Defined.

(** C4, as the claim has it, fails.  Carol's student id is on the roll and
    no account has her e-mail address, and the request passes
    [registerSchema]; with the age 2147483648 the registration is answered
    500 and no account is created. *)
Lemma large_age_registration_refused :
  registerSchema_parse Cases.methuselah_body = inr Cases.methuselah
  /\ forallb pg_text ["2024-003"; "carol@school.edu"; "2006-03-14"] = true
  /\ option_map sj_row (getStudentByStudentId Sample.roll "2024-003") = Some Sample.carol
  /\ getUserByEmail Sample.roll "carol@school.edu" = None
  /\ post_auth_register (sample_env 1 2000) Cases.methuselah_body None Sample.roll
     = (mkResponse 500 (Message "value is out of range for type integer"), Sample.roll)
  /\ fst (post_auth_register (sample_env 1 2000) Cases.methuselah_body None Sample.roll)
     <> json (Message "Registration successful")
  /\ users (snd (post_auth_register (sample_env 1 2000) Cases.methuselah_body None
                   Sample.roll))
     = users Sample.roll.
Proof. repeat split. discriminate. Qed.

Lemma settings_singleton_witness :
  updateSystemSettings "id-1-0" 2000%Z Sample.db (mkSettingsPatch (Some "Roll Call") None)
  = Ok (Some (mkSettings "id-1-0" "Roll Call" true 2000%Z),
        set_systemSettings Sample.db [mkSettings "id-1-0" "Roll Call" true 2000%Z])
  /\ update_all
       [("id-1-0", 2000%Z, mkSettingsPatch (Some "Roll Call") None);
        ("id-2-0", 3000%Z, mkSettingsPatch None (Some false));
        ("id-3-0", 4000%Z, mkSettingsPatch None None)]
       Sample.db
     = Ok (set_systemSettings Sample.db [mkSettings "id-1-0" "Roll Call" false 4000%Z]).
Proof.
  assert (Hempty : systemSettings Sample.db = []) by reflexivity.
  destruct (settings_singleton "id-1-0" 2000%Z (mkSettingsPatch (Some "Roll Call") None)
              [("id-2-0", 3000%Z, mkSettingsPatch None (Some false));
               ("id-3-0", 4000%Z, mkSettingsPatch None None)]
              Sample.db Hempty)
    as (Hfirst & _ & Hrun & _).
  split; [exact Hfirst|exact Hrun].
Defined.

(** C7, as the claim has it, fails: Ada, a student, reads the courses. *)
Lemma student_lists_courses :
  authMiddleware (sample_env 1 2000) Sample.db Sample.ada_token = inr Sample.ada_user
  /\ u_role Sample.ada_user = role_student
  /\ get_courses (sample_env 1 2000) Sample.ada_token Sample.db
     = (mkResponse 200 (JsonCourses [Sample.cs]), Sample.db)
  /\ fst (get_courses (sample_env 1 2000) Sample.ada_token Sample.db) <> forbidden_admin.
Proof. repeat split. discriminate. Qed.

Lemma changes_admin_only_witness :
  post_courses (sample_env 1 2000) Sample.ada_token
    (mkCourseBody (Some "Alchemy") None) Sample.db
  = (mkResponse 403 (Message "Admin access required"), Sample.db)
  /\ delete_students (sample_env 1 2000) Sample.ada_token "st-bob" Sample.db
     = (mkResponse 403 (Message "Admin access required"), Sample.db).
Proof.
  assert (Hauth : authMiddleware (sample_env 1 2000) Sample.db Sample.ada_token
                  = inr Sample.ada_user) by reflexivity.
  assert (Hrole : u_role Sample.ada_user <> role_admin) by discriminate.
  destruct (changes_admin_only (sample_env 1 2000) Sample.ada_token Sample.db
              Sample.ada_user Hauth Hrole)
    as ((_ & _ & Hdel & _) & (Hpost & _) & _).
  split; [apply Hpost|apply Hdel].
Defined.

(** ** Concrete runs of the further properties *)

Ltac distinct_strings :=
  repeat (constructor; [cbn; intuition discriminate|]); constructor.

Lemma login_token_authenticates_witness :
  authMiddleware (sample_env 2 3000) Sample.db (bearer "jwt.u-ada") = inr Sample.ada_user.
Proof.
  assert (Hnd : NoDup (map u_id (users Sample.db))) by distinct_strings.
  assert (Hu : getUserByEmail Sample.db "ada@school.edu" = Some Sample.ada_user)
    by reflexivity.
  exact (proj2 (login_token_authenticates (services := Reference.services) (sample_env 1 2000) (sample_env 2 3000)
                  Cases.ada_logs_in Sample.db "ada@school.edu" "secret1" Sample.ada_user
                  ltac:(reflexivity) Hu ltac:(reflexivity) Hnd ltac:(reflexivity))).
Defined.

Lemma register_enriches_student_witness :
  option_map sj_row
    (getStudentByStudentId
       (snd (post_auth_register (sample_env 1 2000) Sample.carol_registers None
               Sample.roll)) "2024-003")
  = Some (mkStudent "st-carol" "2024-003" "Carol" "c-cs" "sec-a"
                    (Some 19%Z) (Some "carol@school.edu") (Some "2006-03-14") (Some "") 0).
Proof.
  assert (Hst : getStudentByStudentId Sample.roll "2024-003"
                = Some (mkStudentJoined Sample.carol (Some Sample.cs)
                                        (Some Sample.section_a))) by reflexivity.
  assert (Hage : (parseInt "19" <= 2147483647)%Z) by (vm_compute; discriminate).
  exact (register_enriches_student (services := Reference.services) (sample_env 1 2000) Sample.carol_registers None
           Sample.roll Cases.carol _ ltac:(reflexivity) Hst ltac:(reflexivity) ltac:(reflexivity) Hage).
Defined.

Lemma register_age_out_of_range_witness :
  status (fst (post_auth_register (sample_env 1 2000) Cases.methuselah_body None
                 Sample.roll)) = 500%Z
  /\ snd (post_auth_register (sample_env 1 2000) Cases.methuselah_body None Sample.roll)
     = Sample.roll.
Proof.
  assert (Hst : getStudentByStudentId Sample.roll "2024-003"
                = Some (mkStudentJoined Sample.carol (Some Sample.cs)
                                        (Some Sample.section_a))) by reflexivity.
  assert (Hage : (2147483647 < parseInt "2147483648")%Z) by (vm_compute; reflexivity).
  exact (register_age_out_of_range (services := Reference.services) (sample_env 1 2000) Cases.methuselah_body None
           Sample.roll Cases.methuselah _ ltac:(reflexivity) Hst ltac:(reflexivity) Hage).
Defined.

Lemma one_student_many_accounts_witness :
  map u_studentId
    (users (snd (post_auth_register (sample_env 2 3000) Cases.carol_again_body None
                   (snd (post_auth_register (sample_env 1 2000) Sample.carol_registers
                           None Sample.roll)))))
  = [None; Some "2024-001"; Some "2024-003"; Some "2024-003"].
Proof.
  assert (Hst : getStudentByStudentId Sample.roll "2024-003"
                = Some (mkStudentJoined Sample.carol (Some Sample.cs)
                                        (Some Sample.section_a))) by reflexivity.
  assert (Hage : (parseInt "19" <= 2147483647)%Z) by (vm_compute; discriminate).
  assert (Hne : uuid (sample_env 1 2000) 0 <> uuid (sample_env 2 3000) 0) by discriminate.
  assert (Hemail : r_email Cases.carol_again <> r_email Cases.carol) by discriminate.
  destruct (one_student_many_accounts (services := Reference.services) (sample_env 1 2000) (sample_env 2 3000)
              Sample.carol_registers Cases.carol_again_body None None Sample.roll
              Cases.carol Cases.carol_again _ ltac:(reflexivity) ltac:(reflexivity) ltac:(reflexivity) Hemail Hst
              ltac:(reflexivity) ltac:(reflexivity) ltac:(reflexivity) ltac:(reflexivity) Hne Hage Hage) as (_ & _ & -> & _).
  reflexivity.
Defined.

Lemma created_student_is_verified_witness :
  verify_status (fst (post_students_verify "2024-004" Sample.db)) = 404%Z
  /\ verify_status
       (fst (post_students_verify "2024-004"
               (snd (post_students (sample_env 1 2000) Sample.admin_token
                       Cases.dave_body Sample.db)))) = 200%Z.
Proof.
  assert (Hauth : authMiddleware (sample_env 1 2000) Sample.db Sample.admin_token
                  = inr Sample.admin_user) by reflexivity.
  split; [reflexivity|].
  exact (proj1 (proj2 (created_student_is_verified (services := Reference.services) (sample_env 1 2000) Sample.admin_token
                         Sample.db Sample.admin_user Cases.dave_body Cases.dave
                         Hauth ltac:(reflexivity) ltac:(reflexivity) I ltac:(reflexivity) ltac:(reflexivity)))).
Defined.

Lemma duplicate_student_id_refused_witness :
  status (fst (post_students (sample_env 1 2000) Sample.admin_token
                 Cases.second_ada_body Sample.db)) = 500%Z
  /\ snd (post_students (sample_env 1 2000) Sample.admin_token
            Cases.second_ada_body Sample.db) = Sample.db.
Proof.
  assert (Hauth : authMiddleware (sample_env 1 2000) Sample.db Sample.admin_token
                  = inr Sample.admin_user) by reflexivity.
  assert (Hst : getStudentByStudentId Sample.db "2024-001"
                = Some (mkStudentJoined Sample.ada (Some Sample.cs)
                                        (Some Sample.section_a))) by reflexivity.
  exact (duplicate_student_id_refused (services := Reference.services) (sample_env 1 2000) Sample.admin_token Sample.db
           Sample.admin_user Cases.second_ada_body Cases.second_ada _
           Hauth ltac:(reflexivity) ltac:(reflexivity) I Hst).
Defined.

Lemma delete_student_leaves_account_witness :
  users Cases.without_ada = users Sample.db
  /\ getStudentByStudentId Cases.without_ada "2024-001" = None
  /\ handle (checkin (sample_env 2 3000) Sample.ada_user (scan Sample.old_payload))
            Cases.without_ada
     = (mkResponse 404 (Message "Student not found"), Cases.without_ada).
Proof.
  assert (Hauth : authMiddleware (sample_env 1 2000) Sample.db Sample.admin_token
                  = inr Sample.admin_user) by reflexivity.
  assert (Hst : getStudentByStudentId Sample.db "2024-001"
                = Some (mkStudentJoined Sample.ada (Some Sample.cs)
                                        (Some Sample.section_a))) by reflexivity.
  assert (Hnd : NoDup (map s_studentId (students Sample.db))) by distinct_strings.
  destruct (delete_student_leaves_account (services := Reference.services) (sample_env 1 2000) Sample.admin_token
              Sample.db Sample.admin_user _ "2024-001" Hauth ltac:(reflexivity) Hst Hnd)
    as (_ & Husers & _ & Hgone & Hscan).
  split; [exact Husers|]. split; [exact Hgone|].
  apply (Hscan (sample_env 2 3000) Sample.ada_user Sample.old_payload "ev-1");
    [reflexivity|discriminate|discriminate|reflexivity].
Defined.

Lemma import_stops_at_duplicate_witness :
  status (fst (post_students_import (sample_env 1 2000) Sample.admin_token
                 (Some [Cases.dave_body; Cases.dave_twin_body]) Sample.db)) = 500%Z
  /\ map s_name
       (students (snd (post_students_import (sample_env 1 2000) Sample.admin_token
                         (Some [Cases.dave_body; Cases.dave_twin_body]) Sample.db)))
     = ["Ada"; "Bob"; "Dave"].
Proof.
  assert (Hauth : authMiddleware (sample_env 1 2000) Sample.db Sample.admin_token
                  = inr Sample.admin_user) by reflexivity.
  destruct (import_stops_at_duplicate (services := Reference.services) (sample_env 1 2000) Sample.admin_token Sample.db
              Sample.admin_user Cases.dave_body Cases.dave_twin_body [] Cases.dave
              Hauth ltac:(reflexivity) ltac:(reflexivity) ltac:(reflexivity) ltac:(reflexivity) ltac:(reflexivity) I ltac:(reflexivity) ltac:(reflexivity))
    as [Hs Hrows].
  split; [exact Hs|]. rewrite Hrows. reflexivity.
Defined.

Lemma completed_attendance_is_final_witness :
  In Cases.ada_row
     (attendance (snd (post_attendance_checkin (sample_env 3 4000) Sample.admin_token
                         Sample.manual Sample.timed_out))).
Proof.
  assert (Hnd : NoDup (map a_id (attendance Sample.timed_out))) by distinct_strings.
  assert (Hin : In Cases.ada_row (attendance Sample.timed_out)) by (left; reflexivity).
  exact (completed_attendance_is_final (services := Reference.services) (sample_env 3 4000) Sample.admin_token
           Sample.manual Sample.timed_out Cases.ada_row 3000%Z Hnd Hin ltac:(reflexivity)).
Defined.


Lemma creation_payload_names_another_id_witness :
  map e_id (events (snd (post_events (sample_env 7 5000) Sample.admin_token
                           (Cases.workshop_body None) Sample.db)))
  = ["ev-1"; "id-7-1"]
  /\ JSON_parse (e_qrCodeData (created_event "id-7-1" 5000%Z Cases.workshop))
     = Ok "id-7-0".
Proof.
  assert (Hauth : authMiddleware (sample_env 7 5000) Sample.db Sample.admin_token
                  = inr Sample.admin_user) by reflexivity.
  assert (Hne : uuid (sample_env 7 5000) 0 <> uuid (sample_env 7 5000) 1) by discriminate.
  assert (Hq : JSON_stringify (uuid (sample_env 7 5000) 0) (now (sample_env 7 5000)) <> "")
    by discriminate.
  destruct (creation_payload_names_another_id (services := Reference.services)
              (sample_env 7 5000) Sample.admin_token Sample.db Sample.admin_user
              (Cases.workshop_body None) Cases.workshop
              Hauth ltac:(reflexivity) ltac:(reflexivity) ltac:(reflexivity)
              ltac:(reflexivity) Hq Hne) as (Hevents & _ & Hparse & _).
  split; [rewrite Hevents; reflexivity|exact Hparse].
Defined.

Lemma event_without_associations_stays_witness :
  status (fst (post_events (sample_env 7 5000) Sample.admin_token
                 (Cases.workshop_body (Some [Cases.no_course])) Sample.db)) = 500%Z
  /\ map e_id (events (snd (post_events (sample_env 7 5000) Sample.admin_token
                              (Cases.workshop_body (Some [Cases.no_course])) Sample.db)))
     = ["ev-1"; "id-7-1"].
Proof.
  assert (Hauth : authMiddleware (sample_env 7 5000) Sample.db Sample.admin_token
                  = inr Sample.admin_user) by reflexivity.
  destruct (event_without_associations_stays (services := Reference.services)
              (sample_env 7 5000) Sample.admin_token Sample.db Sample.admin_user
              (Cases.workshop_body (Some [Cases.no_course])) Cases.workshop
              Cases.no_course [] Hauth ltac:(reflexivity) ltac:(reflexivity)
              ltac:(reflexivity) ltac:(reflexivity) ltac:(reflexivity)) as [Hs Hdb].
  split; [exact Hs|]. rewrite Hdb. reflexivity.
Defined.

Lemma regenerate_qr_of_missing_event_witness :
  post_events_regenerate_qr (sample_env 1 2000) Sample.admin_token "no-such-event"
    Sample.db
  = (json (JsonEvent None), Sample.db).
Proof.
  assert (Hauth : authMiddleware (sample_env 1 2000) Sample.db Sample.admin_token
                  = inr Sample.admin_user) by reflexivity.
  exact (regenerate_qr_of_missing_event (services := Reference.services)
           (sample_env 1 2000) Sample.admin_token Sample.db Sample.admin_user
           "no-such-event" Hauth ltac:(reflexivity) ltac:(reflexivity)).
Defined.

Lemma regenerated_payload_names_the_event_witness :
  fst (handle (checkin (sample_env 3 3000) Sample.ada_user (scan Sample.old_payload))
              Sample.regenerated_once)
  = json (CheckIn "in"
       (Some (mkAttendance "id-3-0" "ev-1" "st-ada" (Some 3000%Z) None 3000%Z))).
Proof.
  assert (Hauth : authMiddleware (sample_env 1 1000) Sample.db Sample.admin_token
                  = inr Sample.admin_user) by reflexivity.
  assert (Hq : JSON_stringify "ev-1" (now (sample_env 1 1000)) <> "") by discriminate.
  assert (Hsid : "2024-001" <> "") by discriminate.
  assert (Hst : getStudentByStudentId Sample.db "2024-001"
                = Some (mkStudentJoined Sample.ada (Some Sample.cs)
                                        (Some Sample.section_a))) by reflexivity.
  destruct (regenerated_payload_names_the_event (services := Reference.services)
              (sample_env 1 1000) (sample_env 3 3000) Sample.admin_token Sample.db
              Sample.admin_user Sample.ada_user "ev-1" "2024-001" _
              Hauth ltac:(reflexivity) ltac:(reflexivity) Hq ltac:(reflexivity) Hsid Hst)
    as [_ Hscan].
  change (handle (checkin (sample_env 3 3000) Sample.ada_user (scan Sample.old_payload))
                 Sample.regenerated_once)
    with (handle (checkin (sample_env 3 3000) Sample.ada_user
                    (scan (JSON_stringify "ev-1" (now (sample_env 1 1000)))))
                 (snd (post_events_regenerate_qr (sample_env 1 1000) Sample.admin_token
                         "ev-1" Sample.db))).
  rewrite Hscan. reflexivity.
Defined.

Lemma created_event_is_visible_to_its_pairs_witness :
  let db' := snd (post_events (sample_env 7 5000) Sample.admin_token
                    (Cases.workshop_body (Some [Cases.for_section_b])) Sample.db) in
  listed (created_event "id-7-1" 5000%Z Cases.workshop)
         (events_with_attendance db' Sample.bob)
  /\ ~ listed (created_event "id-7-1" 5000%Z Cases.workshop)
              (events_with_attendance db' Sample.ada).
Proof.
  assert (Hauth : authMiddleware (sample_env 7 5000) Sample.db Sample.admin_token
                  = inr Sample.admin_user) by reflexivity.
  assert (Hnd : NoDup (map ecs_id (eventCourseSections Sample.db)
                       ++ map (uuid (sample_env 7 5000))
                              (seq 2 (List.length [Cases.for_section_b]))))
    by distinct_strings.
  assert (Hold : forall r, In r (eventCourseSections Sample.db) ->
                           ecs_eventId r <> uuid (sample_env 7 5000) 1)
    by (intros r [<-|[]]; discriminate).
  destruct (created_event_is_visible_to_its_pairs (services := Reference.services)
              (sample_env 7 5000) Sample.admin_token Sample.db Sample.admin_user
              (Cases.workshop_body (Some [Cases.for_section_b])) Cases.workshop
              [Cases.for_section_b] Hauth ltac:(reflexivity) ltac:(reflexivity)
              ltac:(reflexivity) ltac:(reflexivity) ltac:(reflexivity) Hnd Hold)
    as (_ & _ & Hvis).
  cbv zeta. split.
  - apply (Hvis Sample.bob). exists Cases.for_section_b. repeat split. now left.
  - intros Hl. apply (Hvis Sample.ada) in Hl.
    destruct Hl as (cs & [<-|[]] & _ & Hsec). discriminate Hsec.
Defined.

Lemma put_events_associations_witness :
  eventCourseSections
    (snd (put_events (sample_env 1 2000) Sample.admin_token "ev-1"
            (mkEventUpdateBody (Some []) Cases.rename) Sample.db)) = []
  /\ eventCourseSections
       (snd (put_events (sample_env 1 2000) Sample.admin_token "ev-1"
               (mkEventUpdateBody None Cases.rename) Sample.db))
     = [Sample.orientation_for_a]
  /\ put_events (sample_env 1 2000) Sample.admin_token "ev-1"
       (mkEventUpdateBody (Some []) Cases.nothing) Sample.db
     = (mkResponse 500 (Message "No values to set"), Sample.db)
  /\ eventCourseSections Sample.db = [Sample.orientation_for_a].
Proof.
  assert (Hauth : authMiddleware (sample_env 1 2000) Sample.db Sample.admin_token
                  = inr Sample.admin_user) by reflexivity.
  assert (Hrole : u_role Sample.admin_user = role_admin) by reflexivity.
  assert (Hset : event_patch_empty Cases.rename = false) by reflexivity.
  assert (Hnone : event_patch_empty Cases.nothing = true) by reflexivity.
  destruct (put_events_associations (services := Reference.services)
              (sample_env 1 2000) Sample.admin_token Sample.db Sample.admin_user
              "ev-1" Cases.rename Hauth Hrole) as [Hsome _].
  destruct (Hsome Hset) as (Hcleared & _ & Hkept).
  destruct (put_events_associations (services := Reference.services)
              (sample_env 1 2000) Sample.admin_token Sample.db Sample.admin_user
              "ev-1" Cases.nothing Hauth Hrole) as [_ Hthrows].
  split; [rewrite Hcleared; reflexivity|].
  split; [exact Hkept|]. split; [exact (Hthrows Hnone (Some []))|reflexivity].
Defined.

Lemma delete_event_keeps_attendance_witness :
  In (mkAttendanceJoined Cases.ada_in None)
     (getAllAttendanceForStudent
        (snd (delete_events (sample_env 4 5000) Sample.admin_token "ev-1" Sample.timed_in))
        "st-ada").
Proof.
  assert (Hauth : authMiddleware (sample_env 4 5000) Sample.timed_in Sample.admin_token
                  = inr Sample.admin_user) by reflexivity.
  destruct (delete_event_keeps_attendance (services := Reference.services)
              (sample_env 4 5000) Sample.admin_token Sample.timed_in Sample.admin_user
              "ev-1" Hauth ltac:(reflexivity)) as (_ & _ & _ & _ & Hhist).
  apply (Hhist Cases.ada_in); [left; reflexivity|reflexivity].
Defined.

Lemma checked_in_student_sees_record_witness :
  In (mkEventJoined Sample.orientation
        [mkEcsJoined Sample.orientation_for_a (Some Sample.cs) (Some Sample.section_a)],
      Some Cases.ada_in)
     (events_with_attendance Sample.timed_in Sample.ada).
Proof.
  assert (Hassoc : associated Sample.db Sample.ada Sample.orientation).
  { exists Sample.orientation_for_a. repeat split. now left. }
  assert (Hin : In Sample.orientation (events Sample.db)) by (left; reflexivity).
  exact (checked_in_student_sees_record (services := Reference.services)
           (sample_env 1 2000) Sample.admin_user Sample.manual Sample.db Sample.ada
           Sample.orientation ltac:(reflexivity) ltac:(reflexivity) ltac:(reflexivity)
           Hin Hassoc).
Defined.

Lemma listing_without_student_row_witness :
  status (fst (get_student_events (sample_env 2 3000) Sample.ada_token Cases.without_ada))
  = 500%Z.
Proof.
  assert (Hauth : authMiddleware (sample_env 2 3000) Cases.without_ada Sample.ada_token
                  = inr Sample.ada_user) by reflexivity.
  destruct (listing_without_student_row (services := Reference.services)
              (sample_env 2 3000) Sample.ada_token Cases.without_ada Sample.ada_user
              "2024-001" Hauth ltac:(reflexivity) ltac:(reflexivity) ltac:(reflexivity))
    as (_ & Hbroken & _).
  apply Hbroken. exists Sample.orientation, Sample.orientation_for_a.
  repeat split; now left.
Defined.

Lemma settings_written_are_read_witness :
  get_settings (sample_env 2 3000) Sample.ada_token
    (snd (put_settings (sample_env 1 2000) Sample.admin_token
            (mkSettingsPatch (Some "Roll Call") None) Sample.db))
  = (json (JsonSettings (Some (mkSettings "id-1-0" "Roll Call" true 2000%Z))),
     snd (put_settings (sample_env 1 2000) Sample.admin_token
            (mkSettingsPatch (Some "Roll Call") None) Sample.db)).
Proof.
  assert (Hauth : authMiddleware (sample_env 1 2000) Sample.db Sample.admin_token
                  = inr Sample.admin_user) by reflexivity.
  assert (Hauth2 : authMiddleware (sample_env 2 3000) Sample.db Sample.ada_token
                   = inr Sample.ada_user) by reflexivity.
  assert (Hlen : (List.length (systemSettings Sample.db) <= 1)%nat) by (cbn; lia).
  destruct (settings_written_are_read (services := Reference.services)
              (sample_env 1 2000) (sample_env 2 3000) Sample.admin_token Sample.ada_token
              Sample.db Sample.admin_user Sample.ada_user
              (mkSettingsPatch (Some "Roll Call") None) Hauth ltac:(reflexivity) Hauth2 Hlen)
    as (row & Hput & Hget & _).
  rewrite Hget. injection Hput as <-. reflexivity.
Defined.

Lemma admin_stats_figures_witness :
  get_admin_stats (sample_env 1 2000) Sample.admin_token Sample.timed_out
  = (inr (mkAdminStats 2 1 0 1), Sample.timed_out).
Proof.
  assert (Hauth : authMiddleware (sample_env 1 2000) Sample.timed_out Sample.admin_token
                  = inr Sample.admin_user) by reflexivity.
  assert (Hc : NoDup (map c_id (courses Sample.timed_out))) by distinct_strings.
  assert (Hs : NoDup (map sec_id (sections Sample.timed_out))) by distinct_strings.
  exact (admin_stats_figures (services := Reference.services) (sample_env 1 2000)
           Sample.admin_token Sample.timed_out Sample.admin_user
           Hauth ltac:(reflexivity) Hc Hs).
Defined.

Lemma seed_twice_is_seed_once_witness :
  seed (sample_env 2 3000) (seeded (sample_env 1 2000) empty_db)
  = Returned tt (seeded (sample_env 1 2000) empty_db).
Proof.
  exact (seed_twice_is_seed_once (services := Reference.services)
           (sample_env 1 2000) (sample_env 2 3000) empty_db
           (seeded (sample_env 1 2000) empty_db) ltac:(reflexivity)).
Defined.

Lemma seeded_admin_logs_in_witness :
  post_auth_login (sample_env 2 3000)
    (mkLoginBody (Some "admin@attendance.com") (Some "admin123"))
    (seeded (sample_env 1 2000) empty_db)
  = (json (LoginOk "jwt.id-1-0" "id-1-0" "admin@attendance.com" role_admin None),
     seeded (sample_env 1 2000) empty_db).
Proof.
  assert (Hne : uuid (sample_env 1 2000) 1 <> uuid (sample_env 1 2000) 2) by discriminate.
  assert (Hnd : NoDup (map sec_id (sections empty_db
                                   ++ seeded_sections (sample_env 1 2000))))
    by distinct_strings.
  exact (proj1 (proj2
    (seeded_admin_logs_in (services := Reference.services)
       (sample_env 1 2000) (sample_env 2 3000) empty_db
       ltac:(reflexivity) ltac:(reflexivity) ltac:(reflexivity) Hne Hnd
       ltac:(reflexivity) ltac:(reflexivity)))).
Defined.
